(** * CredAuth: the OTP-gated verification-request lifecycle

    A shallow embedding of [core/models.py], [core/views.py] and the
    [hr_view_owner] handler of [institution/views.py].

    Tables are lists whose index is the row's primary key (no handler below
    deletes a row), [save] is an in-place update at that index, and a loaded
    model instance is the pair of its primary key and its field values.
    Handlers run in a state monad over a [World]: the relational store, the
    clock read by [timezone.now()], the console written by [print] and the
    mail outbox. *)

From Stdlib Require Import ZArith String List Bool Lia DecimalString.
From stdpp Require Import base list strings.

Open Scope string_scope.
Open Scope Z_scope.

(** ** Data model ([core/models.py], [government/models.py]) *)

(** A [DateTimeField] value: microseconds since the epoch. *)
Definition datetime := Z.

(** [timedelta(minutes=m)] in microseconds. *)
Definition timedelta_minutes (m : Z) : Z := m * 60 * 1000000.

(** [settings.AUTH_USER_MODEL]: the fields the handlers read. *)
Record User := {
  user_pk : nat;
  username : string;
  is_superuser : bool
}.

(** [request.user] is an [AnonymousUser] or a logged-in [User]. *)
Inductive Actor :=
| AnonymousUser
| LoggedIn (u : User).

Record OwnerProfile := {
  owner_profile_id_no : string;
  full_name : string;
  mobile : string;
  email : string;
  owner_profile_created_at : datetime
}.

(** [government.Business]; the many-to-many [staff] relation is the list of
    the primary keys of its staff users. *)
Record Business := {
  name : string;
  registration_number : string;
  staff : list nat
}.

Record Certificate := {
  institution : nat;
  owner : option nat;
  owner_id_no : string;
  owner_name : string;
  degree_name : string;
  program : string;
  certificate_reference : string
}.

Record AuditLog := {
  audit_user : option nat;
  action : string;
  details : string;
  audit_created_at : datetime
}.

Definition STATUS_PENDING : string := "pending".
Definition STATUS_CONFIRMED : string := "confirmed".
Definition STATUS_EXPIRED : string := "expired".

(** [status] is a [CharField]: a string, which only the code keeps inside
    [STATUS_CHOICES]. *)
Record VerificationRequest := {
  uuid : string;
  hr_user : option nat;
  hr_business : option nat;
  id_no : string;
  created_at : datetime;
  otp : string;
  otp_expires_at : datetime;
  status : string;
  confirmed_at : option datetime;
  viewed_at : option datetime;
  note : string
}.

Definition set_status (s : string) (v : VerificationRequest) : VerificationRequest :=
  {| uuid := uuid v; hr_user := hr_user v; hr_business := hr_business v;
     id_no := id_no v; created_at := created_at v; otp := otp v;
     otp_expires_at := otp_expires_at v; status := s;
     confirmed_at := confirmed_at v; viewed_at := viewed_at v; note := note v |}.

Definition set_confirmed_at (t : option datetime) (v : VerificationRequest) : VerificationRequest :=
  {| uuid := uuid v; hr_user := hr_user v; hr_business := hr_business v;
     id_no := id_no v; created_at := created_at v; otp := otp v;
     otp_expires_at := otp_expires_at v; status := status v;
     confirmed_at := t; viewed_at := viewed_at v; note := note v |}.

Definition set_viewed_at (t : option datetime) (v : VerificationRequest) : VerificationRequest :=
  {| uuid := uuid v; hr_user := hr_user v; hr_business := hr_business v;
     id_no := id_no v; created_at := created_at v; otp := otp v;
     otp_expires_at := otp_expires_at v; status := status v;
     confirmed_at := confirmed_at v; viewed_at := t; note := note v |}.

(** ** The world a handler runs in *)

Record Store := {
  owners : list OwnerProfile;
  businesses : list Business;
  certificates : list Certificate;
  requests : list VerificationRequest;
  audit_log : list AuditLog
}.

(** What [send_mail] is given: recipient, OTP and expiry of the message. *)
Record Mail := {
  recipient : string;
  mail_otp : string;
  mail_expires : datetime
}.

(** The lines [print] writes: the two debug messages of [core/views.py],
    by the values they carry. *)
Inductive ConsoleLine :=
| DEBUG_OTP_SEND (greeting otp_value : string) (expires : datetime)
| DEBUG_OTP (otp_value id : string) (expires : datetime).

(** [clock n] is what the [n]-th call of [timezone.now()] returns; [ticks]
    counts the calls made so far. [smtp_up] says whether [send_mail]
    returns ([true]) or raises ([false]). *)
Record World := {
  store : Store;
  clock : nat -> datetime;
  ticks : nat;
  smtp_up : bool;
  outbox : list Mail;
  console : list ConsoleLine
}.

Definition with_store (s : Store) (w : World) : World :=
  {| store := s; clock := clock w; ticks := ticks w; smtp_up := smtp_up w;
     outbox := outbox w; console := console w |}.

Definition with_requests (rs : list VerificationRequest) (s : Store) : Store :=
  {| owners := owners s; businesses := businesses s;
     certificates := certificates s; requests := rs;
     audit_log := audit_log s |}.

Definition with_audit_log (l : list AuditLog) (s : Store) : Store :=
  {| owners := owners s; businesses := businesses s;
     certificates := certificates s; requests := requests s;
     audit_log := l |}.

Definition with_owners (l : list OwnerProfile) (s : Store) : Store :=
  {| owners := l; businesses := businesses s;
     certificates := certificates s; requests := requests s;
     audit_log := audit_log s |}.

(** ** The handler monad: state passing over [World] *)

Definition M (A : Type) : Type := World -> A * World.

Definition ret {A} (a : A) : M A := fun w => (a, w).

Definition bind {A B} (c : M A) (k : A -> M B) : M B :=
  fun w => let (a, w') := c w in k a w'.

Notation "x <~ c ;; k" := (bind c (fun x => k))
  (at level 100, c at next level, right associativity).
Notation "c ;;; k" := (bind c (fun _ => k))
  (at level 100, right associativity).

Definition get_store : M Store := fun w => (store w, w).

Definition put_store (s : Store) : M unit := fun w => (tt, with_store s w).

(** [timezone.now()]: the next reading of the clock. *)
Definition timezone_now : M datetime :=
  fun w => (clock w (ticks w),
            {| store := store w; clock := clock w; ticks := S (ticks w);
               smtp_up := smtp_up w; outbox := outbox w;
               console := console w |}).

(** [print(...)]. *)
Definition print (l : ConsoleLine) : M unit :=
  fun w => (tt,
            {| store := store w; clock := clock w; ticks := ticks w;
               smtp_up := smtp_up w; outbox := outbox w;
               console := console w ++ [l] |}).

(** [for x in xs: body(x)]. *)
Fixpoint for_each {A B} (body : A -> M B) (xs : list A) : M (list B) :=
  match xs with
  | [] => ret []
  | x :: xs' => y <~ body x ;; ys <~ for_each body xs' ;; ret (y :: ys)
  end.

(** ** Query sets *)

(** A table read with its primary keys. *)
Definition rows {A} (table : list A) : list (nat * A) :=
  imap (fun i x => (i, x)) table.

(** [order_by("-created_at")]: insertion into a list kept in descending
    order. Rows of equal [created_at] come out in reverse table order; the
    database leaves their order open. *)
Fixpoint insert_desc (x : nat * VerificationRequest)
    (l : list (nat * VerificationRequest)) : list (nat * VerificationRequest) :=
  match l with
  | [] => [x]
  | y :: l' =>
      if created_at (snd y) <? created_at (snd x) then x :: y :: l'
      else y :: insert_desc x l'
  end.

Definition order_by_created_at_desc (l : list (nat * VerificationRequest))
    : list (nat * VerificationRequest) :=
  fold_right insert_desc [] l.

(** ** [VerificationRequest] methods *)

(** [is_expired]: [timezone.now() > self.otp_expires_at]. *)
Definition is_expired (self : VerificationRequest) : M bool :=
  now <~ timezone_now ;;
  ret (otp_expires_at self <? now).

(** [self.save()]: the row of this primary key takes the instance's fields. *)
Definition save (pk : nat) (self : VerificationRequest) : M unit :=
  s <~ get_store ;;
  put_store (with_requests (<[pk := self]> (requests s)) s).

(** [mark_confirmed]; returns the instance as the method left it. *)
Definition mark_confirmed (pk : nat) (self : VerificationRequest) : M VerificationRequest :=
  let self := set_status STATUS_CONFIRMED self in
  now <~ timezone_now ;;
  let self := set_confirmed_at (Some now) self in
  save pk self ;;;
  ret self.

(** [AuditLog.objects.create(user=..., action=..., details=...)];
    [auto_now_add] reads the clock. *)
Definition AuditLog_create (u : option nat) (act det : string) : M unit :=
  now <~ timezone_now ;;
  s <~ get_store ;;
  put_store (with_audit_log
               (audit_log s ++ [{| audit_user := u; action := act;
                                   details := det; audit_created_at := now |}]) s).

(** ** Requests and responses *)

(** The data of a request to a form view, as the view's body sees it: no
    submission, a submission the form rejects ([form.is_valid()] is false),
    or the form's [cleaned_data]. Which submissions [OwnerProfileForm] and
    [HRVerifyForm] reject beyond what their fields' own validators do is
    modelled by the forms below ([core/forms.py]); the body of a view is
    given for every [cleaned_data], the form decides which of them reach
    it. *)
Inductive Submission (A : Type) :=
| GET
| POST_invalid
| POST (cleaned_data : A).

Arguments GET {A}.
Arguments POST_invalid {A}.
Arguments POST {A} cleaned_data.

(** Levels of [django.contrib.messages]. *)
Inductive Level := INFO | SUCCESS | ERROR.

(** Exceptions no handler catches: the response is a server error. *)
Inductive Exception := MultipleObjectsReturned | IntegrityError.

(** The template context of each page. *)
Inductive Context :=
| form_context
| requests_context (listed : list (nat * VerificationRequest)) (now : datetime)
| vr_context (vr : nat * VerificationRequest)
| view_context (vr : nat * VerificationRequest) (can_view : bool)
               (shown : list Certificate).

Inductive HttpResponse :=
| render (template : string) (messages : list (Level * string)) (context : Context)
| redirect (to : string) (arg : option string) (messages : list (Level * string))
| redirect_to_login
| HttpResponseForbidden (body : string)
| Http404
| ServerError (e : Exception).

(** ** [core/views.py] *)

(** [Model.objects.get(...)] over the rows a filter kept. *)
Inductive GetResult (A : Type) :=
| Got (pk : nat) (obj : A)
| DoesNotExist
| Multiple.

Arguments Got {A} pk obj.
Arguments DoesNotExist {A}.
Arguments Multiple {A}.

Definition get {A} (matching : list (nat * A)) : GetResult A :=
  match matching with
  | [] => DoesNotExist
  | [(pk, obj)] => Got pk obj
  | _ => Multiple
  end.

Definition OwnerProfile_get (s : Store) (id : string) : GetResult OwnerProfile :=
  get (List.filter (fun r => String.eqb (owner_profile_id_no (snd r)) id)
                   (rows (owners s))).

Definition VerificationRequest_get (s : Store) (u : string) : GetResult VerificationRequest :=
  get (List.filter (fun r => String.eqb (uuid (snd r)) u) (rows (requests s))).

(** [business.staff.filter(pk=user.pk).exists()] for the business of
    primary key [b]. *)
Definition staff_exists (s : Store) (b : nat) (u : User) : bool :=
  match businesses s !! b with
  | Some biz => existsb (Nat.eqb (user_pk u)) (staff biz)
  | None => false
  end.

(** [Business.objects.filter(staff=user).values_list("pk", flat=True)]. *)
Definition businesses_of (s : Store) (u : User) : list nat :=
  map fst (List.filter (fun r => existsb (Nat.eqb (user_pk u)) (staff (snd r)))
                       (rows (businesses s))).

(** ** The forms ([core/forms.py])

    A form turns the posted data into what the body of its view sees.
    [posted] is the request as far as the validators of the single fields
    tell: [POST] carries values they accept, [POST_invalid] stands for
    values they reject. *)

(** [OwnerProfileForm(request.POST)]: a [ModelForm] built without an
    instance, so [is_valid()] also checks the [unique] column [id_no]
    against the table and rejects an [id_no] that is stored. *)
Definition OwnerProfileForm (s : Store)
    (posted : Submission (string * string * string * string))
    : Submission (string * string * string * string) :=
  match posted with
  | POST (id_no_, full_name_, mobile_, email_) =>
      if existsb (fun o => String.eqb (owner_profile_id_no o) id_no_) (owners s)
      then POST_invalid
      else POST (id_no_, full_name_, mobile_, email_)
  | GET => GET
  | POST_invalid => POST_invalid
  end.

(** [HRVerifyForm(request.POST, user=request.user)]: [business] is a
    [ModelChoiceField], not required, whose query set [__init__] sets to
    [Business.objects.filter(staff=user)]. The posted primary key, if any,
    must be of a business of that query set; [cleaned_data] then holds the
    business itself. *)
Definition HRVerifyForm (s : Store) (user : User)
    (posted : Submission (string * option nat))
    : Submission (string * option (nat * Business)) :=
  match posted with
  | POST (id_no_, None) => POST (id_no_, None)
  | POST (id_no_, Some b) =>
      match businesses s !! b with
      | Some biz =>
          if existsb (Nat.eqb (user_pk user)) (staff biz)
          then POST (id_no_, Some (b, biz))
          else POST_invalid
      | None => POST_invalid
      end
  | GET => GET
  | POST_invalid => POST_invalid
  end.

(** [send_mail]: [None] when it raises. *)
Definition send_mail (m : Mail) : M (option unit) :=
  fun w =>
    if smtp_up w
    then (Some tt,
          {| store := store w; clock := clock w; ticks := ticks w;
             smtp_up := smtp_up w; outbox := outbox w ++ [m];
             console := console w |})
    else (None, w).

(** [send_otp_to_owner]: [None] when the exception of [send_mail] leaves
    the function, before its [print]. *)
Definition send_otp_to_owner (owner_ : OwnerProfile) (otp_ : string)
    (request_obj : VerificationRequest) : M (option unit) :=
  let greeting :=
    if String.eqb (full_name owner_) "" then owner_profile_id_no owner_
    else full_name owner_ in
  sent <~ (if String.eqb (email owner_) "" then ret (Some tt)
           else send_mail {| recipient := email owner_; mail_otp := otp_;
                             mail_expires := otp_expires_at request_obj |}) ;;
  match sent with
  | None => ret None
  | Some _ =>
      print (DEBUG_OTP_SEND greeting otp_ (otp_expires_at request_obj)) ;;;
      ret (Some tt)
  end.

Definition owner_confirm_template : string := "core/owner_confirm.html".
Definition msg_no_match : string :=
  "No matching pending verification request found or OTP invalid/expired.".
Definition msg_otp_expired : string := "OTP has expired.".
Definition msg_otp_accepted : string :=
  "OTP accepted. HR may now view your records for that request.".

(** [owner_profile], from the outcome of its form on:
    [OwnerProfile.objects.update_or_create(id_no=id_no, defaults={...})] on
    the form's [id_no], [full_name], [mobile], [email]. A request reaches it
    through [OwnerProfileForm]. *)
Definition owner_profile (sub : Submission (string * string * string * string))
    : M HttpResponse :=
  match sub with
  | POST (id_no_, full_name_, mobile_, email_) =>
      s <~ get_store ;;
      match OwnerProfile_get s id_no_ with
      | Multiple => ret (ServerError MultipleObjectsReturned)
      | Got pk profile =>
          let profile := {| owner_profile_id_no := owner_profile_id_no profile;
                            full_name := full_name_; mobile := mobile_;
                            email := email_;
                            owner_profile_created_at :=
                              owner_profile_created_at profile |} in
          put_store (with_owners (<[pk := profile]> (owners s)) s) ;;;
          ret (redirect "core:owner_profile" None
                 [(SUCCESS, "Profile saved. If this is your mobile/email, you will receive OTPs when verification is requested.")])
      | DoesNotExist =>
          now <~ timezone_now ;;
          let profile := {| owner_profile_id_no := id_no_;
                            full_name := full_name_; mobile := mobile_;
                            email := email_;
                            owner_profile_created_at := now |} in
          put_store (with_owners (owners s ++ [profile]) s) ;;;
          ret (redirect "core:owner_profile" None
                 [(SUCCESS, "Profile saved. If this is your mobile/email, you will receive OTPs when verification is requested.")])
      end
  | _ => ret (render "core/owner_profile.html" [] form_context)
  end.

(** The filter of [owner_confirm_otp]:
    [filter(id_no=id_no, otp=otp, status=STATUS_PENDING)]. *)
Definition matches_pending (id_no_ otp_ : string) (v : VerificationRequest) : bool :=
  String.eqb (id_no v) id_no_
  && String.eqb (otp v) otp_
  && String.eqb (status v) STATUS_PENDING.

(** Its query set, [.order_by("-created_at")]. *)
Definition pending_queryset (s : Store) (id_no_ otp_ : string)
    : list (nat * VerificationRequest) :=
  order_by_created_at_desc
    (List.filter (fun r => matches_pending id_no_ otp_ (snd r))
                 (rows (requests s))).

(** [owner_confirm_otp]: the form gives [id_no] and [otp]. *)
Definition owner_confirm_otp (sub : Submission (string * string)) : M HttpResponse :=
  match sub with
  | POST (id_no_, otp_) =>
      s <~ get_store ;;
      let qs := pending_queryset s id_no_ otp_ in
      match qs with
      | [] => ret (render owner_confirm_template [(ERROR, msg_no_match)] form_context)
      | (pk, vr) :: _ =>
          expired <~ is_expired vr ;;
          if expired then
            let vr := set_status STATUS_EXPIRED vr in
            save pk vr ;;;
            ret (render owner_confirm_template [(ERROR, msg_otp_expired)] form_context)
          else
            vr <~ mark_confirmed pk vr ;;
            AuditLog_create None "owner_confirmed"
              ("Owner " ++ id_no_ ++ " confirmed request " ++ uuid vr) ;;;
            ret (redirect "core:owner_confirm_otp" None [(SUCCESS, msg_otp_accepted)])
      end
  | _ => ret (render owner_confirm_template [] form_context)
  end.

(** [random.randint(a, b)] from the generator's next draw: a value of
    [a..b]. *)
Definition randint (a b draw : Z) : Z := a + draw mod (b - a + 1).

(** [f"{n}"] for an integer. *)
Definition str_int (n : Z) : string := NilZero.string_of_int (Z.to_int n).

(** [Business.__str__], and [f"{business}"] when it is [None]. *)
Definition str_business (b : option (nat * Business)) : string :=
  match b with
  | Some (_, biz) => name biz ++ " (" ++ registration_number biz ++ ")"
  | None => "None"
  end.

(** [VerificationRequest.objects.create(...)]: [uuid] is the [uuid4] drawn
    for the instance, [created_at] the clock at the insert; a [uuid] already
    in the table breaks its [unique] constraint. *)
Definition VerificationRequest_create (new_uuid : string) (hr_user_ : option nat)
    (hr_business_ : option nat) (id_no_ otp_ : string) (expires : datetime)
    : M (option (nat * VerificationRequest)) :=
  now <~ timezone_now ;;
  s <~ get_store ;;
  if existsb (fun r => String.eqb (uuid r) new_uuid) (requests s) then ret None
  else
    let vr := {| uuid := new_uuid; hr_user := hr_user_;
                 hr_business := hr_business_; id_no := id_no_;
                 created_at := now; otp := otp_; otp_expires_at := expires;
                 status := STATUS_PENDING; confirmed_at := None;
                 viewed_at := None; note := "" |} in
    put_store (with_requests (requests s ++ [vr]) s) ;;;
    ret (Some (length (requests s), vr)).

Definition hr_verify_template : string := "core/hr_verify.html".
Definition msg_not_authorized_business : string :=
  "You are not authorized to act on behalf of that business.".
Definition msg_no_owner : string :=
  "No owner profile found for that ID. Ask the applicant to register first.".
Definition msg_not_staff : string :=
  "You are not assigned as staff to any business. You may still request verifications but cannot act on behalf of a business until assigned.".

(** The business gate of [hr_verify]:
    [business and not (request.user.is_superuser or
    business.staff.filter(pk=request.user.pk).exists())]. *)
Definition acts_without_authority (s : Store) (u : User)
    (business : option (nat * Business)) : bool :=
  match business with
  | Some (b, _) => negb (is_superuser u || staff_exists s b u)
  | None => false
  end.

(** [hr_verify], from the outcome of its form on: the form gives [id_no]
    and the selected business, if any; [draw] and [new_uuid] are what the
    random generator and [uuid4] give this request. A request reaches it
    through [HRVerifyForm]. [Business] is never [None] here:
    [core/forms.py], which the module imports first, imports
    [government.models] itself. *)
Definition hr_verify (user : Actor)
    (sub : Submission (string * option (nat * Business)))
    (draw : Z) (new_uuid : string) : M HttpResponse :=
  match user with
  | AnonymousUser => ret redirect_to_login
  | LoggedIn u =>
      match sub with
      | POST (id_no_, business) =>
          s <~ get_store ;;
          if acts_without_authority s u business
          then ret (render hr_verify_template
                           [(ERROR, msg_not_authorized_business)] form_context)
          else
            match OwnerProfile_get s id_no_ with
            | DoesNotExist =>
                ret (render hr_verify_template [(ERROR, msg_no_owner)] form_context)
            | Multiple => ret (ServerError MultipleObjectsReturned)
            | Got _ owner_ =>
                let otp_ := str_int (randint 100000 999999 draw) in
                now <~ timezone_now ;;
                let expires := now + timedelta_minutes 10 in
                created <~ VerificationRequest_create new_uuid (Some (user_pk u))
                             (option_map fst business) id_no_ otp_ expires ;;
                match created with
                | None => ret (ServerError IntegrityError)
                | Some (_, vr) =>
                    sent <~ send_otp_to_owner owner_ otp_ vr ;;
                    match sent with
                    | Some _ => ret tt
                    | None => print (DEBUG_OTP otp_ id_no_ expires)
                    end ;;;
                    AuditLog_create (Some (user_pk u)) "requested_verification"
                      ("Requested verification for " ++ id_no_
                       ++ " on behalf of " ++ str_business business) ;;;
                    ret (redirect "core:hr_request_status" (Some (uuid vr))
                           [(SUCCESS,
                             "OTP sent to owner (if owner has registered email). Request ID: "
                             ++ uuid vr)])
                end
            end
      | _ =>
          s <~ get_store ;;
          let user_businesses := businesses_of s u in
          if negb (is_superuser u) && negb (0 <? length user_businesses)%nat
          then ret (render hr_verify_template [(INFO, msg_not_staff)] form_context)
          else ret (render hr_verify_template [] form_context)
      end
  end.

(** The lazy expiry of [hr_request_list] and [hr_request_status]:
    [if v.status == PENDING and v.is_expired(): v.status = EXPIRED; v.save()];
    returns the instance as it is afterwards. *)
Definition expire_if_needed (r : nat * VerificationRequest) : M (nat * VerificationRequest) :=
  let (pk, v) := r in
  if String.eqb (status v) STATUS_PENDING then
    expired <~ is_expired v ;;
    if expired then
      let v := set_status STATUS_EXPIRED v in
      save pk v ;;; ret (pk, v)
    else ret (pk, v)
  else ret (pk, v).

(** [hr_request_list]. *)
Definition hr_request_list (user : Actor) : M HttpResponse :=
  match user with
  | AnonymousUser => ret redirect_to_login
  | LoggedIn u =>
      s <~ get_store ;;
      let qs :=
        if is_superuser u then order_by_created_at_desc (rows (requests s))
        else
          let business_pks := businesses_of s u in
          order_by_created_at_desc
            (List.filter
               (fun r =>
                  match hr_user (snd r) with
                  | Some p => Nat.eqb p (user_pk u)
                  | None => false
                  end
                  || match hr_business (snd r) with
                     | Some b => existsb (Nat.eqb b) business_pks
                     | None => false
                     end)
               (rows (requests s))) in
      listed <~ for_each expire_if_needed qs ;;
      now <~ timezone_now ;;
      ret (render "core/hr_request_list.html" [] (requests_context listed now))
  end.

(** [hr_request_status]. *)
Definition hr_request_status (user : Actor) (uuid_ : string) : M HttpResponse :=
  match user with
  | AnonymousUser => ret redirect_to_login
  | LoggedIn u =>
      s <~ get_store ;;
      match VerificationRequest_get s uuid_ with
      | DoesNotExist => ret Http404
      | Multiple => ret (ServerError MultipleObjectsReturned)
      | Got pk vr =>
          vr <~ expire_if_needed (pk, vr) ;;
          ret (render "core/hr_request_status.html" [] (vr_context vr))
      end
  end.

(** [Certificate.objects.filter(owner_id_no=vr.id_no)]. *)
Definition certificates_of (s : Store) (vr : VerificationRequest) : list Certificate :=
  List.filter (fun c => String.eqb (owner_id_no c) (id_no vr)) (certificates s).

Definition msg_forbidden : string :=
  "You are not authorized to view this verification request.".

(** The [allowed] flag of [hr_view_request]. *)
Definition allowed (s : Store) (u : User) (vr : VerificationRequest) : bool :=
  let allowed := false in
  let allowed := if is_superuser u then true else allowed in
  let allowed :=
    match hr_user vr with
    | Some p => if Nat.eqb p (user_pk u) then true else allowed
    | None => allowed
    end in
  let allowed :=
    match hr_business vr with
    | Some b => if staff_exists s b u then true else allowed
    | None => allowed
    end in
  allowed.

(** [hr_view_request]. *)
Definition hr_view_request (user : Actor) (uuid_ : string) : M HttpResponse :=
  match user with
  | AnonymousUser => ret redirect_to_login
  | LoggedIn u =>
      s <~ get_store ;;
      match VerificationRequest_get s uuid_ with
      | DoesNotExist => ret Http404
      | Multiple => ret (ServerError MultipleObjectsReturned)
      | Got pk vr =>
          if negb (allowed s u vr) then ret (HttpResponseForbidden msg_forbidden)
          else
            can_view <~ (if String.eqb (status vr) STATUS_CONFIRMED
                         then expired <~ is_expired vr ;; ret (negb expired)
                         else ret false) ;;
            if can_view then
              let shown := certificates_of s vr in
              now <~ timezone_now ;;
              let vr := set_viewed_at (Some now) vr in
              save pk vr ;;;
              AuditLog_create (Some (user_pk u)) "hr_viewed"
                ("HR viewed records for " ++ id_no vr
                 ++ " (request " ++ uuid vr ++ ")") ;;;
              ret (render "institution/hr_view_owner.html" []
                          (view_context (pk, vr) true shown))
            else
              ret (render "institution/hr_view_owner.html" []
                          (view_context (pk, vr) false []))
      end
  end.

(** ** [institution/views.py] *)

(** The gate of [hr_view_owner]:
    [request.user.is_superuser or (vr.hr_user and vr.hr_user.pk == request.user.pk)]. *)
Definition requester_or_superuser (u : User) (vr : VerificationRequest) : bool :=
  is_superuser u
  || match hr_user vr with
     | Some p => Nat.eqb p (user_pk u)
     | None => false
     end.

(** [hr_view_owner]. *)
Definition hr_view_owner (user : Actor) (uuid_ : string) : M HttpResponse :=
  match user with
  | AnonymousUser => ret redirect_to_login
  | LoggedIn u =>
      s <~ get_store ;;
      match VerificationRequest_get s uuid_ with
      | DoesNotExist => ret Http404
      | Multiple => ret (ServerError MultipleObjectsReturned)
      | Got pk vr =>
          if negb (requester_or_superuser u vr)
          then ret (HttpResponseForbidden msg_forbidden)
          else
            can_view <~ (if String.eqb (status vr) STATUS_CONFIRMED
                         then expired <~ is_expired vr ;; ret (negb expired)
                         else ret false) ;;
            if can_view then
              let shown := certificates_of s vr in
              now <~ timezone_now ;;
              let vr := set_viewed_at (Some now) vr in
              save pk vr ;;;
              AuditLog_create (Some (user_pk u)) "hr_viewed"
                ("HR " ++ username u ++ " viewed records for " ++ id_no vr
                 ++ " (request " ++ uuid vr ++ ")") ;;;
              ret (render "institution/hr_view_owner.html" []
                          (view_context (pk, vr) true shown))
            else
              ret (render "institution/hr_view_owner.html" []
                          (view_context (pk, vr) false []))
      end
  end.

(** ** Sequences of operations *)

(** One request to one of the handlers above, with what its environment
    supplies. *)
Inductive Operation :=
| Owner_profile (sub : Submission (string * string * string * string))
| Owner_confirm_otp (sub : Submission (string * string))
| Hr_verify (user : Actor) (sub : Submission (string * option (nat * Business)))
            (draw : Z) (new_uuid : string)
| Hr_request_list (user : Actor)
| Hr_request_status (user : Actor) (uuid_ : string)
| Hr_view_request (user : Actor) (uuid_ : string)
| Hr_view_owner (user : Actor) (uuid_ : string).

Definition handle (op : Operation) : M HttpResponse :=
  match op with
  | Owner_profile sub => owner_profile sub
  | Owner_confirm_otp sub => owner_confirm_otp sub
  | Hr_verify user sub draw new_uuid => hr_verify user sub draw new_uuid
  | Hr_request_list user => hr_request_list user
  | Hr_request_status user uuid_ => hr_request_status user uuid_
  | Hr_view_request user uuid_ => hr_view_request user uuid_
  | Hr_view_owner user uuid_ => hr_view_owner user uuid_
  end.

(** The world after a sequence of requests, served one after the other. *)
Fixpoint run (ops : list Operation) (w : World) : World :=
  match ops with
  | [] => w
  | op :: ops' => run ops' (snd (handle op w))
  end.

(** A fresh deployment: empty tables. *)
Definition empty_store : Store :=
  {| owners := []; businesses := []; certificates := []; requests := [];
     audit_log := [] |}.

(** ** Vocabulary of the properties *)

(** The world [n] readings of the clock later. *)
Definition tick (n : nat) (w : World) : World :=
  {| store := store w; clock := clock w; ticks := (n + ticks w)%nat;
     smtp_up := smtp_up w; outbox := outbox w; console := console w |}.

(** A response of a view handler that shows the owner's certificates:
    the page carries, in table order, every certificate of the store whose
    [owner_id_no] is the [id_no] of the request, and no other. *)
Definition shows_certificates (s : Store) (vr : VerificationRequest)
    (resp : HttpResponse) : Prop :=
  exists shown_vr,
    resp = render "institution/hr_view_owner.html" []
                  (view_context shown_vr true
                     (List.filter (fun c => String.eqb (owner_id_no c) (id_no vr))
                                  (certificates s))).

(** A response of a view handler that lets the actor in: the page is
    rendered, with or without certificates. *)
Definition grants_access (resp : HttpResponse) : Prop :=
  exists shown_vr can_view shown,
    resp = render "institution/hr_view_owner.html" []
                  (view_context shown_vr can_view shown).

(** The steps a status may take: none, or out of [pending]. *)
Definition status_step (a b : string) : Prop :=
  a = b \/ (a = STATUS_PENDING /\ (b = STATUS_CONFIRMED \/ b = STATUS_EXPIRED)).

(** A status of [STATUS_CHOICES]. *)
Definition valid_status (a : string) : Prop :=
  a = STATUS_PENDING \/ a = STATUS_CONFIRMED \/ a = STATUS_EXPIRED.

(** The shape the handlers keep every stored request in. *)
Definition wf_request (r : VerificationRequest) : Prop :=
  valid_status (status r)
  /\ (status r = STATUS_PENDING -> confirmed_at r = None)
  /\ (viewed_at r <> None -> status r = STATUS_CONFIRMED).

Definition wf_store (s : Store) : Prop := Forall wf_request (requests s).

(** The world after a successful view of row [pk] by [u], and the audit
    line it appends. *)
Definition viewed_world (w : World) (u : User) (pk : nat)
    (vr : VerificationRequest) (audit_details : string) : World :=
  with_store
    (with_audit_log
       (audit_log (store w)
        ++ [{| audit_user := Some (user_pk u); action := "hr_viewed";
               details := audit_details;
               audit_created_at := clock w (S (S (ticks w))) |}])
       (with_requests
          (<[pk := set_viewed_at (Some (clock w (S (ticks w)))) vr]>
             (requests (store w)))
          (store w)))
    (tick 3 w).

(** "The certificates are returned exactly when the request is confirmed
    and unexpired at the call", said of every call of a view handler. *)
Definition returns_certificates_iff_confirmed_unexpired
    (view : Actor -> string -> M HttpResponse) : Prop :=
  forall w u uuid_ pk vr,
    VerificationRequest_get (store w) uuid_ = Got pk vr ->
    (shows_certificates (store w) vr (fst (view (LoggedIn u) uuid_ w))
     <-> status vr = STATUS_CONFIRMED /\ clock w (ticks w) <= otp_expires_at vr).

(** The actors the view operation is meant for: a superuser, the user who
    made the request, a staff member of its business. *)
Definition requester_superuser_or_staff (s : Store) (u : User)
    (vr : VerificationRequest) : Prop :=
  is_superuser u = true
  \/ hr_user vr = Some (user_pk u)
  \/ exists b, hr_business vr = Some b /\ staff_exists s b u = true.

(** "Access is granted exactly to those actors", said of a view handler. *)
Definition grants_access_to_requester_superuser_or_staff
    (view : Actor -> string -> M HttpResponse) : Prop :=
  forall w u uuid_ pk vr,
    VerificationRequest_get (store w) uuid_ = Got pk vr ->
    (grants_access (fst (view (LoggedIn u) uuid_ w))
     <-> requester_superuser_or_staff (store w) u vr).

(** "A [viewed_at] already set is not overwritten", said of a view
    handler. *)
Definition keeps_first_viewed_at
    (view : Actor -> string -> M HttpResponse) : Prop :=
  forall w u uuid_ pk vr t r',
    VerificationRequest_get (store w) uuid_ = Got pk vr ->
    viewed_at vr = Some t ->
    requests (store (snd (view (LoggedIn u) uuid_ w))) !! pk = Some r' ->
    viewed_at r' = Some t.

(** "A second Confirm with the same OTP after a successful confirmation
    fails with NotFound", said of every confirmation. *)
Definition second_confirm_not_found : Prop :=
  forall w id_no_ otp_,
    let first := owner_confirm_otp (POST (id_no_, otp_)) w in
    fst first = redirect "core:owner_confirm_otp" None [(SUCCESS, msg_otp_accepted)] ->
    fst (owner_confirm_otp (POST (id_no_, otp_)) (snd first))
    = render owner_confirm_template [(ERROR, msg_no_match)] form_context.

(** "A Create for a business of which the user is neither a superuser nor
    staff fails with an Authorization error and creates no request", said
    of every request to [hr_verify]: [business] is the posted key. *)
Definition create_fails_with_authorization_error : Prop :=
  forall w u id_no_ b draw new_uuid,
    is_superuser u = false ->
    staff_exists (store w) b u = false ->
    let result := hr_verify (LoggedIn u)
                    (HRVerifyForm (store w) u (POST (id_no_, Some b)))
                    draw new_uuid w in
    fst result = render hr_verify_template
                        [(ERROR, msg_not_authorized_business)] form_context
    /\ requests (store (snd result)) = requests (store w).

(** The lazy expiry, seen on one row: nothing, or pending to expired. *)
Definition expiry_only (r r' : VerificationRequest) : Prop :=
  r' = r \/ (status r = STATUS_PENDING /\ r' = set_status STATUS_EXPIRED r).

(** [op], served in [w], is a view of the request [r] that shows its
    owner's certificates. *)
Definition successful_view_of (op : Operation) (w : World)
    (r : VerificationRequest) : Prop :=
  exists u,
    (op = Hr_view_request (LoggedIn u) (uuid r)
     \/ op = Hr_view_owner (LoggedIn u) (uuid r))
    /\ status r = STATUS_CONFIRMED
    /\ clock w (ticks w) <= otp_expires_at r
    /\ shows_certificates (store w) r (fst (handle op w)).

(** What serving [op] in [w] may do to a stored request. *)
Inductive row_step (op : Operation) (w : World) (r : VerificationRequest)
    : VerificationRequest -> Prop :=
| step_same : row_step op w r r
| step_expire :
    status r = STATUS_PENDING -> row_step op w r (set_status STATUS_EXPIRED r)
| step_confirm (t : datetime) :
    status r = STATUS_PENDING ->
    row_step op w r (set_confirmed_at (Some t) (set_status STATUS_CONFIRMED r))
| step_view :
    successful_view_of op w r ->
    row_step op w r (set_viewed_at (Some (clock w (S (ticks w)))) r).

(** A request as [VerificationRequest.objects.create] stores it. *)
Definition fresh_request (r : VerificationRequest) : Prop :=
  status r = STATUS_PENDING /\ confirmed_at r = None /\ viewed_at r = None.

(** Two states of a table with the same rows, each row related by [R]. *)
Definition table_evolves (R : VerificationRequest -> VerificationRequest -> Prop)
    (rs rs' : list VerificationRequest) : Prop :=
  length rs = length rs'
  /\ forall pk r, rs !! pk = Some r -> exists r', rs' !! pk = Some r' /\ R r r'.

(** "Exactly one of pending, confirmed, expired". *)
Definition exactly_one_status (a : string) : Prop :=
  (a = STATUS_PENDING /\ a <> STATUS_CONFIRMED /\ a <> STATUS_EXPIRED)
  \/ (a = STATUS_CONFIRMED /\ a <> STATUS_PENDING /\ a <> STATUS_EXPIRED)
  \/ (a = STATUS_EXPIRED /\ a <> STATUS_PENDING /\ a <> STATUS_CONFIRMED).

(** ** A small deployment, for the examples *)

Definition alice : User := {| user_pk := 1; username := "alice"; is_superuser := false |}.
Definition bob : User := {| user_pk := 2; username := "bob"; is_superuser := false |}.
Definition carol : User := {| user_pk := 3; username := "carol"; is_superuser := false |}.

Definition ann : OwnerProfile :=
  {| owner_profile_id_no := "A123"; full_name := "Ann"; mobile := "0700";
     email := "ann@example.org"; owner_profile_created_at := 10 |}.

(** [bob] is staff of the business; [alice] and [carol] are not. *)
Definition acme : Business :=
  {| name := "Acme"; registration_number := "R-1"; staff := [2%nat] |}.

Definition diploma : Certificate :=
  {| institution := 0; owner := Some 0%nat; owner_id_no := "A123";
     owner_name := "Ann"; degree_name := "BSc"; program := "Physics";
     certificate_reference := "C-77" |}.

(** A request of [alice] for [acme] about [ann], in the given state. *)
Definition request_of_alice (status_ : string) (confirmed_at_ viewed_at_ : option datetime)
    : VerificationRequest :=
  {| uuid := "u-1"; hr_user := Some 1%nat; hr_business := Some 0%nat;
     id_no := "A123"; created_at := 1000; otp := "123456";
     otp_expires_at := 5000; status := status_;
     confirmed_at := confirmed_at_; viewed_at := viewed_at_; note := "" |}.

Definition pending_request : VerificationRequest :=
  request_of_alice STATUS_PENDING None None.

Definition confirmed_request : VerificationRequest :=
  request_of_alice STATUS_CONFIRMED (Some 2000) None.

(** The same request, confirmed and already viewed once, at 2500. *)
Definition viewed_request : VerificationRequest :=
  request_of_alice STATUS_CONFIRMED (Some 2000) (Some 2500).

(** The deployment holding the requests [rs], with the clock at [t] and
    advancing by one at each reading. *)
Definition world_at (rs : list VerificationRequest) (t : datetime) : World :=
  {| store := {| owners := [ann]; businesses := [acme];
                 certificates := [diploma]; requests := rs; audit_log := [] |};
     clock := fun n => t + Z.of_nat n; ticks := 0; smtp_up := false;
     outbox := []; console := [] |}.

(** A fresh deployment whose clock starts at [t]. *)
Definition fresh_world (t : datetime) : World :=
  {| store := empty_store; clock := fun n => t + Z.of_nat n; ticks := 0;
     smtp_up := true; outbox := []; console := [] |}.

(** Ann registers, [alice] asks for her records, Ann confirms, [alice]
    views them, then lists her requests. *)
Definition a_day_of_requests : list Operation :=
  [Owner_profile (POST ("A123", "Ann", "0700", "ann@example.org"));
   Hr_verify (LoggedIn alice) (POST ("A123", None)) 42 "u-9";
   Owner_confirm_otp (POST ("A123", "100042"));
   Hr_view_request (LoggedIn alice) "u-9";
   Hr_request_list (LoggedIn alice)].

(** Ann registers, then [alice] asks for her records twice, and the random
    generator draws the same number both times: two pending requests of
    the same [id_no] and [otp]. *)
Definition two_requests_same_otp : World :=
  run [Owner_profile (OwnerProfileForm empty_store
                        (POST ("A123", "Ann", "0700", "ann@example.org")));
       Hr_verify (LoggedIn alice) (POST ("A123", None)) 42 "u-8";
       Hr_verify (LoggedIn alice) (POST ("A123", None)) 42 "u-9"]
      (fresh_world 1000).

(** ** Vocabulary of the further properties *)

From Stdlib Require Decimal DecimalPos Sorted.

(** The columns of a request that no handler assigns after the insert. *)
Definition same_identity (r r' : VerificationRequest) : Prop :=
  uuid r' = uuid r /\ hr_user r' = hr_user r /\ hr_business r' = hr_business r
  /\ id_no r' = id_no r /\ created_at r' = created_at r /\ otp r' = otp r
  /\ otp_expires_at r' = otp_expires_at r /\ note r' = note r.

(** A request is confirmed exactly when it carries a confirmation time. *)
Definition confirmation_recorded (r : VerificationRequest) : Prop :=
  status r = STATUS_CONFIRMED <-> confirmed_at r <> None.

(** The [unique] columns hold distinct values. *)
Definition unique_keys (s : Store) : Prop :=
  List.NoDup (map uuid (requests s))
  /\ List.NoDup (map owner_profile_id_no (owners s)).

(** A view page that shows certificates, whichever they are. *)
Definition shows_some_certificates (resp : HttpResponse) : Prop :=
  exists shown_vr shown,
    resp = render "institution/hr_view_owner.html" []
                  (view_context shown_vr true shown).

(** A clock that never runs backwards. *)
Definition monotone_clock (w : World) : Prop :=
  forall m n, (m <= n)%nat -> clock w m <= clock w n.

(** The requests [hr_request_list] shows to a user. *)
Definition visible_to (s : Store) (u : User) (r : VerificationRequest) : Prop :=
  is_superuser u = true
  \/ hr_user r = Some (user_pk u)
  \/ exists b biz, hr_business r = Some b /\ businesses s !! b = Some biz
                   /\ In (user_pk u) (staff biz).

(** The request [hr_verify] stores for [u], served in [w]. *)
Definition new_request (w : World) (u : User) (id_no_ : string)
    (business : option (nat * Business)) (draw : Z) (new_uuid : string)
    : VerificationRequest :=
  {| uuid := new_uuid; hr_user := Some (user_pk u);
     hr_business := option_map fst business; id_no := id_no_;
     created_at := clock w (S (ticks w));
     otp := str_int (randint 100000 999999 draw);
     otp_expires_at := clock w (ticks w) + timedelta_minutes 10;
     status := STATUS_PENDING; confirmed_at := None; viewed_at := None;
     note := "" |}.

(** The requests on the page [hr_request_list] answers with. *)
Definition listed_requests (resp : HttpResponse) : list (nat * VerificationRequest) :=
  match resp with
  | render _ _ (requests_context listed _) => listed
  | _ => []
  end.

(** Newest first. *)
Definition newer_first (a b : nat * VerificationRequest) : Prop :=
  created_at (snd b) <= created_at (snd a).

(** The decimal digit [a] in front of the numeral [rest]. *)
Definition cons_digit (a : Z) (rest : Decimal.uint) : Decimal.uint :=
  match a with
  | 0 => Decimal.D0 rest | 1 => Decimal.D1 rest | 2 => Decimal.D2 rest
  | 3 => Decimal.D3 rest | 4 => Decimal.D4 rest | 5 => Decimal.D5 rest
  | 6 => Decimal.D6 rest | 7 => Decimal.D7 rest | 8 => Decimal.D8 rest
  | _ => Decimal.D9 rest
  end.

(** The character of a decimal digit. *)
Definition digit_char (a : Z) : Ascii.ascii := Ascii.ascii_of_nat (48 + Z.to_nat a).

(** The digit of [n] of weight [10 ^ k]. *)
Definition decimal_digit (n k : Z) : Z := (n / 10 ^ k) mod 10.

(** The six digits of [n], most significant first. *)
Definition six_digits (n : Z) : string :=
  String (digit_char (decimal_digit n 5))
    (String (digit_char (decimal_digit n 4))
       (String (digit_char (decimal_digit n 3))
          (String (digit_char (decimal_digit n 2))
             (String (digit_char (decimal_digit n 1))
                (String (digit_char (decimal_digit n 0)) ""))))).

Ltac digit_cases a :=
  let Hcases := fresh "Hcases" in
  assert (Hcases : a = 0 \/ a = 1 \/ a = 2 \/ a = 3 \/ a = 4 \/ a = 5 \/ a = 6
                   \/ a = 7 \/ a = 8 \/ a = 9) by lia;
  repeat (destruct Hcases as [Hcases | Hcases]; [subst a | ]); [..| subst a].

(** The query set [hr_request_list] builds for a logged-in user. *)
Definition user_queryset (s : Store) (u : User) : list (nat * VerificationRequest) :=
  if is_superuser u then order_by_created_at_desc (rows (requests s))
  else
    order_by_created_at_desc
      (List.filter
         (fun r =>
            match hr_user (snd r) with
            | Some p => Nat.eqb p (user_pk u)
            | None => false
            end
            || match hr_business (snd r) with
               | Some b => existsb (Nat.eqb b) (businesses_of s u)
               | None => false
               end)
         (rows (requests s))).

(** ** Roles, institutions and certificate management
    ([core/views.py], [institution/views.py], [government/views.py])

    The handlers below read and write tables that the request handlers
    above never touch. A [Site] carries them beside the [World]: the
    institutions (their primary key is their position: no handler deletes
    one), the certificate table with the columns that the HR views do not
    read (primary key, [conferral_date], [created_at]) and the membership of
    users in groups. The [certificates] of the store are the [Certificate]
    columns of the certificate table, in table order. *)

Record Institution := {
  institution_name : string;
  code : string;
  institution_contact_email : option string;
  institution_staff : list nat;
  verified : bool
}.

Record CertificateRow := {
  certificate_pk : nat;
  certificate : Certificate;
  conferral_date : option Z;
  certificate_created_at : datetime
}.

Record Site := {
  world : World;
  institutions : list Institution;
  certificate_table : list CertificateRow;
  next_certificate_pk : nat;
  auth_user_groups : list (nat * string)
}.

Definition with_certificates (l : list Certificate) (s : Store) : Store :=
  {| owners := owners s; businesses := businesses s; certificates := l;
     requests := requests s; audit_log := audit_log s |}.

(** The site after a write to the certificate table: the store shows the
    [Certificate] columns of the new table. *)
Definition with_certificate_table (table : list CertificateRow) (next : nat)
    (w : World) (st : Site) : Site :=
  {| world := with_store (with_certificates (map certificate table) (store w)) w;
     institutions := institutions st;
     certificate_table := table;
     next_certificate_pk := next;
     auth_user_groups := auth_user_groups st |}.

Definition with_world (w : World) (st : Site) : Site :=
  {| world := w; institutions := institutions st;
     certificate_table := certificate_table st;
     next_certificate_pk := next_certificate_pk st;
     auth_user_groups := auth_user_groups st |}.

Definition with_institutions (l : list Institution) (w : World) (st : Site) : Site :=
  {| world := w; institutions := l;
     certificate_table := certificate_table st;
     next_certificate_pk := next_certificate_pk st;
     auth_user_groups := auth_user_groups st |}.

(** [user.groups]: the names of the groups of a user. *)
Definition group_names (st : Site) (u : User) : list string :=
  map snd (List.filter (fun g => Nat.eqb (fst g) (user_pk u)) (auth_user_groups st)).

(** The dict [_user_roles] returns. *)
Record Roles := {
  is_government : bool;
  is_institution_staff : bool;
  is_business_hr : bool;
  is_owner : bool;
  is_admin : bool
}.

(** ["name" in user_groups]. *)
Definition in_group (name_ : string) (user_groups : list string) : bool :=
  existsb (String.eqb name_) user_groups.

(** [_user_roles] of [core/views.py]; an [AnonymousUser] is no superuser. *)
Definition _user_roles (st : Site) (user : Actor) : Roles :=
  match user with
  | AnonymousUser =>
      {| is_government := false; is_institution_staff := false;
         is_business_hr := false; is_owner := false; is_admin := false |}
  | LoggedIn u =>
      let user_groups := group_names st u in
      {| is_government := is_superuser u || in_group "government" user_groups;
         is_institution_staff :=
           is_superuser u || in_group "institution_staff" user_groups;
         is_business_hr := is_superuser u || in_group "business_hr" user_groups;
         is_owner := is_superuser u || in_group "owner" user_groups;
         is_admin := is_superuser u |}
  end.

(** [is_government_user] of [government/views.py]; the groups of an
    [AnonymousUser] are empty. *)
Definition is_government_user (st : Site) (user : Actor) : bool :=
  match user with
  | AnonymousUser => false
  | LoggedIn u =>
      if is_superuser u then true
      else existsb (fun g => Nat.eqb (fst g) (user_pk u)
                             && String.eqb (snd g) "government")
                   (auth_user_groups st)
  end.

(** [_user_is_institution_staff], the same in both files. *)
Definition _user_is_institution_staff (u : User) (inst : Institution) : bool :=
  if is_superuser u then true
  else existsb (Nat.eqb (user_pk u)) (institution_staff inst).

(** The [cleaned_data] of [CertificateForm]. *)
Record CertificateForm := {
  form_institution : nat;
  form_owner_id_no : string;
  form_owner_name : string;
  form_degree_name : string;
  form_program : string;
  form_conferral_date : option Z;
  form_certificate_reference : string
}.

(** The pages of these handlers. *)
Inductive SiteContext :=
| certificates_page (inst_id : nat) (inst : Institution) (shown : list CertificateRow)
| certificate_form_page (inst_id : nat) (creating : bool) (cert : option CertificateRow)
| certificate_delete_page (inst_id : nat) (cert : CertificateRow)
| institutions_page (listed : list (nat * Institution))
| institution_form_page
| institution_verify_page (pk : nat) (inst : Institution).

Inductive SiteResponse :=
| site_render (template : string) (messages : list (Level * string))
              (context : SiteContext)
| site_redirect (to : string) (arg : option nat) (messages : list (Level * string))
| site_redirect_to_login
| site_forbidden (body : string)
| site_not_found
| site_error (e : Exception).

(** [core/views.py] and [institution/views.py] define the same four
    certificate handlers; they differ in the name of the list page they
    redirect to. *)
Inductive App := core_app | institution_app.

Definition cert_list_url (app : App) : string :=
  match app with
  | core_app => "core:institution_cert_list"
  | institution_app => "institution:cert_list"
  end.

Definition msg_not_institution_staff : string :=
  "You are not authorized to manage this institution.".

(** [f"{n}"] for a primary key. *)
Definition str_pk (n : nat) : string := str_int (Z.of_nat n).

(** [order_by("-created_at")] on certificates, as for requests: rows of
    equal [created_at] come out in reverse table order. *)
Fixpoint insert_cert_desc (x : CertificateRow) (l : list CertificateRow)
    : list CertificateRow :=
  match l with
  | [] => [x]
  | y :: l' =>
      if certificate_created_at y <? certificate_created_at x then x :: y :: l'
      else y :: insert_cert_desc x l'
  end.

Definition order_certs_desc (l : list CertificateRow) : list CertificateRow :=
  fold_right insert_cert_desc [] l.

(** [inst.certificates]: the certificates of an institution. *)
Definition certificates_of_institution (st : Site) (inst_id : nat)
    : list CertificateRow :=
  List.filter (fun r => Nat.eqb (institution (certificate r)) inst_id)
              (certificate_table st).

(** [get_object_or_404(Certificate, pk=pk, institution=inst)]: the position
    and the row; primary keys are unique. *)
Definition Certificate_get (st : Site) (pk inst_id : nat)
    : option (nat * CertificateRow) :=
  List.find (fun r => Nat.eqb (certificate_pk (snd r)) pk
                      && Nat.eqb (institution (certificate (snd r))) inst_id)
            (rows (certificate_table st)).

(** The link of a certificate to its owner's profile, as both save paths
    resolve it: the profile of that [id_no], if there is one. *)
Definition resolve_owner (s : Store) (owner_id_no_ : string)
    : option (option nat) :=
  match OwnerProfile_get s owner_id_no_ with
  | Got opk _ => Some (Some opk)
  | DoesNotExist => Some None
  | Multiple => None
  end.

(** The guard all four certificate handlers start with: [login_required],
    [get_object_or_404(Institution, pk=inst_id)] and the staff check. *)
Definition managing (st : Site) (user : Actor) (inst_id : nat)
    : SiteResponse + (User * Institution) :=
  match user with
  | AnonymousUser => inl site_redirect_to_login
  | LoggedIn u =>
      match institutions st !! inst_id with
      | None => inl site_not_found
      | Some inst =>
          if negb (_user_is_institution_staff u inst)
          then inl (site_forbidden msg_not_institution_staff)
          else inr (u, inst)
      end
  end.

(** [institution_cert_list]. *)
Definition institution_cert_list (user : Actor) (inst_id : nat) (st : Site)
    : SiteResponse * Site :=
  match managing st user inst_id with
  | inl resp => (resp, st)
  | inr (u, inst) =>
      let certs := order_certs_desc (certificates_of_institution st inst_id) in
      (site_render "institution/institution_cert_list.html" []
                   (certificates_page inst_id inst certs), st)
  end.

(** [institution_cert_create]: [cert.institution = inst] replaces what the
    form carried. *)
Definition institution_cert_create (app : App) (user : Actor) (inst_id : nat)
    (sub : Submission CertificateForm) (st : Site) : SiteResponse * Site :=
  match managing st user inst_id with
  | inl resp => (resp, st)
  | inr (u, inst) =>
      match sub with
      | POST form =>
          match resolve_owner (store (world st)) (form_owner_id_no form) with
          | None => (site_error MultipleObjectsReturned, st)
          | Some owner_ =>
              let (now, w1) := timezone_now (world st) in
              let cert :=
                {| certificate_pk := next_certificate_pk st;
                   certificate :=
                     {| institution := inst_id; owner := owner_;
                        owner_id_no := form_owner_id_no form;
                        owner_name := form_owner_name form;
                        degree_name := form_degree_name form;
                        program := form_program form;
                        certificate_reference := form_certificate_reference form |};
                   conferral_date := form_conferral_date form;
                   certificate_created_at := now |} in
              let st1 := with_certificate_table
                           (certificate_table st ++ [cert])
                           (S (next_certificate_pk st)) w1 st in
              let (_, w2) :=
                AuditLog_create (Some (user_pk u)) "certificate_added"
                  ("Added certificate " ++ str_pk (certificate_pk cert)
                   ++ " for institution " ++ str_pk inst_id) (world st1) in
              (site_redirect (cert_list_url app) (Some inst_id)
                             [(SUCCESS, "Certificate added.")],
               with_world w2 st1)
          end
      | _ =>
          (site_render "institution/institution_cert_form.html" []
                       (certificate_form_page inst_id true None), st)
      end
  end.

(** [institution_cert_edit]: the form's fields, its [institution] among
    them, replace those of the stored certificate. *)
Definition institution_cert_edit (app : App) (user : Actor) (inst_id pk : nat)
    (sub : Submission CertificateForm) (st : Site) : SiteResponse * Site :=
  match managing st user inst_id with
  | inl resp => (resp, st)
  | inr (u, inst) =>
      match Certificate_get st pk inst_id with
      | None => (site_not_found, st)
      | Some (i, cert) =>
          match sub with
          | POST form =>
              match resolve_owner (store (world st)) (form_owner_id_no form) with
              | None => (site_error MultipleObjectsReturned, st)
              | Some owner_ =>
                  let cert :=
                    {| certificate_pk := certificate_pk cert;
                       certificate :=
                         {| institution := form_institution form; owner := owner_;
                            owner_id_no := form_owner_id_no form;
                            owner_name := form_owner_name form;
                            degree_name := form_degree_name form;
                            program := form_program form;
                            certificate_reference :=
                              form_certificate_reference form |};
                       conferral_date := form_conferral_date form;
                       certificate_created_at := certificate_created_at cert |} in
                  let st1 := with_certificate_table
                               (<[i := cert]> (certificate_table st))
                               (next_certificate_pk st) (world st) st in
                  let (_, w2) :=
                    AuditLog_create (Some (user_pk u)) "certificate_edited"
                      ("Edited certificate " ++ str_pk (certificate_pk cert)
                       ++ " for institution " ++ str_pk inst_id) (world st1) in
                  (site_redirect (cert_list_url app) (Some inst_id)
                                 [(SUCCESS, "Certificate updated.")],
                   with_world w2 st1)
              end
          | _ =>
              (site_render "institution/institution_cert_form.html" []
                           (certificate_form_page inst_id false (Some cert)), st)
          end
      end
  end.

(** [institution_cert_delete]: only a POST deletes. *)
Definition institution_cert_delete (app : App) (user : Actor) (inst_id pk : nat)
    (is_post : bool) (st : Site) : SiteResponse * Site :=
  match managing st user inst_id with
  | inl resp => (resp, st)
  | inr (u, inst) =>
      match Certificate_get st pk inst_id with
      | None => (site_not_found, st)
      | Some (i, cert) =>
          if is_post then
            let cert_pk := certificate_pk cert in
            let st1 := with_certificate_table
                         (delete i (certificate_table st))
                         (next_certificate_pk st) (world st) st in
            let (_, w2) :=
              AuditLog_create (Some (user_pk u)) "certificate_deleted"
                ("Deleted certificate " ++ str_pk cert_pk
                 ++ " for institution " ++ str_pk inst_id) (world st1) in
            (site_redirect (cert_list_url app) (Some inst_id)
                           [(SUCCESS, "Certificate deleted.")],
             with_world w2 st1)
          else
            (site_render "institution/institution_cert_confirm_delete.html" []
                         (certificate_delete_page inst_id cert), st)
      end
  end.

(** [login_required] then [gov_required]: whoever fails either is sent to
    the login page. *)
Definition governing (st : Site) (user : Actor) : option User :=
  match user with
  | AnonymousUser => None
  | LoggedIn u => if is_government_user st user then Some u else None
  end.

(** [institution_list]: [Institution.objects.order_by('-id')]. *)
Definition institution_list (user : Actor) (st : Site) : SiteResponse * Site :=
  match governing st user with
  | None => (site_redirect_to_login, st)
  | Some _ =>
      (site_render "government/institution_list.html" []
                   (institutions_page (List.rev (rows (institutions st)))), st)
  end.

(** [institution_create]: the form gives [name], [code] and
    [contact_email]. Whether the form is valid is an input, as for the other
    handlers; a save that meets a [code] already in the table breaks its
    [unique] constraint ([InstitutionCreateForm] is a [ModelForm], whose
    validation looks for such a [code] first: either way nothing is
    stored). *)
Definition institution_create (user : Actor)
    (sub : Submission (string * string * option string)) (st : Site)
    : SiteResponse * Site :=
  match governing st user with
  | None => (site_redirect_to_login, st)
  | Some u =>
      match sub with
      | POST (name_, code_, contact_email_) =>
          if existsb (fun i => String.eqb (code i) code_) (institutions st)
          then (site_error IntegrityError, st)
          else
            let inst := {| institution_name := name_; code := code_;
                           institution_contact_email := contact_email_;
                           institution_staff := []; verified := false |} in
            let pk := length (institutions st) in
            let (_, w1) :=
              AuditLog_create (Some (user_pk u)) "institution_added"
                ("Added institution " ++ str_pk pk) (world st) in
            (site_redirect "government:institution_list" None
               [(SUCCESS, "Institution created and pending verification.")],
             with_institutions (institutions st ++ [inst]) w1 st)
      | _ =>
          (site_render "government/institution_form.html" []
                       institution_form_page, st)
      end
  end.

Definition set_verified (b : bool) (i : Institution) : Institution :=
  {| institution_name := institution_name i; code := code i;
     institution_contact_email := institution_contact_email i;
     institution_staff := institution_staff i; verified := b |}.

(** [institution_verify]: [post] is [None] for a request that is no POST,
    else [request.POST.get('action')]. *)
Definition institution_verify (user : Actor) (pk : nat)
    (post : option (option string)) (st : Site) : SiteResponse * Site :=
  match governing st user with
  | None => (site_redirect_to_login, st)
  | Some u =>
      match institutions st !! pk with
      | None => (site_not_found, st)
      | Some inst =>
          match post with
          | Some action_ =>
              if match action_ with
                 | Some a => String.eqb a "verify"
                 | None => false
                 end
              then
                let inst := set_verified true inst in
                let (_, w1) :=
                  AuditLog_create (Some (user_pk u)) "institution_verified"
                    ("Verified institution " ++ str_pk pk) (world st) in
                (site_redirect "government:institution_list" None
                               [(SUCCESS, "Institution verified.")],
                 with_institutions (<[pk := inst]> (institutions st)) w1 st)
              else if match action_ with
                      | Some a => String.eqb a "unverify"
                      | None => false
                      end
              then
                let inst := set_verified false inst in
                let (_, w1) :=
                  AuditLog_create (Some (user_pk u)) "institution_unverified"
                    ("Unverified institution " ++ str_pk pk) (world st) in
                (site_redirect "government:institution_list" None
                               [(SUCCESS, "Institution set to not verified.")],
                 with_institutions (<[pk := inst]> (institutions st)) w1 st)
              else (site_redirect "government:institution_list" None [], st)
          | None =>
              (site_render "government/institution_verify.html" []
                           (institution_verify_page pk inst), st)
          end
      end
  end.

(** The certificate table and the store agree, and primary keys are
    distinct and below the next one to hand out. *)
Definition coherent (st : Site) : Prop :=
  certificates (store (world st)) = map certificate (certificate_table st)
  /\ List.NoDup (map certificate_pk (certificate_table st))
  /\ Forall (fun r => (certificate_pk r < next_certificate_pk st)%nat)
            (certificate_table st).

(** A small site for the examples: one institution, whose only staff
    member is [bob], and one certificate. *)
Definition academy : Institution :=
  {| institution_name := "Academy"; code := "AC"; institution_contact_email := None;
     institution_staff := [2%nat]; verified := false |}.

Definition diploma_row : CertificateRow :=
  {| certificate_pk := 7; certificate := diploma; conferral_date := None;
     certificate_created_at := 500 |}.

Definition campus (rs : list VerificationRequest) (t : datetime) : Site :=
  {| world := world_at rs t; institutions := [academy];
     certificate_table := [diploma_row]; next_certificate_pk := 8;
     auth_user_groups := [(3%nat, "government"); (2%nat, "institution_staff")] |}.

Definition bsc_form : CertificateForm :=
  {| form_institution := 5; form_owner_id_no := "A123"; form_owner_name := "Ann";
     form_degree_name := "MSc"; form_program := "Maths";
     form_conferral_date := Some 20240101; form_certificate_reference := "C-78" |}.

(** The users [managing] lets through: logged in, on an institution that
    exists, as a superuser or one of its staff. *)
Definition may_manage (st : Site) (user : Actor) (inst_id : nat) : Prop :=
  exists u inst,
    user = LoggedIn u /\ institutions st !! inst_id = Some inst
    /\ (is_superuser u = true \/ In (user_pk u) (institution_staff inst)).

(** The user belongs to the group of that name. *)
Definition member_of (st : Site) (u : User) (name_ : string) : Prop :=
  In (user_pk u, name_) (auth_user_groups st).

(** Newest certificate first. *)
Definition newer_cert_first (a b : CertificateRow) : Prop :=
  certificate_created_at b <= certificate_created_at a.

(** The site with the [verified] flag of its institutions set by [f]. *)
Definition reverified (f : nat -> bool) (st : Site) : Site :=
  {| world := world st;
     institutions := imap (fun i inst => set_verified (f i) inst) (institutions st);
     certificate_table := certificate_table st;
     next_certificate_pk := next_certificate_pk st;
     auth_user_groups := auth_user_groups st |}.

(** One request to the site: to a handler of the verification requests, to
    a certificate handler of either app, or to an institution handler of
    the government app. *)
Inductive SiteOperation :=
| On_requests (op : Operation)
| Cert_list (user : Actor) (inst_id : nat)
| Cert_create (app : App) (user : Actor) (inst_id : nat)
              (sub : Submission CertificateForm)
| Cert_edit (app : App) (user : Actor) (inst_id pk : nat)
            (sub : Submission CertificateForm)
| Cert_delete (app : App) (user : Actor) (inst_id pk : nat) (is_post : bool)
| Gov_institution_list (user : Actor)
| Gov_institution_create (user : Actor)
                         (sub : Submission (string * string * option string))
| Gov_institution_verify (user : Actor) (pk : nat) (post : option (option string)).

Definition site_handle (op : SiteOperation) (st : Site) : Site :=
  match op with
  | On_requests op => with_world (snd (handle op (world st))) st
  | Cert_list user inst_id => snd (institution_cert_list user inst_id st)
  | Cert_create app user inst_id sub =>
      snd (institution_cert_create app user inst_id sub st)
  | Cert_edit app user inst_id pk sub =>
      snd (institution_cert_edit app user inst_id pk sub st)
  | Cert_delete app user inst_id pk is_post =>
      snd (institution_cert_delete app user inst_id pk is_post st)
  | Gov_institution_list user => snd (institution_list user st)
  | Gov_institution_create user sub => snd (institution_create user sub st)
  | Gov_institution_verify user pk post => snd (institution_verify user pk post st)
  end.

Fixpoint site_run (ops : list SiteOperation) (st : Site) : Site :=
  match ops with
  | [] => st
  | op :: ops' => site_run ops' (site_handle op st)
  end.

(** The institution codes are distinct. *)
Definition unique_codes (st : Site) : Prop :=
  List.NoDup (map code (institutions st)).

(** What one request to the site keeps. *)
Definition site_step (st st' : Site) : Prop :=
  auth_user_groups st' = auth_user_groups st
  /\ (next_certificate_pk st <= next_certificate_pk st')%nat
  /\ forall pk inst, institutions st !! pk = Some inst ->
       exists b, institutions st' !! pk = Some (set_verified b inst).

(** * Properties *)

(** Unfolds the monad of a handler and rewrites with the facts at hand. *)
Ltac step_handler :=
  unfold bind, get_store, ret; cbn;
  repeat match goal with
         | H : _ = _ |- _ => rewrite H; cbn
         end.

(** ** Tables and query sets *)

Lemma rows_In {A} (l : list A) (i : nat) (x : A) :
  In (i, x) (rows l) <-> l !! i = Some x.
Proof.
  unfold rows. rewrite <- list_elem_of_In, elem_of_lookup_imap. split.
  - intros (j & y & E & H). inversion E. subst. exact H.
  - intros H. exists i, x. split; [reflexivity | exact H].
Qed.

Lemma rows_keys {A} (l : list A) : map fst (rows l) = seq 0 (length l).
Proof.
  unfold rows.
  change (map fst (imap (fun i x => (i, x)) l))
    with (fst <$> imap (fun i (x : A) => (i, x)) l).
  rewrite fmap_imap.
  change (imap (fun (j : nat) (_ : A) => j) l = seq 0 (length l)).
  rewrite (imap_seq_0 l (fun n => n)). apply list_fmap_id.
Qed.

Lemma rows_NoDup {A} (l : list A) : List.NoDup (map fst (rows l)).
Proof. rewrite rows_keys. apply List.seq_NoDup. Qed.

Lemma filter_keys_NoDup {A} (p : nat * A -> bool) (l : list (nat * A)) :
  List.NoDup (map fst l) -> List.NoDup (map fst (List.filter p l)).
Proof.
  induction l as [|x l IH]; simpl; intros H; [constructor|].
  inversion H as [|? ? Hx Hl]; subst.
  destruct (p x); simpl; [|auto].
  constructor; [|auto].
  intros Hin. apply Hx. apply in_map_iff in Hin. destruct Hin as (y & E & Hy).
  apply filter_In in Hy. apply in_map_iff. exists y. tauto.
Qed.

Lemma insert_desc_perm x l : Permutation (insert_desc x l) (x :: l).
Proof.
  induction l as [|y l IH]; simpl; [reflexivity|].
  destruct (created_at (snd y) <? created_at (snd x)); [reflexivity|].
  rewrite IH. apply perm_swap.
Qed.

Lemma order_by_perm l : Permutation (order_by_created_at_desc l) l.
Proof.
  induction l as [|x l IH]; simpl; [reflexivity|].
  rewrite insert_desc_perm. now constructor.
Qed.

Lemma order_by_In l x : In x (order_by_created_at_desc l) <-> In x l.
Proof.
  split; apply Permutation_in; [|symmetry]; apply order_by_perm.
Qed.

Lemma order_by_nil l : order_by_created_at_desc l = [] -> l = [].
Proof.
  intros H. apply Permutation_nil. rewrite <- H. apply order_by_perm.
Qed.

Lemma order_by_keys_NoDup l :
  List.NoDup (map fst l) -> List.NoDup (map fst (order_by_created_at_desc l)).
Proof.
  intros H. eapply Permutation_NoDup; [|exact H].
  symmetry. apply Permutation_map, order_by_perm.
Qed.

(** The first row of [order_by("-created_at")] is a most recently created
    one. *)
Lemma order_by_first_latest l h t :
  order_by_created_at_desc l = h :: t ->
  forall y, In y l -> created_at (snd y) <= created_at (snd h).
Proof.
  revert h t. induction l as [|x l IH]; intros h t H y Hy; [destruct Hy|].
  simpl in H. destruct (order_by_created_at_desc l) as [|h' t'] eqn:E.
  - apply order_by_nil in E. subst l. simpl in H. inversion H; subst.
    destruct Hy as [->|[]]. lia.
  - specialize (IH h' t' eq_refl). simpl in H.
    destruct (Z.ltb_spec (created_at (snd h')) (created_at (snd x))) as [Hlt|Hge];
      inversion H; subst; destruct Hy as [->|Hy]; try lia;
      specialize (IH y Hy); lia.
Qed.

Lemma pending_queryset_In s id_no_ otp_ pk v :
  In (pk, v) (pending_queryset s id_no_ otp_) <->
  requests s !! pk = Some v /\ matches_pending id_no_ otp_ v = true.
Proof.
  unfold pending_queryset. rewrite order_by_In, filter_In, rows_In. reflexivity.
Qed.

Lemma matches_pending_spec id_no_ otp_ v :
  matches_pending id_no_ otp_ v = true <->
  id_no v = id_no_ /\ otp v = otp_ /\ status v = STATUS_PENDING.
Proof.
  unfold matches_pending. rewrite !andb_true_iff, !String.eqb_eq. tauto.
Qed.

Lemma get_Got {A} (l : list (nat * A)) pk x : get l = Got pk x -> l = [(pk, x)].
Proof.
  destruct l as [|[i y] [|z l]]; simpl; intros H; inversion H; reflexivity.
Qed.

Lemma VerificationRequest_get_Got s u pk vr :
  VerificationRequest_get s u = Got pk vr ->
  requests s !! pk = Some vr /\ uuid vr = u.
Proof.
  intros H. apply get_Got in H.
  assert (Hin : In (pk, vr)
            (List.filter (fun r => String.eqb (uuid (snd r)) u) (rows (requests s)))).
  { rewrite H. now left. }
  apply filter_In in Hin. destruct Hin as [Hin Hu].
  apply rows_In in Hin. apply String.eqb_eq in Hu. auto.
Qed.

(** ** What each branch of a handler does *)

Lemma is_expired_eq v w :
  is_expired v w = (otp_expires_at v <? clock w (ticks w), tick 1 w).
Proof. reflexivity. Qed.

Lemma owner_confirm_otp_not_found w id_no_ otp_ :
  pending_queryset (store w) id_no_ otp_ = [] ->
  owner_confirm_otp (POST (id_no_, otp_)) w =
  (render owner_confirm_template [(ERROR, msg_no_match)] form_context, w).
Proof.
  intros H. unfold owner_confirm_otp, bind, get_store. rewrite H. reflexivity.
Qed.

Lemma owner_confirm_otp_expired w id_no_ otp_ pk vr rest :
  pending_queryset (store w) id_no_ otp_ = (pk, vr) :: rest ->
  otp_expires_at vr < clock w (ticks w) ->
  owner_confirm_otp (POST (id_no_, otp_)) w =
  (render owner_confirm_template [(ERROR, msg_otp_expired)] form_context,
   with_store
     (with_requests (<[pk := set_status STATUS_EXPIRED vr]> (requests (store w)))
                    (store w))
     (tick 1 w)).
Proof.
  intros H Hlt. unfold owner_confirm_otp, bind, get_store. rewrite H.
  rewrite is_expired_eq. apply Z.ltb_lt in Hlt. rewrite Hlt. reflexivity.
Qed.

Lemma owner_confirm_otp_confirmed w id_no_ otp_ pk vr rest :
  pending_queryset (store w) id_no_ otp_ = (pk, vr) :: rest ->
  clock w (ticks w) <= otp_expires_at vr ->
  let vr' := set_confirmed_at (Some (clock w (S (ticks w))))
                              (set_status STATUS_CONFIRMED vr) in
  owner_confirm_otp (POST (id_no_, otp_)) w =
  (redirect "core:owner_confirm_otp" None [(SUCCESS, msg_otp_accepted)],
   with_store
     (with_audit_log
        (audit_log (store w)
         ++ [{| audit_user := None; action := "owner_confirmed";
                details := "Owner " ++ id_no_ ++ " confirmed request " ++ uuid vr;
                audit_created_at := clock w (S (S (ticks w))) |}])
        (with_requests (<[pk := vr']> (requests (store w))) (store w)))
     (tick 3 w)).
Proof.
  intros H Hle. unfold owner_confirm_otp, bind, get_store. rewrite H.
  rewrite is_expired_eq. apply Z.ltb_ge in Hle. rewrite Hle. reflexivity.
Qed.

Lemma hr_view_request_forbidden w u uuid_ pk vr :
  VerificationRequest_get (store w) uuid_ = Got pk vr ->
  allowed (store w) u vr = false ->
  hr_view_request (LoggedIn u) uuid_ w = (HttpResponseForbidden msg_forbidden, w).
Proof. intros Hget Hgate. unfold hr_view_request. step_handler. reflexivity. Qed.

Lemma hr_view_request_not_confirmed w u uuid_ pk vr :
  VerificationRequest_get (store w) uuid_ = Got pk vr ->
  allowed (store w) u vr = true ->
  status vr <> STATUS_CONFIRMED ->
  hr_view_request (LoggedIn u) uuid_ w =
  (render "institution/hr_view_owner.html" [] (view_context (pk, vr) false []), w).
Proof.
  intros Hget Hgate Hst. apply String.eqb_neq in Hst.
  unfold hr_view_request. step_handler. reflexivity.
Qed.

Lemma hr_view_request_lapsed w u uuid_ pk vr :
  VerificationRequest_get (store w) uuid_ = Got pk vr ->
  allowed (store w) u vr = true ->
  status vr = STATUS_CONFIRMED ->
  otp_expires_at vr < clock w (ticks w) ->
  hr_view_request (LoggedIn u) uuid_ w =
  (render "institution/hr_view_owner.html" [] (view_context (pk, vr) false []),
   tick 1 w).
Proof.
  intros Hget Hgate Hst Hlt. apply Z.ltb_lt in Hlt.
  unfold hr_view_request, is_expired, timezone_now. step_handler. reflexivity.
Qed.

Lemma hr_view_request_shown w u uuid_ pk vr :
  VerificationRequest_get (store w) uuid_ = Got pk vr ->
  allowed (store w) u vr = true ->
  status vr = STATUS_CONFIRMED ->
  clock w (ticks w) <= otp_expires_at vr ->
  hr_view_request (LoggedIn u) uuid_ w =
  (render "institution/hr_view_owner.html" []
          (view_context (pk, set_viewed_at (Some (clock w (S (ticks w)))) vr)
                        true (certificates_of (store w) vr)),
   viewed_world w u pk vr
     ("HR viewed records for " ++ id_no vr ++ " (request " ++ uuid vr ++ ")")).
Proof.
  intros Hget Hgate Hst Hle. apply Z.ltb_ge in Hle.
  unfold hr_view_request, is_expired, timezone_now. step_handler. reflexivity.
Qed.

Lemma hr_view_owner_forbidden w u uuid_ pk vr :
  VerificationRequest_get (store w) uuid_ = Got pk vr ->
  requester_or_superuser u vr = false ->
  hr_view_owner (LoggedIn u) uuid_ w = (HttpResponseForbidden msg_forbidden, w).
Proof. intros Hget Hgate. unfold hr_view_owner. step_handler. reflexivity. Qed.

Lemma hr_view_owner_not_confirmed w u uuid_ pk vr :
  VerificationRequest_get (store w) uuid_ = Got pk vr ->
  requester_or_superuser u vr = true ->
  status vr <> STATUS_CONFIRMED ->
  hr_view_owner (LoggedIn u) uuid_ w =
  (render "institution/hr_view_owner.html" [] (view_context (pk, vr) false []), w).
Proof.
  intros Hget Hgate Hst. apply String.eqb_neq in Hst.
  unfold hr_view_owner. step_handler. reflexivity.
Qed.

Lemma hr_view_owner_lapsed w u uuid_ pk vr :
  VerificationRequest_get (store w) uuid_ = Got pk vr ->
  requester_or_superuser u vr = true ->
  status vr = STATUS_CONFIRMED ->
  otp_expires_at vr < clock w (ticks w) ->
  hr_view_owner (LoggedIn u) uuid_ w =
  (render "institution/hr_view_owner.html" [] (view_context (pk, vr) false []),
   tick 1 w).
Proof.
  intros Hget Hgate Hst Hlt. apply Z.ltb_lt in Hlt.
  unfold hr_view_owner, is_expired, timezone_now. step_handler. reflexivity.
Qed.

Lemma hr_view_owner_shown w u uuid_ pk vr :
  VerificationRequest_get (store w) uuid_ = Got pk vr ->
  requester_or_superuser u vr = true ->
  status vr = STATUS_CONFIRMED ->
  clock w (ticks w) <= otp_expires_at vr ->
  hr_view_owner (LoggedIn u) uuid_ w =
  (render "institution/hr_view_owner.html" []
          (view_context (pk, set_viewed_at (Some (clock w (S (ticks w)))) vr)
                        true (certificates_of (store w) vr)),
   viewed_world w u pk vr
     ("HR " ++ username u ++ " viewed records for " ++ id_no vr
      ++ " (request " ++ uuid vr ++ ")")).
Proof.
  intros Hget Hgate Hst Hle. apply Z.ltb_ge in Hle.
  unfold hr_view_owner, is_expired, timezone_now. step_handler. reflexivity.
Qed.

(** ** Expiry is a strict comparison *)

(** C10: [is_expired] holds exactly when the clock reading is strictly
    greater than [otp_expires_at]; a request observed at exactly its
    [otp_expires_at] is unexpired, is still confirmed by [owner_confirm_otp]
    and is still shown by both view handlers at that instant. *)
Theorem expiry_is_strict (w : World) (vr : VerificationRequest) :
  (fst (is_expired vr w) = true <-> otp_expires_at vr < clock w (ticks w))
  /\ (clock w (ticks w) = otp_expires_at vr ->
      fst (is_expired vr w) = false
      /\ (forall id_no_ otp_ pk rest,
            pending_queryset (store w) id_no_ otp_ = (pk, vr) :: rest ->
            let result := owner_confirm_otp (POST (id_no_, otp_)) w in
            fst result = redirect "core:owner_confirm_otp" None
                                  [(SUCCESS, msg_otp_accepted)]
            /\ exists vr', requests (store (snd result)) !! pk = Some vr'
                           /\ status vr' = STATUS_CONFIRMED)
      /\ (forall u uuid_ pk,
            VerificationRequest_get (store w) uuid_ = Got pk vr ->
            status vr = STATUS_CONFIRMED ->
            (allowed (store w) u vr = true ->
             shows_certificates (store w) vr
               (fst (hr_view_request (LoggedIn u) uuid_ w)))
            /\ (requester_or_superuser u vr = true ->
                shows_certificates (store w) vr
                  (fst (hr_view_owner (LoggedIn u) uuid_ w))))).
Proof.
  split.
  - rewrite is_expired_eq. cbn [fst]. apply Z.ltb_lt.
  - intros Hnow. split; [|split].
    + rewrite is_expired_eq. cbn [fst]. apply Z.ltb_ge. lia.
    + intros id_no_ otp_ pk rest Hqs result. subst result.
      rewrite (owner_confirm_otp_confirmed w id_no_ otp_ pk vr rest Hqs) by lia.
      split; [reflexivity|]. cbn.
      eexists. split.
      { apply list_lookup_insert_eq.
        assert (Hin : In (pk, vr) (pending_queryset (store w) id_no_ otp_))
          by (rewrite Hqs; now left).
        apply pending_queryset_In in Hin. destruct Hin as [Hin _].
        now apply lookup_lt_Some in Hin. }
      reflexivity.
    + intros u uuid_ pk Hget Hst. split; intros Hgate.
      * rewrite (hr_view_request_shown w u uuid_ pk vr) by (auto; lia).
        eexists. reflexivity.
      * rewrite (hr_view_owner_shown w u uuid_ pk vr) by (auto; lia).
        eexists. reflexivity.
Qed.

Lemma expiry_is_strict_witness :
  fst (owner_confirm_otp (POST ("A123", "123456")) (world_at [pending_request] 5000))
  = redirect "core:owner_confirm_otp" None [(SUCCESS, msg_otp_accepted)]
  /\ shows_certificates (store (world_at [confirmed_request] 5000)) confirmed_request
       (fst (hr_view_request (LoggedIn alice) "u-1" (world_at [confirmed_request] 5000))).
Proof.
  split.
  - destruct (expiry_is_strict (world_at [pending_request] 5000) pending_request)
      as [_ H].
    destruct (H eq_refl) as (_ & Hconfirm & _).
    exact (proj1 (Hconfirm "A123" "123456" 0%nat [] eq_refl)).
  - destruct (expiry_is_strict (world_at [confirmed_request] 5000) confirmed_request)
      as [_ H].
    destruct (H eq_refl) as (_ & _ & Hview).
    exact (proj1 (Hview alice "u-1" 0%nat eq_refl eq_refl) eq_refl).
Defined.

(** ** Owner confirmation *)

Lemma pending_queryset_empty s id_no_ otp_ :
  (forall pk r, requests s !! pk = Some r ->
                ~ (id_no r = id_no_ /\ otp r = otp_ /\ status r = STATUS_PENDING)) ->
  pending_queryset s id_no_ otp_ = [].
Proof.
  intros Hnone. destruct (pending_queryset s id_no_ otp_) as [|[pk r] rest] eqn:E;
    [reflexivity|].
  assert (Hin : In (pk, r) (pending_queryset s id_no_ otp_)) by (rewrite E; now left).
  apply pending_queryset_In in Hin. destruct Hin as [Hrow Hm].
  apply matches_pending_spec in Hm. destruct (Hnone pk r Hrow Hm).
Qed.

Lemma pending_queryset_first s id_no_ otp_ pk vr rest :
  pending_queryset s id_no_ otp_ = (pk, vr) :: rest ->
  requests s !! pk = Some vr
  /\ id_no vr = id_no_ /\ otp vr = otp_ /\ status vr = STATUS_PENDING
  /\ forall pk' r', requests s !! pk' = Some r' ->
                    matches_pending id_no_ otp_ r' = true ->
                    created_at r' <= created_at vr.
Proof.
  intros E.
  assert (Hin : In (pk, vr) (pending_queryset s id_no_ otp_)) by (rewrite E; now left).
  apply pending_queryset_In in Hin. destruct Hin as [Hrow Hm].
  apply matches_pending_spec in Hm. destruct Hm as (Hid & Hotp & Hst).
  repeat (split; [assumption|]).
  intros pk' r' Hrow' Hm'.
  apply (order_by_first_latest _ _ _ E (pk', r')).
  apply filter_In. split; [now apply rows_In | exact Hm'].
Qed.

Lemma pending_queryset_keys_NoDup s id_no_ otp_ :
  List.NoDup (map fst (pending_queryset s id_no_ otp_)).
Proof.
  unfold pending_queryset. apply order_by_keys_NoDup, filter_keys_NoDup, rows_NoDup.
Qed.

(** C4, as stated, fails in its second part: when two pending requests
    carry the same [id_no] and [otp] (the random generator drew the same
    number twice), the second Confirm after a successful one is accepted
    too, on the other request. *)
Lemma second_confirm_counterexample : ~ second_confirm_not_found.
Proof.
  intros H. specialize (H two_requests_same_otp "A123" "100042" eq_refl).
  vm_compute in H. discriminate H.
Qed.

(** C4, amended: when no pending request has both this [id_no] and this
    [otp], [owner_confirm_otp] answers with the one "no matching request"
    error, whatever the cause, and leaves the world as it was. After a
    successful confirmation of the only matching pending request, a second
    attempt with the same [id_no] and [otp] gets that same error and changes
    nothing; when another pending request matched as well, the second
    attempt does not get that error: it acts on that other request. *)
Theorem confirm_not_found (w : World) (id_no_ otp_ : string) :
  ((forall pk r, requests (store w) !! pk = Some r ->
                 ~ (id_no r = id_no_ /\ otp r = otp_ /\ status r = STATUS_PENDING)) ->
   owner_confirm_otp (POST (id_no_, otp_)) w =
   (render owner_confirm_template [(ERROR, msg_no_match)] form_context, w))
  /\ (forall pk vr,
        pending_queryset (store w) id_no_ otp_ = [(pk, vr)] ->
        clock w (ticks w) <= otp_expires_at vr ->
        let first := owner_confirm_otp (POST (id_no_, otp_)) w in
        fst first = redirect "core:owner_confirm_otp" None
                             [(SUCCESS, msg_otp_accepted)]
        /\ owner_confirm_otp (POST (id_no_, otp_)) (snd first) =
           (render owner_confirm_template [(ERROR, msg_no_match)] form_context,
            snd first))
  /\ (forall pk vr pk2 vr2 rest,
        pending_queryset (store w) id_no_ otp_ = (pk, vr) :: (pk2, vr2) :: rest ->
        clock w (ticks w) <= otp_expires_at vr ->
        let first := owner_confirm_otp (POST (id_no_, otp_)) w in
        fst first = redirect "core:owner_confirm_otp" None
                             [(SUCCESS, msg_otp_accepted)]
        /\ fst (owner_confirm_otp (POST (id_no_, otp_)) (snd first))
           <> render owner_confirm_template [(ERROR, msg_no_match)] form_context
        /\ requests (store (snd first)) !! pk2 = Some vr2).
Proof.
  split; [|split].
  - intros Hnone. apply owner_confirm_otp_not_found.
    now apply pending_queryset_empty.
  - intros pk vr Hqs Hle first. subst first.
    rewrite (owner_confirm_otp_confirmed w id_no_ otp_ pk vr [] Hqs Hle).
    split; [reflexivity|]. cbn [snd].
    apply owner_confirm_otp_not_found. apply pending_queryset_empty.
    cbn. intros pk' r' Hrow (Hid & Hotp & Hst).
    apply list_lookup_insert_Some in Hrow.
    destruct Hrow as [(<- & <- & _) | (Hne & Hrow)].
    + cbn in Hst. discriminate Hst.
    + assert (Hin : In (pk', r') (pending_queryset (store w) id_no_ otp_)).
      { apply pending_queryset_In. split; [exact Hrow|].
        apply matches_pending_spec. auto. }
      rewrite Hqs in Hin. destruct Hin as [Heq|[]]. inversion Heq. congruence.
  - intros pk vr pk2 vr2 rest Hqs Hle first. subst first.
    rewrite (owner_confirm_otp_confirmed w id_no_ otp_ pk vr _ Hqs Hle).
    cbn [fst snd]. split; [reflexivity|].
    assert (Hne : pk2 <> pk).
    { pose proof (pending_queryset_keys_NoDup (store w) id_no_ otp_) as Hnd.
      rewrite Hqs in Hnd. cbn in Hnd. inversion Hnd as [|? ? Hnotin _]; subst.
      intros ->. apply Hnotin. now left. }
    assert (Hin2 : In (pk2, vr2) (pending_queryset (store w) id_no_ otp_))
      by (rewrite Hqs; right; now left).
    apply pending_queryset_In in Hin2. destruct Hin2 as [Hrow2 Hm2].
    set (w1 := with_store _ (tick 3 w)).
    assert (Hrow2' : requests (store w1) !! pk2 = Some vr2).
    { subst w1. cbn. rewrite list_lookup_insert_ne; [exact Hrow2 | congruence]. }
    split; [|exact Hrow2'].
    assert (Hin : In (pk2, vr2) (pending_queryset (store w1) id_no_ otp_))
      by (apply pending_queryset_In; split; assumption).
    destruct (pending_queryset (store w1) id_no_ otp_) as [|[pk' vr'] rest'] eqn:Hqs1;
      [destruct Hin|].
    destruct (Z.lt_ge_cases (otp_expires_at vr') (clock w1 (ticks w1))) as [Hlt|Hge].
    + rewrite (owner_confirm_otp_expired w1 id_no_ otp_ pk' vr' rest' Hqs1 Hlt).
      discriminate.
    + rewrite (owner_confirm_otp_confirmed w1 id_no_ otp_ pk' vr' rest' Hqs1 Hge).
      discriminate.
Qed.

Lemma confirm_not_found_witness :
  owner_confirm_otp (POST ("A123", "000000")) (world_at [pending_request] 2000) =
  (render owner_confirm_template [(ERROR, msg_no_match)] form_context,
   world_at [pending_request] 2000)
  /\ owner_confirm_otp (POST ("B999", "123456")) (world_at [] 2000) =
     (render owner_confirm_template [(ERROR, msg_no_match)] form_context,
      world_at [] 2000)
  /\ (let first := owner_confirm_otp (POST ("A123", "123456"))
                                     (world_at [pending_request] 2000) in
      fst first = redirect "core:owner_confirm_otp" None [(SUCCESS, msg_otp_accepted)]
      /\ owner_confirm_otp (POST ("A123", "123456")) (snd first) =
         (render owner_confirm_template [(ERROR, msg_no_match)] form_context,
          snd first))
  /\ let first := owner_confirm_otp (POST ("A123", "100042")) two_requests_same_otp in
     fst (owner_confirm_otp (POST ("A123", "100042")) (snd first))
     <> render owner_confirm_template [(ERROR, msg_no_match)] form_context.
Proof.
  split; [|split; [|split]].
  - apply (proj1 (confirm_not_found (world_at [pending_request] 2000) "A123" "000000")).
    intros [|[|pk]] r Hrow (_ & Hotp & _); inversion Hrow; subst. discriminate Hotp.
  - apply (proj1 (confirm_not_found (world_at [] 2000) "B999" "123456")).
    intros [|pk] r Hrow; inversion Hrow.
  - apply (proj1 (proj2 (confirm_not_found (world_at [pending_request] 2000)
                             "A123" "123456"))
             0%nat pending_request eq_refl).
    vm_compute. discriminate.
  - destruct (proj2 (proj2 (confirm_not_found two_requests_same_otp "A123" "100042"))
                1%nat _ 0%nat _ [] eq_refl) as (_ & Hsecond & _).
    + vm_compute. discriminate.
    + exact Hsecond.
Defined.

(** C5: the request [owner_confirm_otp] acts on is a pending one with this
    [id_no] and [otp], created no earlier than any other such request. If
    its [otp_expires_at] has passed, the handler stores it as expired, leaves
    its [confirmed_at] unset, appends nothing to the audit log and answers
    "OTP has expired"; otherwise it stores it as confirmed with
    [confirmed_at] the clock reading of [mark_confirmed] and appends an
    audit entry whose user is [None]. *)
Theorem confirm_expires_or_confirms (w : World) (id_no_ otp_ : string)
    (pk : nat) (vr : VerificationRequest) (rest : list (nat * VerificationRequest)) :
  wf_store (store w) ->
  pending_queryset (store w) id_no_ otp_ = (pk, vr) :: rest ->
  let result := owner_confirm_otp (POST (id_no_, otp_)) w in
  (requests (store w) !! pk = Some vr
   /\ id_no vr = id_no_ /\ otp vr = otp_ /\ status vr = STATUS_PENDING
   /\ forall pk' r', requests (store w) !! pk' = Some r' ->
                     matches_pending id_no_ otp_ r' = true ->
                     created_at r' <= created_at vr)
  /\ (otp_expires_at vr < clock w (ticks w) ->
      fst result = render owner_confirm_template [(ERROR, msg_otp_expired)]
                          form_context
      /\ requests (store (snd result)) =
         <[pk := set_status STATUS_EXPIRED vr]> (requests (store w))
      /\ (exists r', requests (store (snd result)) !! pk = Some r'
                     /\ status r' = STATUS_EXPIRED /\ confirmed_at r' = None)
      /\ audit_log (store (snd result)) = audit_log (store w))
  /\ (clock w (ticks w) <= otp_expires_at vr ->
      fst result = redirect "core:owner_confirm_otp" None
                            [(SUCCESS, msg_otp_accepted)]
      /\ requests (store (snd result)) =
         <[pk := set_confirmed_at (Some (clock w (S (ticks w))))
                                  (set_status STATUS_CONFIRMED vr)]>
           (requests (store w))
      /\ (exists r', requests (store (snd result)) !! pk = Some r'
                     /\ status r' = STATUS_CONFIRMED
                     /\ confirmed_at r' = Some (clock w (S (ticks w))))
      /\ exists entry,
           audit_log (store (snd result)) = (audit_log (store w) ++ [entry])%list
           /\ audit_user entry = None /\ action entry = "owner_confirmed").
Proof.
  intros Hwf Hqs result.
  pose proof (pending_queryset_first _ _ _ _ _ _ Hqs) as Hfirst.
  destruct Hfirst as (Hrow & Hid & Hotp & Hst & Hlatest).
  assert (Hlen : (pk < length (requests (store w)))%nat)
    by (now apply lookup_lt_Some in Hrow).
  split; [auto|]. subst result. split.
  - intros Hlt. rewrite (owner_confirm_otp_expired w id_no_ otp_ pk vr rest Hqs Hlt).
    cbn. repeat split.
    exists (set_status STATUS_EXPIRED vr). split; [|split]; [|reflexivity|].
    + now apply list_lookup_insert_eq.
    + cbn. unfold wf_store in Hwf. rewrite Forall_lookup in Hwf.
      destruct (Hwf pk vr Hrow) as (_ & Hunset & _). auto.
  - intros Hle. rewrite (owner_confirm_otp_confirmed w id_no_ otp_ pk vr rest Hqs Hle).
    cbn. repeat split.
    + eexists. split; [now apply list_lookup_insert_eq|]. split; reflexivity.
    + eexists. split; [reflexivity|]. split; reflexivity.
Qed.

Lemma wf_pending_request : wf_request pending_request.
Proof.
  split; [now left|]. split; [reflexivity|]. intros H. now destruct H.
Qed.

Lemma confirm_expires_or_confirms_witness :
  fst (owner_confirm_otp (POST ("A123", "123456")) (world_at [pending_request] 6000))
  = render owner_confirm_template [(ERROR, msg_otp_expired)] form_context
  /\ fst (owner_confirm_otp (POST ("A123", "123456")) (world_at [pending_request] 2000))
     = redirect "core:owner_confirm_otp" None [(SUCCESS, msg_otp_accepted)].
Proof.
  assert (Hwf : forall t, wf_store (store (world_at [pending_request] t))).
  { intros t. constructor; [apply wf_pending_request | constructor]. }
  split.
  - destruct (confirm_expires_or_confirms (world_at [pending_request] 6000)
                "A123" "123456" 0%nat pending_request [] (Hwf 6000) eq_refl)
      as (_ & Hexpired & _).
    apply Hexpired. reflexivity.
  - destruct (confirm_expires_or_confirms (world_at [pending_request] 2000)
                "A123" "123456" 0%nat pending_request [] (Hwf 2000) eq_refl)
      as (_ & _ & Hconfirmed).
    apply Hconfirmed. discriminate.
Defined.

(** ** Creating a request *)

Lemma OwnerProfile_get_missing s id_no_ :
  (forall o, In o (owners s) -> owner_profile_id_no o <> id_no_) ->
  OwnerProfile_get s id_no_ = DoesNotExist.
Proof.
  intros Hnone. unfold OwnerProfile_get.
  destruct (List.filter _ (rows (owners s))) as [|[pk o] l] eqn:E; [reflexivity|].
  assert (Hin : In (pk, o)
            (List.filter (fun r => String.eqb (owner_profile_id_no (snd r)) id_no_)
                         (rows (owners s)))) by (rewrite E; now left).
  apply filter_In in Hin. destruct Hin as [Hrow Hid].
  apply rows_In in Hrow. apply String.eqb_eq in Hid.
  destruct (Hnone o); [|exact Hid].
  apply list_elem_of_In. eapply list_elem_of_lookup_2. exact Hrow.
Qed.

Lemma hr_verify_unauthorized w u id_no_ business draw new_uuid :
  acts_without_authority (store w) u business = true ->
  hr_verify (LoggedIn u) (POST (id_no_, business)) draw new_uuid w =
  (render hr_verify_template [(ERROR, msg_not_authorized_business)] form_context, w).
Proof.
  intros Hgate. unfold hr_verify, bind, get_store.
  rewrite Hgate. reflexivity.
Qed.

Lemma hr_verify_no_owner w u id_no_ business draw new_uuid :
  acts_without_authority (store w) u business = false ->
  OwnerProfile_get (store w) id_no_ = DoesNotExist ->
  hr_verify (LoggedIn u) (POST (id_no_, business)) draw new_uuid w =
  (render hr_verify_template [(ERROR, msg_no_owner)] form_context, w).
Proof.
  intros Hgate Hget. unfold hr_verify, bind, get_store.
  rewrite Hgate, Hget. reflexivity.
Qed.

(** What [HRVerifyForm] hands to the view: the posted business when the
    user is one of its staff, no business when none was posted, and no
    [cleaned_data] at all otherwise. *)
Lemma HRVerifyForm_spec s u id_no_ business :
  match business with
  | None => HRVerifyForm s u (POST (id_no_, business)) = POST (id_no_, None)
  | Some b =>
      (staff_exists s b u = false ->
       HRVerifyForm s u (POST (id_no_, business)) = POST_invalid)
      /\ (staff_exists s b u = true ->
          exists biz, businesses s !! b = Some biz
                      /\ HRVerifyForm s u (POST (id_no_, business))
                         = POST (id_no_, Some (b, biz)))
  end.
Proof.
  destruct business as [b|]; [|reflexivity].
  unfold HRVerifyForm, staff_exists.
  destruct (businesses s !! b) as [biz|]; [|split; [reflexivity | discriminate]].
  split; intros ->; [reflexivity|]. now exists biz.
Qed.

(** The "not authorized" error is the answer only where the business gate
    fails. *)
Lemma hr_verify_authorized w u id_no_ business draw new_uuid :
  acts_without_authority (store w) u business = false ->
  fst (hr_verify (LoggedIn u) (POST (id_no_, business)) draw new_uuid w)
  <> render hr_verify_template [(ERROR, msg_not_authorized_business)] form_context.
Proof.
  intros Hgate. unfold hr_verify, bind, get_store. rewrite Hgate.
  destruct (OwnerProfile_get (store w) id_no_) as [opk owner_| |]; try discriminate.
  unfold VerificationRequest_create, timezone_now, bind, get_store. cbn.
  destruct (existsb _ (requests (store w))); cbn; [discriminate|].
  destruct (send_otp_to_owner _ _ _ _) as [[sent|] w1]; cbn; discriminate.
Qed.

(** C8, as stated, fails in its second case: [alice], neither a superuser
    nor staff of the business, posts its key; the form does not take the
    choice, and the answer is the form again, not the "not authorized"
    error. *)
Lemma create_authorization_counterexample : ~ create_fails_with_authorization_error.
Proof.
  intros H.
  destruct (H (world_at [] 2000) alice "A123" 0%nat 7 "u-2" eq_refl eq_refl)
    as [Hresp _].
  vm_compute in Hresp. discriminate Hresp.
Qed.

(** C8, amended: when no owner profile has the [id_no], or a business is
    posted and the user is neither a superuser nor one of its staff,
    [hr_verify] answers with its form again and leaves the world, and so
    the table of requests, as it was. A business of which the user is not
    staff (a superuser too) is refused by the form as no valid choice: the
    form is shown again, and the "not authorized" error of the view is the
    answer to no request. Otherwise, when no owner profile has the [id_no],
    the answer is the "no owner profile" error. *)
Theorem create_preconditions (w : World) (u : User) (id_no_ : string)
    (business : option nat) (draw : Z) (new_uuid : string) :
  let no_owner :=
    forall o, In o (owners (store w)) -> owner_profile_id_no o <> id_no_ in
  let unauthorized :=
    exists b, business = Some b
              /\ is_superuser u = false /\ staff_exists (store w) b u = false in
  let not_staff :=
    exists b, business = Some b /\ staff_exists (store w) b u = false in
  let form := HRVerifyForm (store w) u (POST (id_no_, business)) in
  let result := hr_verify (LoggedIn u) form draw new_uuid w in
  (no_owner \/ unauthorized ->
   snd result = w
   /\ requests (store (snd result)) = requests (store w)
   /\ exists msgs, fst result = render hr_verify_template msgs form_context)
  /\ (not_staff ->
      form = POST_invalid
      /\ result
         = (render hr_verify_template
              (if negb (is_superuser u)
                  && negb (0 <? length (businesses_of (store w) u))%nat
               then [(INFO, msg_not_staff)] else [])
              form_context, w))
  /\ (no_owner -> ~ not_staff ->
      result = (render hr_verify_template [(ERROR, msg_no_owner)] form_context, w))
  /\ fst result
     <> render hr_verify_template [(ERROR, msg_not_authorized_business)] form_context.
Proof.
  intros no_owner unauthorized not_staff form result.
  pose proof (HRVerifyForm_spec (store w) u id_no_ business) as Hform.
  assert (Hinvalid : not_staff -> form = POST_invalid).
  { intros (b & -> & Hst). now apply Hform. }
  assert (Hpage : not_staff ->
                  result
                  = (render hr_verify_template
                       (if negb (is_superuser u)
                           && negb (0 <? length (businesses_of (store w) u))%nat
                        then [(INFO, msg_not_staff)] else [])
                       form_context, w)).
  { intros H. subst result. rewrite (Hinvalid H).
    unfold hr_verify, bind, get_store.
    destruct (negb (is_superuser u)
              && negb (0 <? length (businesses_of (store w) u))%nat);
      reflexivity. }
  assert (Hvalid : ~ not_staff ->
                   exists chosen, form = POST (id_no_, chosen)
                                  /\ acts_without_authority (store w) u chosen = false).
  { intros Hn. subst form. destruct business as [b|].
    - destruct (staff_exists (store w) b u) eqn:Hst.
      + destruct (proj2 Hform eq_refl) as (biz & Hb & ->).
        exists (Some (b, biz)). split; [reflexivity|].
        unfold acts_without_authority. rewrite Hst. now rewrite orb_true_r.
      + destruct Hn. now exists b.
    - exists None. split; [exact Hform | reflexivity]. }
  assert (Hno : no_owner -> ~ not_staff ->
                result = (render hr_verify_template [(ERROR, msg_no_owner)]
                            form_context, w)).
  { intros H Hn. destruct (Hvalid Hn) as (chosen & Heq & Hgate).
    subst result. rewrite Heq. apply hr_verify_no_owner; [exact Hgate|].
    now apply OwnerProfile_get_missing. }
  assert (Hdec : not_staff \/ ~ not_staff).
  { subst not_staff. destruct business as [b|].
    - destruct (staff_exists (store w) b u) eqn:Hst.
      + right. intros (b' & Hb & Hst'). inversion Hb; subst. congruence.
      + left. now exists b.
    - right. intros (b & Hb & _). discriminate Hb. }
  split; [|split; [|split]].
  - intros Hfail.
    destruct Hdec as [Hns|Hns].
    + rewrite (Hpage Hns). cbn. eauto.
    + destruct Hfail as [H|(b & Hb & _ & Hst)].
      * rewrite (Hno H Hns). cbn. eauto.
      * destruct Hns. now exists b.
  - intros H. split; [now apply Hinvalid | now apply Hpage].
  - exact Hno.
  - destruct Hdec as [Hns|Hns].
    + rewrite (Hpage Hns). cbn [fst].
      destruct (negb (is_superuser u)
                && negb (0 <? length (businesses_of (store w) u))%nat);
        intros Heq; discriminate Heq.
    + destruct (Hvalid Hns) as (chosen & Heq & Hgate).
      subst result. rewrite Heq. now apply hr_verify_authorized.
Qed.

Lemma create_preconditions_witness :
  (let result := hr_verify (LoggedIn alice)
                   (HRVerifyForm (store (world_at [] 2000)) alice
                      (POST ("A123", Some 0%nat)))
                   7 "u-2" (world_at [] 2000) in
   result = (render hr_verify_template [(INFO, msg_not_staff)] form_context,
             world_at [] 2000))
  /\ (let result := hr_verify (LoggedIn bob)
                      (HRVerifyForm (store (world_at [] 2000)) bob
                         (POST ("B999", Some 0%nat)))
                      7 "u-2" (world_at [] 2000) in
      result = (render hr_verify_template [(ERROR, msg_no_owner)] form_context,
                world_at [] 2000)).
Proof.
  split.
  - destruct (create_preconditions (world_at [] 2000) alice "A123"
                (Some 0%nat) 7 "u-2") as (_ & Hform & _).
    apply Hform. exists 0%nat. split; reflexivity.
  - destruct (create_preconditions (world_at [] 2000) bob "B999"
                (Some 0%nat) 7 "u-2") as (_ & _ & Hmissing & _).
    apply Hmissing.
    + intros o [<-|[]]. discriminate.
    + intros (b & Hb & Hst). inversion Hb; subst. discriminate Hst.
Defined.

Lemma uuid_unused s new_uuid :
  (forall r, In r (requests s) -> uuid r <> new_uuid) ->
  existsb (fun r => String.eqb (uuid r) new_uuid) (requests s) = false.
Proof.
  intros Hfresh. apply not_true_is_false. intros H.
  apply existsb_exists in H. destruct H as (r & Hin & Heq).
  apply String.eqb_eq in Heq. exact (Hfresh r Hin Heq).
Qed.

(** C9: when the preconditions of [hr_verify] hold (the business gate
    passes, the owner profile is found, the drawn [uuid] is unused), the
    request is stored as pending and the audit entry is appended whether
    [send_mail] returns or raises; when it raises, the handler prints the
    fallback line to the console, sends nothing, and still answers with the
    redirect of a successful creation. *)
Theorem create_survives_delivery_failure (w : World) (u : User) (id_no_ : string)
    (business : option (nat * Business)) (draw : Z) (new_uuid : string)
    (opk : nat) (owner_ : OwnerProfile) :
  acts_without_authority (store w) u business = false ->
  OwnerProfile_get (store w) id_no_ = Got opk owner_ ->
  (forall r, In r (requests (store w)) -> uuid r <> new_uuid) ->
  let result := hr_verify (LoggedIn u) (POST (id_no_, business)) draw new_uuid w in
  let otp_ := str_int (randint 100000 999999 draw) in
  let expires := clock w (ticks w) + timedelta_minutes 10 in
  exists vr entry,
    fst result =
      redirect "core:hr_request_status" (Some new_uuid)
        [(SUCCESS,
          "OTP sent to owner (if owner has registered email). Request ID: "
          ++ new_uuid)]
    /\ requests (store (snd result)) = (requests (store w) ++ [vr])%list
    /\ status vr = STATUS_PENDING
    /\ uuid vr = new_uuid /\ id_no vr = id_no_ /\ otp vr = otp_
    /\ hr_user vr = Some (user_pk u) /\ otp_expires_at vr = expires
    /\ audit_log (store (snd result)) = (audit_log (store w) ++ [entry])%list
    /\ audit_user entry = Some (user_pk u)
    /\ action entry = "requested_verification"
    /\ (smtp_up w = false -> email owner_ <> "" ->
        console (snd result) = (console w ++ [DEBUG_OTP otp_ id_no_ expires])%list
        /\ outbox (snd result) = outbox w).
Proof.
  intros Hgate Hget Hfresh result otp_ expires. subst result otp_ expires.
  apply uuid_unused in Hfresh.
  unfold hr_verify, bind, get_store. rewrite Hgate, Hget.
  unfold VerificationRequest_create, timezone_now, bind, get_store. cbn.
  rewrite Hfresh. cbn.
  unfold send_otp_to_owner, bind, ret.
  destruct (String.eqb_spec (email owner_) "") as [Hnomail|Hmail].
  - cbn. do 2 eexists. repeat split. congruence.
  - unfold send_mail. cbn. destruct (smtp_up w) eqn:Hsmtp.
    + cbn. do 2 eexists. repeat split; discriminate.
    + cbn. do 2 eexists. repeat split.
Qed.

Lemma create_survives_delivery_failure_witness :
  let result := hr_verify (LoggedIn bob) (POST ("A123", Some (0%nat, acme)))
                          7 "u-2" (world_at [pending_request] 2000) in
  exists vr entry,
    requests (store (snd result)) = [pending_request; vr]
    /\ status vr = STATUS_PENDING
    /\ audit_log (store (snd result)) = [entry]
    /\ console (snd result) = [DEBUG_OTP "100007" "A123" 600002000]
    /\ outbox (snd result) = [].
Proof.
  destruct (create_survives_delivery_failure (world_at [pending_request] 2000)
              bob "A123" (Some (0%nat, acme)) 7 "u-2" 0%nat ann eq_refl eq_refl)
    as (vr & entry & _ & Hreq & Hst & _ & _ & _ & _ & _ & Haud & _ & _ & Hcon).
  { intros r [<-|[]]. discriminate. }
  exists vr, entry. destruct Hcon as [Hcon Hout]; [reflexivity | discriminate |].
  repeat split; assumption.
Defined.

(** ** Viewing a request *)

Lemma allowed_spec s u vr :
  allowed s u vr = true <-> requester_superuser_or_staff s u vr.
Proof.
  unfold allowed, requester_superuser_or_staff.
  destruct (is_superuser u), (hr_user vr) as [p|], (hr_business vr) as [b|];
    try destruct (Nat.eqb_spec p (user_pk u)) as [->|Hp];
    try destruct (staff_exists s b u) eqn:Hs;
    split; intros H; try reflexivity; try discriminate; auto;
    try (right; right; exists b; now split);
    destruct H as [H|[H|(b' & Hb & Hs')]]; try discriminate; try congruence.
Qed.

Lemma requester_or_superuser_spec u vr :
  requester_or_superuser u vr = true <->
  is_superuser u = true \/ hr_user vr = Some (user_pk u).
Proof.
  unfold requester_or_superuser. rewrite orb_true_iff.
  destruct (hr_user vr) as [p|].
  - rewrite Nat.eqb_eq. split; intros [H|H]; auto; right; congruence.
  - split; intros [H|H]; auto; discriminate.
Qed.

(** Past the gate, [hr_view_request] takes one of three branches. *)
Lemma hr_view_request_cases w u uuid_ pk vr :
  VerificationRequest_get (store w) uuid_ = Got pk vr ->
  allowed (store w) u vr = true ->
  (status vr = STATUS_CONFIRMED /\ clock w (ticks w) <= otp_expires_at vr
   /\ hr_view_request (LoggedIn u) uuid_ w =
      (render "institution/hr_view_owner.html" []
         (view_context (pk, set_viewed_at (Some (clock w (S (ticks w)))) vr)
                       true (certificates_of (store w) vr)),
       viewed_world w u pk vr
         ("HR viewed records for " ++ id_no vr ++ " (request " ++ uuid vr ++ ")")))
  \/ (~ (status vr = STATUS_CONFIRMED /\ clock w (ticks w) <= otp_expires_at vr)
      /\ exists n,
           hr_view_request (LoggedIn u) uuid_ w =
           (render "institution/hr_view_owner.html" []
                   (view_context (pk, vr) false []), tick n w)).
Proof.
  intros Hget Hgate.
  destruct (String.eqb_spec (status vr) STATUS_CONFIRMED) as [Hst|Hst].
  - destruct (Z.lt_ge_cases (otp_expires_at vr) (clock w (ticks w))) as [Hlt|Hle].
    + right. split; [lia|]. exists 1%nat. now apply hr_view_request_lapsed.
    + left. repeat split; auto. now apply hr_view_request_shown.
  - right. split; [tauto|]. exists 0%nat.
    rewrite (hr_view_request_not_confirmed w u uuid_ pk vr) by assumption.
    now destruct w.
Qed.

Lemma hr_view_owner_cases w u uuid_ pk vr :
  VerificationRequest_get (store w) uuid_ = Got pk vr ->
  requester_or_superuser u vr = true ->
  (status vr = STATUS_CONFIRMED /\ clock w (ticks w) <= otp_expires_at vr
   /\ hr_view_owner (LoggedIn u) uuid_ w =
      (render "institution/hr_view_owner.html" []
         (view_context (pk, set_viewed_at (Some (clock w (S (ticks w)))) vr)
                       true (certificates_of (store w) vr)),
       viewed_world w u pk vr
         ("HR " ++ username u ++ " viewed records for " ++ id_no vr
          ++ " (request " ++ uuid vr ++ ")")))
  \/ (~ (status vr = STATUS_CONFIRMED /\ clock w (ticks w) <= otp_expires_at vr)
      /\ exists n,
           hr_view_owner (LoggedIn u) uuid_ w =
           (render "institution/hr_view_owner.html" []
                   (view_context (pk, vr) false []), tick n w)).
Proof.
  intros Hget Hgate.
  destruct (String.eqb_spec (status vr) STATUS_CONFIRMED) as [Hst|Hst].
  - destruct (Z.lt_ge_cases (otp_expires_at vr) (clock w (ticks w))) as [Hlt|Hle].
    + right. split; [lia|]. exists 1%nat. now apply hr_view_owner_lapsed.
    + left. repeat split; auto. now apply hr_view_owner_shown.
  - right. split; [tauto|]. exists 0%nat.
    rewrite (hr_view_owner_not_confirmed w u uuid_ pk vr) by assumption.
    now destruct w.
Qed.

(** C1: on a pending request whose [otp_expires_at] has passed, neither view
    handler stores the expiry: the page shows the request still pending and
    the world is left as it was, while [hr_request_status] and
    [hr_request_list], on the same world, store and show it as expired. *)
Theorem view_leaves_lapsed_request_pending :
  let w := world_at [pending_request] 6000 in
  hr_view_request (LoggedIn alice) "u-1" w =
    (render "institution/hr_view_owner.html" []
            (view_context (0%nat, pending_request) false []), w)
  /\ hr_view_owner (LoggedIn alice) "u-1" w =
     (render "institution/hr_view_owner.html" []
             (view_context (0%nat, pending_request) false []), w)
  /\ status pending_request = STATUS_PENDING
  /\ otp_expires_at pending_request < clock w (ticks w)
  /\ fst (hr_request_status (LoggedIn alice) "u-1" w) =
     render "core/hr_request_status.html" []
            (vr_context (0%nat, set_status STATUS_EXPIRED pending_request))
  /\ requests (store (snd (hr_request_status (LoggedIn alice) "u-1" w))) =
     [set_status STATUS_EXPIRED pending_request]
  /\ fst (hr_request_list (LoggedIn alice) w) =
     render "core/hr_request_list.html" []
            (requests_context [(0%nat, set_status STATUS_EXPIRED pending_request)]
                              6001)
  /\ requests (store (snd (hr_request_list (LoggedIn alice) w))) =
     [set_status STATUS_EXPIRED pending_request].
Proof. repeat split. Qed.

Lemma view_without_certificates vr vr' resp (s : Store) :
  resp = render "institution/hr_view_owner.html" [] (view_context vr' false []) ->
  ~ shows_certificates s vr resp.
Proof. intros -> (x & H). discriminate H. Qed.

(** C2, as stated, fails: [carol], who is neither the requester, nor a
    superuser, nor staff of the business, calls [hr_view_request] on a
    confirmed, unexpired request and is refused, so no certificate is
    returned. *)
Lemma returns_certificates_counterexample :
  ~ returns_certificates_iff_confirmed_unexpired hr_view_request.
Proof.
  intros H.
  destruct (H (world_at [confirmed_request] 3000) carol "u-1" 0%nat
              confirmed_request eq_refl) as [_ Hshow].
  destruct Hshow as (x & Hx); [split; [reflexivity | discriminate]|].
  discriminate Hx.
Qed.

(** C2, amended: for an actor who passes the handler's gate, each view
    handler returns the owner's certificates exactly when the request is
    confirmed and the clock, read at that call, is not past
    [otp_expires_at]; for an actor who does not pass it, never. The
    certificates returned are those of the certificate table whose
    [owner_id_no] is the [id_no] of the request, all of them and no other;
    when the request is not confirmed, or its deadline has passed, the page
    carries no certificate at all, and an actor who does not pass the gate
    gets a 403 and no page. *)
Theorem view_shows_certificates_iff (w : World) (u : User) (uuid_ : string)
    (pk : nat) (vr : VerificationRequest) :
  VerificationRequest_get (store w) uuid_ = Got pk vr ->
  let confirmed_unexpired :=
    status vr = STATUS_CONFIRMED /\ clock w (ticks w) <= otp_expires_at vr in
  (allowed (store w) u vr = true ->
   (shows_certificates (store w) vr (fst (hr_view_request (LoggedIn u) uuid_ w))
    <-> confirmed_unexpired))
  /\ (requester_or_superuser u vr = true ->
      (shows_certificates (store w) vr (fst (hr_view_owner (LoggedIn u) uuid_ w))
       <-> confirmed_unexpired))
  /\ (allowed (store w) u vr = false ->
      ~ shows_certificates (store w) vr (fst (hr_view_request (LoggedIn u) uuid_ w)))
  /\ (requester_or_superuser u vr = false ->
      ~ shows_certificates (store w) vr (fst (hr_view_owner (LoggedIn u) uuid_ w)))
  /\ (confirmed_unexpired ->
      forall view gate,
        (view = hr_view_request /\ gate = allowed (store w) u vr)
        \/ (view = hr_view_owner /\ gate = requester_or_superuser u vr) ->
        gate = true ->
        exists shown,
          fst (view (LoggedIn u) uuid_ w)
          = render "institution/hr_view_owner.html" []
              (view_context (pk, set_viewed_at (Some (clock w (S (ticks w)))) vr)
                            true shown)
          /\ forall c, In c shown <->
                       In c (certificates (store w)) /\ owner_id_no c = id_no vr)
  /\ (~ confirmed_unexpired ->
      (allowed (store w) u vr = true ->
       fst (hr_view_request (LoggedIn u) uuid_ w)
       = render "institution/hr_view_owner.html" [] (view_context (pk, vr) false []))
      /\ (requester_or_superuser u vr = true ->
          fst (hr_view_owner (LoggedIn u) uuid_ w)
          = render "institution/hr_view_owner.html" []
                   (view_context (pk, vr) false [])))
  /\ (allowed (store w) u vr = false ->
      fst (hr_view_request (LoggedIn u) uuid_ w) = HttpResponseForbidden msg_forbidden)
  /\ (requester_or_superuser u vr = false ->
      fst (hr_view_owner (LoggedIn u) uuid_ w) = HttpResponseForbidden msg_forbidden).
Proof.
  intros Hget confirmed_unexpired. subst confirmed_unexpired.
  split; [|split; [|split; [|split; [|split; [|split; [|split]]]]]].
  - intros Hgate.
    destruct (hr_view_request_cases w u uuid_ pk vr Hget Hgate)
      as [(Hst & Hle & ->) | (Hnot & n & ->)]; cbn [fst].
    + split; [auto|]. intros _. eexists. reflexivity.
    + split; [|tauto]. intros H. exfalso.
      revert H. now eapply view_without_certificates.
  - intros Hgate.
    destruct (hr_view_owner_cases w u uuid_ pk vr Hget Hgate)
      as [(Hst & Hle & ->) | (Hnot & n & ->)]; cbn [fst].
    + split; [auto|]. intros _. eexists. reflexivity.
    + split; [|tauto]. intros H. exfalso.
      revert H. now eapply view_without_certificates.
  - intros Hgate. rewrite (hr_view_request_forbidden w u uuid_ pk vr Hget Hgate).
    intros (x & Hx). discriminate Hx.
  - intros Hgate. rewrite (hr_view_owner_forbidden w u uuid_ pk vr Hget Hgate).
    intros (x & Hx). discriminate Hx.
  - intros Hcu view gate [[-> ->] | [-> ->]] Hgate.
    + destruct (hr_view_request_cases w u uuid_ pk vr Hget Hgate)
        as [(_ & _ & ->) | (Hnot & _)]; [|tauto].
      eexists. split; [reflexivity|]. intros c. unfold certificates_of.
      rewrite filter_In, String.eqb_eq. reflexivity.
    + destruct (hr_view_owner_cases w u uuid_ pk vr Hget Hgate)
        as [(_ & _ & ->) | (Hnot & _)]; [|tauto].
      eexists. split; [reflexivity|]. intros c. unfold certificates_of.
      rewrite filter_In, String.eqb_eq. reflexivity.
  - intros Hnot. split; intros Hgate.
    + destruct (hr_view_request_cases w u uuid_ pk vr Hget Hgate)
        as [(Hst & Hle & _) | (_ & n & ->)]; [tauto | reflexivity].
    + destruct (hr_view_owner_cases w u uuid_ pk vr Hget Hgate)
        as [(Hst & Hle & _) | (_ & n & ->)]; [tauto | reflexivity].
  - intros Hgate. now rewrite (hr_view_request_forbidden w u uuid_ pk vr Hget Hgate).
  - intros Hgate. now rewrite (hr_view_owner_forbidden w u uuid_ pk vr Hget Hgate).
Qed.

Lemma view_shows_certificates_iff_witness :
  shows_certificates (store (world_at [confirmed_request] 3000)) confirmed_request
    (fst (hr_view_request (LoggedIn bob) "u-1" (world_at [confirmed_request] 3000)))
  /\ ~ shows_certificates (store (world_at [confirmed_request] 6000)) confirmed_request
        (fst (hr_view_owner (LoggedIn alice) "u-1" (world_at [confirmed_request] 6000))).
Proof.
  split.
  - destruct (view_shows_certificates_iff (world_at [confirmed_request] 3000)
                bob "u-1" 0%nat confirmed_request eq_refl) as (Hcore & _).
    apply (Hcore eq_refl). split; [reflexivity | discriminate].
  - destruct (view_shows_certificates_iff (world_at [confirmed_request] 6000)
                alice "u-1" 0%nat confirmed_request eq_refl) as (_ & Hinst & _).
    intros Hshow. apply (Hinst eq_refl) in Hshow. destruct Hshow as [_ Hle].
    now apply Hle.
Defined.

(** C3, as stated, fails on [hr_view_owner]: [bob], a staff member of the
    request's business, is refused there. *)
Lemma view_access_counterexample :
  ~ grants_access_to_requester_superuser_or_staff hr_view_owner.
Proof.
  intros H.
  destruct (H (world_at [confirmed_request] 3000) bob "u-1" 0%nat
              confirmed_request eq_refl) as [_ Hgrant].
  destruct Hgrant as (x & c & l & Hx).
  - right. right. exists 0%nat. split; reflexivity.
  - discriminate Hx.
Qed.

(** C3, amended: whatever the status of the request, [hr_view_request] lets
    in exactly the superusers, the user who made the request and the staff
    of its business, and [hr_view_owner] lets in exactly the superusers and
    the user who made the request. *)
Theorem view_access_rule (w : World) (u : User) (uuid_ : string)
    (pk : nat) (vr : VerificationRequest) :
  VerificationRequest_get (store w) uuid_ = Got pk vr ->
  (grants_access (fst (hr_view_request (LoggedIn u) uuid_ w))
   <-> requester_superuser_or_staff (store w) u vr)
  /\ (grants_access (fst (hr_view_owner (LoggedIn u) uuid_ w))
      <-> is_superuser u = true \/ hr_user vr = Some (user_pk u))
  /\ (~ requester_superuser_or_staff (store w) u vr ->
      fst (hr_view_request (LoggedIn u) uuid_ w) = HttpResponseForbidden msg_forbidden
      /\ fst (hr_view_owner (LoggedIn u) uuid_ w) = HttpResponseForbidden msg_forbidden).
Proof.
  intros Hget.
  assert (Hcore : grants_access (fst (hr_view_request (LoggedIn u) uuid_ w))
                  <-> allowed (store w) u vr = true).
  { destruct (allowed (store w) u vr) eqn:Hgate.
    - split; [reflexivity|]. intros _.
      destruct (hr_view_request_cases w u uuid_ pk vr Hget Hgate)
        as [(_ & _ & ->) | (_ & n & ->)]; cbn [fst]; do 3 eexists; reflexivity.
    - rewrite (hr_view_request_forbidden w u uuid_ pk vr Hget Hgate).
      split; [|discriminate]. intros (x & c & l & Hx). discriminate Hx. }
  assert (Hinst : grants_access (fst (hr_view_owner (LoggedIn u) uuid_ w))
                  <-> requester_or_superuser u vr = true).
  { destruct (requester_or_superuser u vr) eqn:Hgate.
    - split; [reflexivity|]. intros _.
      destruct (hr_view_owner_cases w u uuid_ pk vr Hget Hgate)
        as [(_ & _ & ->) | (_ & n & ->)]; cbn [fst]; do 3 eexists; reflexivity.
    - rewrite (hr_view_owner_forbidden w u uuid_ pk vr Hget Hgate).
      split; [|discriminate]. intros (x & c & l & Hx). discriminate Hx. }
  split; [|split].
  - rewrite Hcore. apply allowed_spec.
  - rewrite Hinst. apply requester_or_superuser_spec.
  - intros Hnot. split.
    + rewrite (hr_view_request_forbidden w u uuid_ pk vr Hget); [reflexivity|].
      apply not_true_is_false. intros H. apply Hnot. now apply allowed_spec.
    + rewrite (hr_view_owner_forbidden w u uuid_ pk vr Hget); [reflexivity|].
      apply not_true_is_false. intros H. apply Hnot.
      apply requester_or_superuser_spec in H. unfold requester_superuser_or_staff.
      tauto.
Qed.

Lemma view_access_rule_witness :
  grants_access (fst (hr_view_request (LoggedIn bob) "u-1"
                        (world_at [pending_request] 3000)))
  /\ fst (hr_view_request (LoggedIn carol) "u-1" (world_at [confirmed_request] 3000))
     = HttpResponseForbidden msg_forbidden.
Proof.
  split.
  - destruct (view_access_rule (world_at [pending_request] 3000) bob "u-1" 0%nat
                pending_request eq_refl) as (Hcore & _).
    apply Hcore. right. right. exists 0%nat. split; reflexivity.
  - destruct (view_access_rule (world_at [confirmed_request] 3000) carol "u-1" 0%nat
                confirmed_request eq_refl) as (_ & _ & Hdenied).
    apply Hdenied.
    intros [H|[H|(b & Hb & Hs)]]; try discriminate.
    inversion Hb; subst. discriminate Hs.
Defined.

(** ** What a request does to the table of requests *)

Section TableEvolves.
Variable R : VerificationRequest -> VerificationRequest -> Prop.
Hypothesis R_refl : forall r, R r r.

Lemma table_evolves_refl rs : table_evolves R rs rs.
Proof. split; [reflexivity|]. intros pk r H. eauto. Qed.

Lemma table_evolves_eq rs rs' : rs' = rs -> table_evolves R rs rs'.
Proof. intros ->. apply table_evolves_refl. Qed.

Lemma table_evolves_insert rs pk0 v v' :
  rs !! pk0 = Some v -> R v v' -> table_evolves R rs (<[pk0 := v']> rs).
Proof.
  intros Hrow Hstep. split; [now rewrite length_insert|].
  intros pk r H. destruct (Nat.eq_dec pk pk0) as [->|Hne].
  - exists v'. split.
    + apply list_lookup_insert_eq. now apply lookup_lt_Some in Hrow.
    + congruence.
  - exists r. split; [|apply R_refl]. now rewrite list_lookup_insert_ne by auto.
Qed.

Hypothesis R_trans : forall a b c, R a b -> R b c -> R a c.

Lemma table_evolves_trans rs1 rs2 rs3 :
  table_evolves R rs1 rs2 -> table_evolves R rs2 rs3 -> table_evolves R rs1 rs3.
Proof.
  intros [Hl1 H1] [Hl2 H2]. split; [congruence|].
  intros pk r Hrow. destruct (H1 pk r Hrow) as (r2 & Hrow2 & Hs1).
  destruct (H2 pk r2 Hrow2) as (r3 & Hrow3 & Hs2). eauto.
Qed.
End TableEvolves.

Lemma table_evolves_weaken (R R' : VerificationRequest -> VerificationRequest -> Prop)
    rs rs' :
  (forall a b, R a b -> R' a b) -> table_evolves R rs rs' -> table_evolves R' rs rs'.
Proof.
  intros Hsub [Hl H]. split; [exact Hl|].
  intros pk r Hrow. destruct (H pk r Hrow) as (r' & Hrow' & Hs). eauto.
Qed.

Lemma expiry_only_refl r : expiry_only r r.
Proof. now left. Qed.

Lemma expiry_only_trans a b c : expiry_only a b -> expiry_only b c -> expiry_only a c.
Proof.
  intros [->|[Ha ->]] [->|[Hb ->]]; try (now left); right; now split.
Qed.

Lemma expiry_only_row_step op w a b : expiry_only a b -> row_step op w a b.
Proof. intros [->|[Ha ->]]; [apply step_same | now apply step_expire]. Qed.

Lemma expire_if_needed_spec pk v w :
  requests (store w) !! pk = Some v ->
  exists v',
    fst (expire_if_needed (pk, v) w) = (pk, v')
    /\ expiry_only v v'
    /\ requests (store (snd (expire_if_needed (pk, v) w))) =
       <[pk := v']> (requests (store w)).
Proof.
  intros Hrow. unfold expire_if_needed.
  destruct (String.eqb_spec (status v) STATUS_PENDING) as [Hst|Hst].
  - unfold bind. rewrite is_expired_eq.
    destruct (otp_expires_at v <? clock w (ticks w)); cbn.
    + exists (set_status STATUS_EXPIRED v). repeat split. right. now split.
    + exists v. repeat split; [now left|]. now rewrite list_insert_id.
  - cbn. exists v. repeat split; [now left|]. now rewrite list_insert_id.
Qed.

(** The loop of [hr_request_list], over instances loaded from distinct
    rows. *)
Lemma for_each_expire qs : forall w,
  List.NoDup (map fst qs) ->
  (forall pk v, In (pk, v) qs -> requests (store w) !! pk = Some v) ->
  table_evolves expiry_only (requests (store w))
                (requests (store (snd (for_each expire_if_needed qs w)))).
Proof.
  induction qs as [|[pk0 v0] qs IH]; intros w Hnd Hsync.
  - apply table_evolves_refl, expiry_only_refl.
  - cbn [for_each]. unfold bind at 1.
    assert (Hrow : requests (store w) !! pk0 = Some v0) by (apply Hsync; now left).
    destruct (expire_if_needed_spec pk0 v0 w Hrow) as (v' & _ & Hstep & Hreq).
    destruct (expire_if_needed (pk0, v0) w) as [y w1]. cbn [snd] in Hreq.
    inversion Hnd as [|? ? Hfresh Hnd']; subst.
    unfold bind. destruct (for_each expire_if_needed qs w1) as [ys w2] eqn:E.
    cbn [snd ret].
    apply (table_evolves_trans _ expiry_only_trans _ (requests (store w1))).
    + rewrite Hreq.
      exact (table_evolves_insert _ expiry_only_refl _ pk0 v0 v' Hrow Hstep).
    + replace w2 with (snd (for_each expire_if_needed qs w1)) by now rewrite E.
      apply IH; [exact Hnd'|]. intros pk v Hin. rewrite Hreq.
      rewrite list_lookup_insert_ne.
      * apply Hsync. now right.
      * intros <-. apply Hfresh. apply in_map_iff. now exists (pk0, v).
Qed.

Lemma owner_profile_requests sub w :
  requests (store (snd (owner_profile sub w))) = requests (store w).
Proof.
  destruct sub as [| |[[[a b] c] d]]; try reflexivity.
  unfold owner_profile, bind, get_store.
  destruct (OwnerProfile_get (store w) a); reflexivity.
Qed.

Lemma hr_verify_requests user sub draw new_uuid w :
  requests (store (snd (hr_verify user sub draw new_uuid w))) = requests (store w)
  \/ exists vr,
       requests (store (snd (hr_verify user sub draw new_uuid w))) =
       (requests (store w) ++ [vr])%list
       /\ fresh_request vr.
Proof.
  destruct user as [|u]; [now left|].
  destruct sub as [| |[id_no_ business]].
  - left. unfold hr_verify, bind, get_store.
    destruct (negb (is_superuser u) && _); reflexivity.
  - left. unfold hr_verify, bind, get_store.
    destruct (negb (is_superuser u) && _); reflexivity.
  - unfold hr_verify, bind, get_store.
    destruct (acts_without_authority (store w) u business); [now left|].
    destruct (OwnerProfile_get (store w) id_no_) as [opk owner_| |]; try now left.
    unfold VerificationRequest_create, timezone_now, bind, get_store. cbn.
    destruct (existsb _ (requests (store w))); [now left|]. right. cbn.
    unfold send_otp_to_owner, send_mail, bind, ret.
    destruct (String.eqb (email owner_) ""); cbn;
      [|destruct (smtp_up w); cbn]; eexists; repeat split.
Qed.

Lemma owner_confirm_otp_requests sub w :
  let op := Owner_confirm_otp sub in
  table_evolves (row_step op w) (requests (store w))
                (requests (store (snd (owner_confirm_otp sub w)))).
Proof.
  intros op.
  destruct sub as [| |[id_no_ otp_]];
    try (apply table_evolves_refl; intros; apply step_same).
  destruct (pending_queryset (store w) id_no_ otp_) as [|[pk vr] rest] eqn:Hqs.
  - rewrite (owner_confirm_otp_not_found w id_no_ otp_ Hqs).
    apply table_evolves_refl. intros; apply step_same.
  - destruct (pending_queryset_first _ _ _ _ _ _ Hqs) as (Hrow & _ & _ & Hst & _).
    destruct (Z.lt_ge_cases (otp_expires_at vr) (clock w (ticks w))) as [Hlt|Hle].
    + rewrite (owner_confirm_otp_expired w id_no_ otp_ pk vr rest Hqs Hlt). cbn.
      apply table_evolves_insert with (v := vr);
        [intros; apply step_same | exact Hrow | now apply step_expire].
    + rewrite (owner_confirm_otp_confirmed w id_no_ otp_ pk vr rest Hqs Hle). cbn.
      apply table_evolves_insert with (v := vr);
        [intros; apply step_same | exact Hrow | now apply step_confirm].
Qed.

Lemma hr_request_list_requests user w :
  table_evolves expiry_only (requests (store w))
                (requests (store (snd (hr_request_list user w)))).
Proof.
  destruct user as [|u]; [apply table_evolves_refl, expiry_only_refl|].
  unfold hr_request_list, bind at 1, get_store.
  set (qs := if is_superuser u then _ else _).
  assert (Hqs : List.NoDup (map fst qs)
                /\ forall pk v, In (pk, v) qs -> requests (store w) !! pk = Some v).
  { subst qs. destruct (is_superuser u); split.
    - apply order_by_keys_NoDup, rows_NoDup.
    - intros pk v Hin. apply (proj1 (order_by_In _ _)) in Hin. now apply rows_In.
    - apply order_by_keys_NoDup, filter_keys_NoDup, rows_NoDup.
    - intros pk v Hin. apply (proj1 (order_by_In _ _)) in Hin.
      apply filter_In in Hin. now apply rows_In. }
  destruct Hqs as [Hnd Hsync].
  pose proof (for_each_expire qs w Hnd Hsync) as Hloop.
  unfold bind. destruct (for_each expire_if_needed qs w) as [listed w1].
  exact Hloop.
Qed.

Lemma hr_request_status_requests user uuid_ w :
  table_evolves expiry_only (requests (store w))
                (requests (store (snd (hr_request_status user uuid_ w)))).
Proof.
  destruct user as [|u]; [apply table_evolves_refl, expiry_only_refl|].
  unfold hr_request_status, bind at 1, get_store.
  destruct (VerificationRequest_get (store w) uuid_) as [pk vr| |] eqn:Hget;
    try apply table_evolves_refl, expiry_only_refl.
  apply VerificationRequest_get_Got in Hget. destruct Hget as [Hrow _].
  destruct (expire_if_needed_spec pk vr w Hrow) as (v' & _ & Hstep & Hreq).
  unfold bind. destruct (expire_if_needed (pk, vr) w) as [y w1].
  cbn [snd ret] in *. rewrite Hreq.
  exact (table_evolves_insert _ expiry_only_refl _ pk vr v' Hrow Hstep).
Qed.

Lemma tick_requests n w : requests (store (tick n w)) = requests (store w).
Proof. reflexivity. Qed.

Lemma hr_view_request_requests user uuid_ w :
  let op := Hr_view_request user uuid_ in
  table_evolves (row_step op w) (requests (store w))
                (requests (store (snd (hr_view_request user uuid_ w)))).
Proof.
  intros op.
  assert (Hsame : forall r, row_step op w r r) by (intros; apply step_same).
  destruct user as [|u]; [now apply table_evolves_refl|].
  destruct (VerificationRequest_get (store w) uuid_) as [pk vr| |] eqn:Hget;
    try (unfold hr_view_request, bind, get_store; rewrite Hget;
         now apply table_evolves_refl).
  destruct (allowed (store w) u vr) eqn:Hgate.
  - pose proof (VerificationRequest_get_Got _ _ _ _ Hget) as [Hrow Huuid].
    destruct (hr_view_request_cases w u uuid_ pk vr Hget Hgate)
      as [(Hst & Hle & Heq) | (_ & n & Heq)].
    + rewrite Heq. cbn.
      apply table_evolves_insert with (v := vr); [exact Hsame | exact Hrow |].
      apply step_view. exists u. subst op. rewrite Huuid.
      split; [now left|]. repeat split; auto.
      cbn [handle]. rewrite Heq. eexists. reflexivity.
    + rewrite Heq. now apply table_evolves_refl.
  - rewrite (hr_view_request_forbidden w u uuid_ pk vr Hget Hgate).
    now apply table_evolves_refl.
Qed.

Lemma hr_view_owner_requests user uuid_ w :
  let op := Hr_view_owner user uuid_ in
  table_evolves (row_step op w) (requests (store w))
                (requests (store (snd (hr_view_owner user uuid_ w)))).
Proof.
  intros op.
  assert (Hsame : forall r, row_step op w r r) by (intros; apply step_same).
  destruct user as [|u]; [now apply table_evolves_refl|].
  destruct (VerificationRequest_get (store w) uuid_) as [pk vr| |] eqn:Hget;
    try (unfold hr_view_owner, bind, get_store; rewrite Hget;
         now apply table_evolves_refl).
  destruct (requester_or_superuser u vr) eqn:Hgate.
  - pose proof (VerificationRequest_get_Got _ _ _ _ Hget) as [Hrow Huuid].
    destruct (hr_view_owner_cases w u uuid_ pk vr Hget Hgate)
      as [(Hst & Hle & Heq) | (_ & n & Heq)].
    + rewrite Heq. cbn.
      apply table_evolves_insert with (v := vr); [exact Hsame | exact Hrow |].
      apply step_view. exists u. subst op. rewrite Huuid.
      split; [now right|]. repeat split; auto.
      cbn [handle]. rewrite Heq. eexists. reflexivity.
    + rewrite Heq. now apply table_evolves_refl.
  - rewrite (hr_view_owner_forbidden w u uuid_ pk vr Hget Hgate).
    now apply table_evolves_refl.
Qed.

(** Serving a request either keeps the rows of the table, each taking a
    [row_step], or appends one fresh request. *)
Lemma handle_requests op w :
  table_evolves (row_step op w) (requests (store w))
                (requests (store (snd (handle op w))))
  \/ exists vr,
       requests (store (snd (handle op w))) = (requests (store w) ++ [vr])%list
       /\ fresh_request vr.
Proof.
  assert (Hsame : forall r, row_step op w r r) by (intros; apply step_same).
  destruct op as [sub|sub|user sub draw new_uuid|user|user uuid_|user uuid_|user uuid_];
    cbn [handle].
  - left. apply table_evolves_eq; [exact Hsame | apply owner_profile_requests].
  - left. apply owner_confirm_otp_requests.
  - destruct (hr_verify_requests user sub draw new_uuid w) as [Heq|Hnew].
    + left. now apply table_evolves_eq.
    + now right.
  - left. eapply table_evolves_weaken; [|apply hr_request_list_requests].
    apply expiry_only_row_step.
  - left. eapply table_evolves_weaken; [|apply hr_request_status_requests].
    apply expiry_only_row_step.
  - left. apply hr_view_request_requests.
  - left. apply hr_view_owner_requests.
Qed.

(** ** The life of a request *)

Lemma valid_status_exactly_one a : valid_status a -> exactly_one_status a.
Proof.
  intros [-> | [-> | ->]]; [left | right; left | right; right];
    repeat split; discriminate.
Qed.

Lemma status_step_trans a b c : status_step a b -> status_step b c -> status_step a c.
Proof.
  intros [->|[-> Hb]] [->|[Hb' Hc]]; try (now left); right; now split.
Qed.

Lemma row_step_status op w r r' :
  row_step op w r r' -> status_step (status r) (status r').
Proof.
  intros [| Hst | t Hst | Hview]; [now left | | | now left];
    right; split; auto.
Qed.

Lemma row_step_wf op w r r' : wf_request r -> row_step op w r r' -> wf_request r'.
Proof.
  intros (Hvalid & Hunset & Hviewed) [| Hst | t Hst | (u & _ & Hst & _)].
  - now repeat split.
  - split; [right; now right|]. split; [discriminate|].
    intros Hv. apply Hviewed in Hv. rewrite Hst in Hv. discriminate Hv.
  - split; [right; now left|]. split; [discriminate|]. reflexivity.
  - split; [exact Hvalid|]. split; [exact Hunset|]. intros _. exact Hst.
Qed.

Lemma fresh_request_wf r : fresh_request r -> wf_request r.
Proof.
  intros (Hst & Hc & Hv). split; [now left|]. split; [auto|]. congruence.
Qed.

Lemma wf_empty_store : wf_store empty_store.
Proof. constructor. Qed.

Lemma handle_wf op w : wf_store (store w) -> wf_store (store (snd (handle op w))).
Proof.
  unfold wf_store. intros Hwf.
  destruct (handle_requests op w) as [[Hlen Hrows] | (vr & -> & Hfresh)].
  - rewrite Forall_lookup in *. intros pk r' Hrow'.
    destruct (requests (store w) !! pk) as [r|] eqn:Hrow.
    + destruct (Hrows pk r Hrow) as (r'' & Hrow'' & Hstep).
      assert (r'' = r') by congruence. subst r''.
      eapply row_step_wf; [|exact Hstep]. now apply (Hwf pk).
    + apply lookup_ge_None in Hrow. apply lookup_lt_Some in Hrow'. lia.
  - apply Forall_app. split; [exact Hwf|].
    constructor; [now apply fresh_request_wf | constructor].
Qed.

Lemma handle_status op w pk r :
  requests (store w) !! pk = Some r ->
  exists r', requests (store (snd (handle op w))) !! pk = Some r'
             /\ status_step (status r) (status r').
Proof.
  intros Hrow.
  destruct (handle_requests op w) as [[_ Hrows] | (vr & -> & _)].
  - destruct (Hrows pk r Hrow) as (r' & Hrow' & Hstep).
    exists r'. split; [exact Hrow'|]. eapply row_step_status. exact Hstep.
  - exists r. split; [now apply lookup_app_l_Some | now left].
Qed.

(** C6: over every sequence of requests to the handlers, from a store whose
    requests are well formed (an empty one is), every stored request has
    exactly one of the three statuses, and a request present before the
    sequence is still there after it with the same status, or went from
    pending to confirmed or to expired: a confirmed request stays confirmed
    and an expired one stays expired. *)
Theorem status_is_monotonic (ops : list Operation) (w : World) :
  wf_store (store w) ->
  wf_store (store (run ops w))
  /\ (forall pk r', requests (store (run ops w)) !! pk = Some r' ->
                    exactly_one_status (status r'))
  /\ (forall pk r,
        requests (store w) !! pk = Some r ->
        exists r',
          requests (store (run ops w)) !! pk = Some r'
          /\ status_step (status r) (status r')
          /\ (status r = STATUS_CONFIRMED -> status r' = STATUS_CONFIRMED)
          /\ (status r = STATUS_EXPIRED -> status r' = STATUS_EXPIRED)).
Proof.
  revert w. induction ops as [|op ops IH]; intros w Hwf.
  - cbn [run]. split; [exact Hwf|]. split.
    + intros pk r' Hrow. unfold wf_store in Hwf. rewrite Forall_lookup in Hwf.
      apply valid_status_exactly_one. now apply (Hwf pk r' Hrow).
    + intros pk r Hrow. exists r. split; [exact Hrow|]. split; [now left|]. auto.
  - cbn [run]. destruct (IH (snd (handle op w)) (handle_wf op w Hwf))
      as (Hwf' & Hone & Hmono).
    split; [exact Hwf'|]. split; [exact Hone|].
    intros pk r Hrow.
    destruct (handle_status op w pk r Hrow) as (r1 & Hrow1 & Hstep1).
    destruct (Hmono pk r1 Hrow1) as (r' & Hrow' & Hstep' & _).
    exists r'. split; [exact Hrow'|].
    assert (Hstep : status_step (status r) (status r'))
      by (eapply status_step_trans; eassumption).
    split; [exact Hstep|].
    split; intros Hst; rewrite Hst in Hstep;
      destruct Hstep as [<-|[Hp _]]; auto; discriminate Hp.
Qed.

Lemma status_is_monotonic_witness :
  wf_store (store (run a_day_of_requests (fresh_world 1000)))
  /\ exists r',
       requests (store (run a_day_of_requests
                            (run [Owner_profile (POST ("A123", "Ann", "0700", ""));
                                  Hr_verify (LoggedIn alice) (POST ("A123", None))
                                            42 "u-9"]
                                 (fresh_world 1000))))
       !! 0%nat = Some r'
       /\ status_step STATUS_PENDING (status r').
Proof.
  split.
  - exact (proj1 (status_is_monotonic a_day_of_requests (fresh_world 1000)
                    wf_empty_store)).
  - assert (Hwf : wf_store
                    (store (run [Owner_profile (POST ("A123", "Ann", "0700", ""));
                                 Hr_verify (LoggedIn alice) (POST ("A123", None))
                                           42 "u-9"]
                                (fresh_world 1000)))).
    { exact (proj1 (status_is_monotonic _ (fresh_world 1000) wf_empty_store)). }
    destruct (status_is_monotonic a_day_of_requests _ Hwf) as (_ & _ & Hmono).
    destruct (Hmono 0%nat _ eq_refl) as (r' & Hrow & Hstep & _).
    exists r'. split; [exact Hrow | exact Hstep].
Defined.

(** ** [viewed_at] *)

Lemma VerificationRequest_get_unique s u pk vr pk' r :
  VerificationRequest_get s u = Got pk vr ->
  requests s !! pk' = Some r -> uuid r = u ->
  pk' = pk /\ r = vr.
Proof.
  intros Hget Hrow Hu. apply get_Got in Hget.
  assert (Hin : In (pk', r)
            (List.filter (fun x => String.eqb (uuid (snd x)) u) (rows (requests s)))).
  { apply filter_In. split; [now apply rows_In | now apply String.eqb_eq]. }
  rewrite Hget in Hin. destruct Hin as [Heq|[]]. inversion Heq. auto.
Qed.

(** A view that shows certificates found its request confirmed and
    unexpired, and stored the clock reading that follows as [viewed_at]. *)
Lemma shown_view_writes_viewed_at (view : Actor -> string -> M HttpResponse) w u uuid_ r :
  view = hr_view_request \/ view = hr_view_owner ->
  shows_certificates (store w) r (fst (view (LoggedIn u) uuid_ w)) ->
  exists pk vr,
    VerificationRequest_get (store w) uuid_ = Got pk vr
    /\ status vr = STATUS_CONFIRMED
    /\ clock w (ticks w) <= otp_expires_at vr
    /\ requests (store (snd (view (LoggedIn u) uuid_ w))) =
       <[pk := set_viewed_at (Some (clock w (S (ticks w)))) vr]> (requests (store w)).
Proof.
  intros Hview Hshow.
  destruct (VerificationRequest_get (store w) uuid_) as [pk vr| |] eqn:Hget.
  - exists pk, vr. split; [reflexivity|].
    destruct Hview as [-> | ->].
    + destruct (allowed (store w) u vr) eqn:Hgate.
      * destruct (hr_view_request_cases w u uuid_ pk vr Hget Hgate)
          as [(Hst & Hle & Heq) | (_ & n & Heq)]; rewrite Heq in *.
        -- now repeat split.
        -- exfalso. revert Hshow. now eapply view_without_certificates.
      * rewrite (hr_view_request_forbidden w u uuid_ pk vr Hget Hgate) in Hshow.
        destruct Hshow as (x & Hx). discriminate Hx.
    + destruct (requester_or_superuser u vr) eqn:Hgate.
      * destruct (hr_view_owner_cases w u uuid_ pk vr Hget Hgate)
          as [(Hst & Hle & Heq) | (_ & n & Heq)]; rewrite Heq in *.
        -- now repeat split.
        -- exfalso. revert Hshow. now eapply view_without_certificates.
      * rewrite (hr_view_owner_forbidden w u uuid_ pk vr Hget Hgate) in Hshow.
        destruct Hshow as (x & Hx). discriminate Hx.
  - exfalso. destruct Hshow as (x & Hx).
    destruct Hview as [-> | ->];
      unfold hr_view_request, hr_view_owner, bind, get_store in Hx;
      rewrite Hget in Hx; discriminate Hx.
  - exfalso. destruct Hshow as (x & Hx).
    destruct Hview as [-> | ->];
      unfold hr_view_request, hr_view_owner, bind, get_store in Hx;
      rewrite Hget in Hx; discriminate Hx.
Qed.

(** C7, as stated, fails: a second successful view overwrites the
    [viewed_at] that the first one stored. *)
Lemma viewed_at_overwritten_counterexample :
  ~ keeps_first_viewed_at hr_view_request.
Proof.
  intros H.
  specialize (H (world_at [viewed_request] 3000) alice "u-1" 0%nat viewed_request
                2500 (set_viewed_at (Some 3001) viewed_request)
                eq_refl eq_refl eq_refl).
  discriminate H.
Qed.

(** C7, amended: serving a request changes the [viewed_at] of a stored
    request only when it is a view of that request that finds it confirmed
    and unexpired and shows the certificates; and every such view stores
    the clock reading of that view as [viewed_at], whether or not one was
    stored before. *)
Theorem viewed_at_written_by_successful_views (op : Operation) (w : World)
    (pk : nat) (r r' : VerificationRequest) :
  requests (store w) !! pk = Some r ->
  requests (store (snd (handle op w))) !! pk = Some r' ->
  (viewed_at r' <> viewed_at r -> successful_view_of op w r)
  /\ (successful_view_of op w r -> viewed_at r' = Some (clock w (S (ticks w)))).
Proof.
  intros Hrow Hrow'. split.
  - intros Hchanged.
    destruct (handle_requests op w) as [[_ Hrows] | (vr & Heq & _)].
    + destruct (Hrows pk r Hrow) as (r'' & Hrow'' & Hstep).
      assert (r'' = r') by congruence. subst r''.
      destruct Hstep as [| Hst | t Hst | Hview]; try (now destruct Hchanged).
      exact Hview.
    + rewrite Heq in Hrow'. rewrite (lookup_app_l_Some _ _ _ _ Hrow) in Hrow'.
      destruct Hchanged. congruence.
  - intros (u & Hop & _ & _ & Hshow).
    assert (Hview : exists view,
               (view = hr_view_request \/ view = hr_view_owner)
               /\ handle op w = view (LoggedIn u) (uuid r) w).
    { destruct Hop as [-> | ->];
        [exists hr_view_request | exists hr_view_owner]; split; auto. }
    destruct Hview as (view & Hview & Hhandle). rewrite Hhandle in *.
    destruct (shown_view_writes_viewed_at view w u (uuid r) r Hview Hshow)
      as (pk0 & vr & Hget & _ & _ & Hreq).
    destruct (VerificationRequest_get_unique _ _ _ _ _ _ Hget Hrow eq_refl)
      as [-> ->].
    rewrite Hreq in Hrow'.
    rewrite list_lookup_insert_eq in Hrow' by (now apply lookup_lt_Some in Hrow).
    inversion Hrow'. reflexivity.
Qed.

Lemma viewed_at_written_by_successful_views_witness :
  successful_view_of (Hr_view_request (LoggedIn alice) "u-1")
                     (world_at [viewed_request] 3000) viewed_request
  /\ viewed_at (set_viewed_at (Some 3001) viewed_request) = Some 3001.
Proof.
  destruct (viewed_at_written_by_successful_views
              (Hr_view_request (LoggedIn alice) "u-1")
              (world_at [viewed_request] 3000) 0%nat viewed_request
              (set_viewed_at (Some 3001) viewed_request) eq_refl eq_refl)
    as [Honly Hwrites].
  assert (Hview : successful_view_of (Hr_view_request (LoggedIn alice) "u-1")
                    (world_at [viewed_request] 3000) viewed_request)
    by (apply Honly; discriminate).
  split; [exact Hview | exact (Hwrites Hview)].
Defined.

(** * Further properties *)

(** ** What a request leaves alone *)

Lemma expire_if_needed_frame r w :
  let w' := snd (expire_if_needed r w) in
  owners (store w') = owners (store w)
  /\ businesses (store w') = businesses (store w)
  /\ certificates (store w') = certificates (store w)
  /\ audit_log (store w') = audit_log (store w)
  /\ outbox w' = outbox w /\ console w' = console w /\ clock w' = clock w
  /\ (ticks w <= ticks w')%nat.
Proof.
  destruct r as [pk v]. unfold expire_if_needed.
  destruct (String.eqb (status v) STATUS_PENDING); [|cbn; repeat split; lia].
  unfold bind. rewrite is_expired_eq.
  destruct (otp_expires_at v <? clock w (ticks w)); cbn; repeat split; lia.
Qed.

Lemma for_each_expire_frame qs : forall w,
  let w' := snd (for_each expire_if_needed qs w) in
  owners (store w') = owners (store w)
  /\ businesses (store w') = businesses (store w)
  /\ certificates (store w') = certificates (store w)
  /\ audit_log (store w') = audit_log (store w)
  /\ outbox w' = outbox w /\ console w' = console w /\ clock w' = clock w
  /\ (ticks w <= ticks w')%nat.
Proof.
  induction qs as [|q qs IH]; intros w; [cbn; repeat split; lia|].
  pose proof (expire_if_needed_frame q w) as H1.
  cbn [for_each]. unfold bind.
  destruct (expire_if_needed q w) as [y w1]. cbn [snd] in H1.
  pose proof (IH w1) as H2.
  destruct (for_each expire_if_needed qs w1) as [ys w2]. cbn [snd ret] in *.
  destruct H1 as (Ho1 & Hb1 & Hc1 & Ha1 & Hm1 & Hp1 & Hk1 & Ht1).
  destruct H2 as (Ho2 & Hb2 & Hc2 & Ha2 & Hm2 & Hp2 & Hk2 & Ht2).
  repeat split; try congruence; lia.
Qed.

(** What serving one request does outside the table of requests: the
    businesses and certificates stay, the owners stay unless the request is
    to [owner_profile], the audit log gains at most one entry at its end. *)
Lemma handle_frame op w :
  let s := store w in
  let s' := store (snd (handle op w)) in
  businesses s' = businesses s
  /\ certificates s' = certificates s
  /\ ((forall sub, op <> Owner_profile sub) -> owners s' = owners s)
  /\ exists l, audit_log s' = (audit_log s ++ l)%list /\ (length l <= 1)%nat.
Proof.
  assert (Hnil : forall l : list AuditLog, exists l', l = (l ++ l')%list
                                                   /\ (length l' <= 1)%nat).
  { intros l. exists []. rewrite app_nil_r. split; [reflexivity | cbn; lia]. }
  destruct op as [sub|sub|user sub draw new_uuid|user|user uuid_|user uuid_|user uuid_];
    cbn [handle].
  - destruct sub as [| |[[[a b] c] d]]; cbn; try (repeat split; try apply Hnil;
      intros H; now destruct (H _)).
    unfold owner_profile, bind, get_store.
    destruct (OwnerProfile_get (store w) a); cbn; repeat split; try apply Hnil;
      intros H; now destruct (H (POST (a, b, c, d))).
  - destruct sub as [| |[id_no_ otp_]]; try (cbn; repeat split; apply Hnil).
    destruct (pending_queryset (store w) id_no_ otp_) as [|[pk vr] rest] eqn:Hqs.
    + rewrite (owner_confirm_otp_not_found w id_no_ otp_ Hqs).
      cbn; repeat split; apply Hnil.
    + destruct (Z.lt_ge_cases (otp_expires_at vr) (clock w (ticks w))) as [Hlt|Hle].
      * rewrite (owner_confirm_otp_expired w id_no_ otp_ pk vr rest Hqs Hlt).
        cbn; repeat split; apply Hnil.
      * rewrite (owner_confirm_otp_confirmed w id_no_ otp_ pk vr rest Hqs Hle).
        cbn; repeat split. eexists. split; [reflexivity | cbn; lia].
  - destruct user as [|u]; [cbn; repeat split; apply Hnil|].
    destruct sub as [| |[id_no_ business]].
    + unfold hr_verify, bind, get_store.
      destruct (negb (is_superuser u) && _); cbn; repeat split; apply Hnil.
    + unfold hr_verify, bind, get_store.
      destruct (negb (is_superuser u) && _); cbn; repeat split; apply Hnil.
    + unfold hr_verify, bind, get_store.
      destruct (acts_without_authority (store w) u business);
        [cbn; repeat split; apply Hnil|].
      destruct (OwnerProfile_get (store w) id_no_) as [opk owner_| |];
        try (cbn; repeat split; apply Hnil).
      unfold VerificationRequest_create, timezone_now, bind, get_store. cbn.
      destruct (existsb _ (requests (store w)));
        [cbn; repeat split; apply Hnil|]. cbn.
      unfold send_otp_to_owner, send_mail, bind, ret.
      destruct (String.eqb (email owner_) ""); cbn;
        [|destruct (smtp_up w); cbn]; repeat split;
        eexists; (split; [reflexivity | cbn; lia]).
  - destruct user as [|u]; [cbn; repeat split; apply Hnil|].
    unfold hr_request_list, bind, get_store.
    set (qs := if is_superuser u then _ else _).
    pose proof (for_each_expire_frame qs w) as H.
    destruct (for_each expire_if_needed qs w) as [listed w1].
    cbn in *. destruct H as (Ho & Hb & Hc & Ha & _).
    repeat split; auto. rewrite Ha. apply Hnil.
  - destruct user as [|u]; [cbn; repeat split; apply Hnil|].
    unfold hr_request_status, bind, get_store.
    destruct (VerificationRequest_get (store w) uuid_) as [pk vr| |];
      try (cbn; repeat split; apply Hnil).
    pose proof (expire_if_needed_frame (pk, vr) w) as H.
    destruct (expire_if_needed (pk, vr) w) as [y w1].
    cbn in *. destruct H as (Ho & Hb & Hc & Ha & _).
    repeat split; auto. rewrite Ha. apply Hnil.
  - destruct user as [|u]; [cbn; repeat split; apply Hnil|].
    destruct (VerificationRequest_get (store w) uuid_) as [pk vr| |] eqn:Hget;
      try (unfold hr_view_request, bind, get_store; rewrite Hget;
           cbn; repeat split; apply Hnil).
    destruct (allowed (store w) u vr) eqn:Hgate.
    + destruct (hr_view_request_cases w u uuid_ pk vr Hget Hgate)
        as [(_ & _ & ->) | (_ & n & ->)]; cbn; repeat split; try apply Hnil.
      eexists. split; [reflexivity | cbn; lia].
    + rewrite (hr_view_request_forbidden w u uuid_ pk vr Hget Hgate).
      cbn; repeat split; apply Hnil.
  - destruct user as [|u]; [cbn; repeat split; apply Hnil|].
    destruct (VerificationRequest_get (store w) uuid_) as [pk vr| |] eqn:Hget;
      try (unfold hr_view_owner, bind, get_store; rewrite Hget;
           cbn; repeat split; apply Hnil).
    destruct (requester_or_superuser u vr) eqn:Hgate.
    + destruct (hr_view_owner_cases w u uuid_ pk vr Hget Hgate)
        as [(_ & _ & ->) | (_ & n & ->)]; cbn; repeat split; try apply Hnil.
      eexists. split; [reflexivity | cbn; lia].
    + rewrite (hr_view_owner_forbidden w u uuid_ pk vr Hget Hgate).
      cbn; repeat split; apply Hnil.
Qed.

(** X1: over every sequence of requests the audit log only grows at its
    end, by at most one entry per request: no entry is removed or
    rewritten. *)
Theorem audit_log_is_append_only (ops : list Operation) (w : World) :
  exists l,
    audit_log (store (run ops w)) = (audit_log (store w) ++ l)%list
    /\ (length l <= length ops)%nat.
Proof.
  revert w. induction ops as [|op ops IH]; intros w.
  - exists []. rewrite app_nil_r. split; [reflexivity | cbn; lia].
  - cbn [run]. destruct (IH (snd (handle op w))) as (l2 & -> & Hl2).
    destruct (handle_frame op w) as (_ & _ & _ & l1 & -> & Hl1).
    exists (l1 ++ l2)%list. rewrite <- app_assoc. split; [reflexivity|].
    rewrite length_app. cbn [length]. lia.
Qed.

(** X2: over every sequence of requests the handlers leave the businesses
    and the certificates as they were, and the owner profiles too unless
    one of the requests is to [owner_profile]. *)
Theorem handlers_leave_registers (ops : list Operation) (w : World) :
  businesses (store (run ops w)) = businesses (store w)
  /\ certificates (store (run ops w)) = certificates (store w)
  /\ (Forall (fun op => forall sub, op <> Owner_profile sub) ops ->
      owners (store (run ops w)) = owners (store w)).
Proof.
  revert w. induction ops as [|op ops IH]; intros w; [now repeat split|].
  cbn [run]. destruct (IH (snd (handle op w))) as (Hb & Hc & Ho).
  destruct (handle_frame op w) as (Hb1 & Hc1 & Ho1 & _).
  split; [congruence|]. split; [congruence|].
  intros Hall. inversion Hall as [|? ? Hop Hops]; subst.
  rewrite (Ho Hops). now apply Ho1.
Qed.

Lemma handlers_leave_registers_witness :
  owners (store (run [Hr_verify (LoggedIn alice) (POST ("A123", None)) 42 "u-9";
                      Owner_confirm_otp (POST ("A123", "100042"));
                      Hr_view_request (LoggedIn alice) "u-9"]
                     (world_at [] 1000))) = [ann].
Proof.
  apply (handlers_leave_registers
           [Hr_verify (LoggedIn alice) (POST ("A123", None)) 42 "u-9";
            Owner_confirm_otp (POST ("A123", "100042"));
            Hr_view_request (LoggedIn alice) "u-9"]
           (world_at [] 1000)).
  repeat constructor; discriminate.
Defined.

(** ** What a request keeps of each stored request *)

Section RunRows.
Variable I : VerificationRequest -> Prop.
Variable P : VerificationRequest -> VerificationRequest -> Prop.
Hypothesis P_refl : forall r, P r r.
Hypothesis P_trans : forall a b c, P a b -> P b c -> P a c.
Hypothesis P_step :
  forall op w r r', I r -> row_step op w r r' -> P r r' /\ I r'.

Lemma handle_row op w pk r :
  requests (store w) !! pk = Some r -> I r ->
  exists r', requests (store (snd (handle op w))) !! pk = Some r'
             /\ P r r' /\ I r'.
Proof.
  intros Hrow Hi.
  destruct (handle_requests op w) as [[_ Hrows] | (vr & -> & _)].
  - destruct (Hrows pk r Hrow) as (r' & Hrow' & Hstep).
    exists r'. split; [exact Hrow'|]. now apply (P_step op w).
  - exists r. split; [now apply lookup_app_l_Some|]. auto.
Qed.

Lemma run_rows ops : forall w pk r,
  requests (store w) !! pk = Some r -> I r ->
  exists r', requests (store (run ops w)) !! pk = Some r' /\ P r r' /\ I r'.
Proof.
  induction ops as [|op ops IH]; intros w pk r Hrow Hi.
  - exists r. auto.
  - cbn [run]. destruct (handle_row op w pk r Hrow Hi) as (r1 & Hrow1 & Hp1 & Hi1).
    destruct (IH _ pk r1 Hrow1 Hi1) as (r' & Hrow' & Hp' & Hi').
    exists r'. split; [exact Hrow'|]. split; [|exact Hi']. eauto.
Qed.
End RunRows.

Lemma row_step_same_identity op w r r' : row_step op w r r' -> same_identity r r'.
Proof. intros [| Hst | t Hst | Hview]; now repeat split. Qed.

Lemma same_identity_trans a b c :
  same_identity a b -> same_identity b c -> same_identity a c.
Proof. unfold same_identity. intuition congruence. Qed.

(** X3: over every sequence of requests a stored request stays in the
    table under its primary key and keeps its [uuid], [hr_user],
    [hr_business], [id_no], [created_at], [otp], [otp_expires_at] and
    [note]: no handler deletes a request, re-keys it, or extends its
    deadline. *)
Theorem request_identity_is_kept (ops : list Operation) (w : World)
    (pk : nat) (r : VerificationRequest) :
  requests (store w) !! pk = Some r ->
  exists r', requests (store (run ops w)) !! pk = Some r' /\ same_identity r r'.
Proof.
  intros Hrow.
  destruct (run_rows (fun _ => True) same_identity
              (fun a => row_step_same_identity (Owner_profile GET) w a a
                          (step_same _ _ a))
              same_identity_trans
              (fun op w0 a b _ Hstep =>
                 conj (row_step_same_identity op w0 a b Hstep) Logic.I)
              ops w pk r Hrow Logic.I)
    as (r' & Hrow' & Hid & _).
  eauto.
Qed.

Lemma request_identity_is_kept_witness :
  exists r',
    requests (store (run a_day_of_requests (world_at [pending_request] 1000)))
    !! 0%nat = Some r'
    /\ same_identity pending_request r'.
Proof.
  exact (request_identity_is_kept a_day_of_requests
           (world_at [pending_request] 1000) 0%nat pending_request eq_refl).
Defined.

Lemma row_step_confirmation op w r r' :
  confirmation_recorded r -> row_step op w r r' ->
  (forall t, confirmed_at r = Some t ->
             confirmed_at r' = Some t /\ status r' = STATUS_CONFIRMED)
  /\ confirmation_recorded r'.
Proof.
  unfold confirmation_recorded. intros Hrec [| Hst | t' Hst | (u & _ & Hst & _)].
  - split; [|exact Hrec]. intros t Ht. split; [exact Ht|].
    apply Hrec. congruence.
  - assert (Hnone : confirmed_at r = None).
    { destruct (confirmed_at r) eqn:E; [|reflexivity].
      assert (Hc : status r = STATUS_CONFIRMED) by (apply Hrec; discriminate).
      rewrite Hst in Hc. discriminate Hc. }
    split; [intros t Ht; congruence|]. cbn.
    split; [discriminate | intros H; now destruct H].
  - assert (Hnone : confirmed_at r = None).
    { destruct (confirmed_at r) eqn:E; [|reflexivity].
      assert (Hc : status r = STATUS_CONFIRMED) by (apply Hrec; discriminate).
      rewrite Hst in Hc. discriminate Hc. }
    split; [intros t Ht; congruence|]. cbn.
    split; [discriminate | reflexivity].
  - split; [|exact Hrec]. intros t Ht. now split.
Qed.

Lemma handle_confirmation op w :
  Forall confirmation_recorded (requests (store w)) ->
  Forall confirmation_recorded (requests (store (snd (handle op w)))).
Proof.
  intros Hall.
  destruct (handle_requests op w) as [[Hlen Hrows] | (vr & -> & Hfresh)].
  - rewrite Forall_lookup in *. intros pk r' Hrow'.
    destruct (requests (store w) !! pk) as [r|] eqn:Hrow.
    + destruct (Hrows pk r Hrow) as (r'' & Hrow'' & Hstep).
      assert (r'' = r') by congruence. subst r''.
      eapply row_step_confirmation; [|exact Hstep]. now apply (Hall pk).
    + apply lookup_ge_None in Hrow. apply lookup_lt_Some in Hrow'. lia.
  - apply Forall_app. split; [exact Hall|].
    constructor; [|constructor]. destruct Hfresh as (Hst & Hc & _).
    unfold confirmation_recorded. rewrite Hst, Hc.
    split; [discriminate | intros H; now destruct H].
Qed.

(** X4: from a store in which a request is confirmed exactly when it
    carries a confirmation time (an empty store is one), every sequence of
    requests leads to such a store; and a request that carries a
    confirmation time keeps that very time and stays confirmed: the
    confirmation time is written once. *)
Theorem confirmation_is_recorded_once (ops : list Operation) (w : World) :
  Forall confirmation_recorded (requests (store w)) ->
  Forall confirmation_recorded (requests (store (run ops w)))
  /\ forall pk r t,
       requests (store w) !! pk = Some r ->
       confirmed_at r = Some t ->
       exists r', requests (store (run ops w)) !! pk = Some r'
                  /\ confirmed_at r' = Some t /\ status r' = STATUS_CONFIRMED.
Proof.
  intros Hall. split.
  - revert w Hall. induction ops as [|op ops IH]; intros w Hall; [exact Hall|].
    cbn [run]. apply IH. now apply handle_confirmation.
  - intros pk r t Hrow Ht.
    assert (Hi : confirmation_recorded r).
    { rewrite Forall_lookup in Hall. now apply (Hall pk). }
    destruct (run_rows confirmation_recorded
                (fun a b => forall t, confirmed_at a = Some t ->
                                      confirmed_at b = Some t)
                (fun a t H => H)
                (fun a b c Hab Hbc t H => Hbc t (Hab t H))
                (fun op w0 a b Ha Hstep =>
                   conj (fun t H => proj1 (proj1 (row_step_confirmation
                                                    op w0 a b Ha Hstep) t H))
                        (proj2 (row_step_confirmation op w0 a b Ha Hstep)))
                ops w pk r Hrow Hi)
      as (r' & Hrow' & Hkeep & Hrec).
    exists r'. split; [exact Hrow'|]. split; [now apply Hkeep|].
    apply Hrec. rewrite (Hkeep t Ht). discriminate.
Qed.

Lemma confirmation_is_recorded_once_witness :
  exists r',
    requests (store (run a_day_of_requests (world_at [confirmed_request] 3000)))
    !! 0%nat = Some r'
    /\ confirmed_at r' = Some 2000 /\ status r' = STATUS_CONFIRMED.
Proof.
  assert (Hall : Forall confirmation_recorded
                        (requests (store (world_at [confirmed_request] 3000)))).
  { constructor; [|constructor]. split; [discriminate | reflexivity]. }
  exact (proj2 (confirmation_is_recorded_once a_day_of_requests
                  (world_at [confirmed_request] 3000) Hall)
               0%nat confirmed_request 2000 eq_refl eq_refl).
Defined.

(** ** Unique keys *)

Lemma table_evolves_map {B} (f : VerificationRequest -> B)
    (R : VerificationRequest -> VerificationRequest -> Prop) rs rs' :
  (forall a b, R a b -> f b = f a) ->
  table_evolves R rs rs' -> map f rs' = map f rs.
Proof.
  intros Hf [Hlen Hrows]. apply list_eq. intros i.
  change (map f rs') with (f <$> rs'). change (map f rs) with (f <$> rs).
  rewrite !list_lookup_fmap.
  destruct (rs !! i) as [r|] eqn:Hrow.
  - destruct (Hrows i r Hrow) as (r' & -> & Hstep). cbn. f_equal. now apply Hf.
  - apply lookup_ge_None in Hrow.
    assert (Hrow' : rs' !! i = None) by (apply lookup_ge_None; lia).
    now rewrite Hrow'.
Qed.

Lemma hr_verify_appended user sub draw new_uuid w :
  requests (store (snd (hr_verify user sub draw new_uuid w))) = requests (store w)
  \/ exists vr,
       requests (store (snd (hr_verify user sub draw new_uuid w))) =
       (requests (store w) ++ [vr])%list
       /\ uuid vr = new_uuid
       /\ ~ In new_uuid (map uuid (requests (store w))).
Proof.
  destruct user as [|u]; [now left|].
  destruct sub as [| |[id_no_ business]].
  - left. unfold hr_verify, bind, get_store.
    destruct (negb (is_superuser u) && _); reflexivity.
  - left. unfold hr_verify, bind, get_store.
    destruct (negb (is_superuser u) && _); reflexivity.
  - unfold hr_verify, bind, get_store.
    destruct (acts_without_authority (store w) u business); [now left|].
    destruct (OwnerProfile_get (store w) id_no_) as [opk owner_| |]; try now left.
    unfold VerificationRequest_create, timezone_now, bind, get_store. cbn.
    destruct (existsb _ (requests (store w))) eqn:Hused; [now left|]. right. cbn.
    assert (Hfresh : ~ In new_uuid (map uuid (requests (store w)))).
    { intros Hin. apply in_map_iff in Hin. destruct Hin as (r & Hr & Hin).
      assert (Ht : existsb (fun r => String.eqb (uuid r) new_uuid)
                           (requests (store w)) = true).
      { apply existsb_exists. exists r. split; [exact Hin|]. now apply String.eqb_eq. }
      rewrite Hused in Ht. discriminate Ht. }
    unfold send_otp_to_owner, send_mail, bind, ret.
    destruct (String.eqb (email owner_) ""); cbn;
      [|destruct (smtp_up w); cbn]; eexists; repeat split; exact Hfresh.
Qed.

Lemma handle_uuids op w :
  List.NoDup (map uuid (requests (store w))) ->
  List.NoDup (map uuid (requests (store (snd (handle op w))))).
Proof.
  intros Hnd.
  assert (Hkeep : forall rs',
             table_evolves (row_step op w) (requests (store w)) rs' ->
             List.NoDup (map uuid rs')).
  { intros rs' Hev. rewrite (table_evolves_map uuid _ _ _ (fun a b H =>
      proj1 (row_step_same_identity op w a b H)) Hev). exact Hnd. }
  destruct op as [sub|sub|user sub draw new_uuid|user|user uuid_|user uuid_|user uuid_];
    cbn [handle].
  - now rewrite owner_profile_requests.
  - apply Hkeep, owner_confirm_otp_requests.
  - destruct (hr_verify_appended user sub draw new_uuid w)
      as [-> | (vr & -> & Hu & Hfresh)]; [exact Hnd|].
    rewrite map_app. cbn [map]. rewrite Hu.
    apply NoDup_ListNoDup. apply NoDup_app. repeat split.
    + now apply NoDup_ListNoDup.
    + intros x Hx Hx'. apply list_elem_of_In in Hx.
      apply list_elem_of_singleton in Hx'. subst x. exact (Hfresh Hx).
    + apply NoDup_singleton.
  - apply Hkeep. eapply table_evolves_weaken; [|apply hr_request_list_requests].
    apply expiry_only_row_step.
  - apply Hkeep. eapply table_evolves_weaken; [|apply hr_request_status_requests].
    apply expiry_only_row_step.
  - apply Hkeep, hr_view_request_requests.
  - apply Hkeep, hr_view_owner_requests.
Qed.

Lemma OwnerProfile_get_DoesNotExist s id_no_ :
  OwnerProfile_get s id_no_ = DoesNotExist ->
  ~ In id_no_ (map owner_profile_id_no (owners s)).
Proof.
  unfold OwnerProfile_get. intros Hget Hin.
  apply in_map_iff in Hin. destruct Hin as (o & Hid & Hin).
  apply list_elem_of_In, list_elem_of_lookup in Hin. destruct Hin as (i & Hrow).
  assert (Hf : In (i, o)
            (List.filter (fun r => String.eqb (owner_profile_id_no (snd r)) id_no_)
                         (rows (owners s)))).
  { apply filter_In. split; [now apply rows_In | now apply String.eqb_eq]. }
  destruct (List.filter _ (rows (owners s))) as [|[pk x] [|y l]];
    [destruct Hf | discriminate Hget | discriminate Hget].
Qed.

Lemma OwnerProfile_get_Got s id_no_ pk o :
  OwnerProfile_get s id_no_ = Got pk o ->
  owners s !! pk = Some o /\ owner_profile_id_no o = id_no_.
Proof.
  intros H. apply get_Got in H.
  assert (Hin : In (pk, o)
            (List.filter (fun r => String.eqb (owner_profile_id_no (snd r)) id_no_)
                         (rows (owners s)))) by (rewrite H; now left).
  apply filter_In in Hin. destruct Hin as [Hin Hid].
  apply rows_In in Hin. apply String.eqb_eq in Hid. auto.
Qed.

Lemma handle_owner_ids op w :
  List.NoDup (map owner_profile_id_no (owners (store w))) ->
  List.NoDup (map owner_profile_id_no (owners (store (snd (handle op w))))).
Proof.
  intros Hnd.
  assert (Hother : (forall sub, op <> Owner_profile sub) ->
                   List.NoDup (map owner_profile_id_no
                                   (owners (store (snd (handle op w)))))).
  { intros Hne. destruct (handle_frame op w) as (_ & _ & Ho & _).
    cbv zeta in Ho. rewrite (Ho Hne). exact Hnd. }
  destruct op as [sub| | | | | |]; try (apply Hother; discriminate).
  clear Hother. cbn [handle]. destruct sub as [| |[[[a b] c] d]]; try exact Hnd.
  unfold owner_profile, bind, get_store.
  destruct (OwnerProfile_get (store w) a) as [pk o| |] eqn:Hget; cbn; try exact Hnd.
  - apply OwnerProfile_get_Got in Hget. destruct Hget as [Hrow Hid].
    change (map owner_profile_id_no ?l) with (owner_profile_id_no <$> l).
    rewrite list_fmap_insert. cbn.
    rewrite list_insert_id; [exact Hnd|].
    rewrite list_lookup_fmap, Hrow. reflexivity.
  - apply OwnerProfile_get_DoesNotExist in Hget.
    rewrite map_app. cbn [map].
    apply NoDup_ListNoDup, NoDup_app. repeat split.
    + now apply NoDup_ListNoDup.
    + intros x Hx Hx'. apply list_elem_of_In in Hx.
      apply list_elem_of_singleton in Hx'. subst x. exact (Hget Hx).
    + apply NoDup_singleton.
Qed.

Lemma get_unambiguous {A B} (f : A -> B) (p : nat * A -> bool) (l : list A) (k : B) :
  List.NoDup (map f l) ->
  (forall r, p r = true -> f (snd r) = k) ->
  get (List.filter p (rows l)) <> Multiple.
Proof.
  intros Hnd Hp.
  destruct (List.filter p (rows l)) as [|[i x] [|[j y] rest]] eqn:E;
    try discriminate.
  exfalso.
  assert (Hi : In (i, x) (List.filter p (rows l))) by (rewrite E; now left).
  assert (Hj : In (j, y) (List.filter p (rows l))) by (rewrite E; right; now left).
  apply filter_In in Hi, Hj. destruct Hi as [Hi Hpi], Hj as [Hj Hpj].
  apply rows_In in Hi, Hj. apply Hp in Hpi, Hpj. cbn in Hpi, Hpj.
  assert (Heq : i = j).
  { apply NoDup_ListNoDup in Hnd.
    apply (NoDup_lookup (f <$> l) i j k Hnd).
    - rewrite list_lookup_fmap, Hi. cbn. now f_equal.
    - rewrite list_lookup_fmap, Hj. cbn. now f_equal. }
  subst j.
  pose proof (filter_keys_NoDup p (rows l) (rows_NoDup l)) as Hk.
  rewrite E in Hk. cbn in Hk. inversion Hk as [|? ? Hnot _]. apply Hnot. now left.
Qed.

Lemma unique_keys_get s :
  unique_keys s ->
  (forall u, VerificationRequest_get s u <> Multiple)
  /\ (forall id_no_, OwnerProfile_get s id_no_ <> Multiple).
Proof.
  intros [Hu Ho]. split; intros k.
  - apply (get_unambiguous uuid _ _ k Hu). intros r H. now apply String.eqb_eq.
  - apply (get_unambiguous owner_profile_id_no _ _ k Ho).
    intros r H. now apply String.eqb_eq.
Qed.

Lemma ambiguous_response op w :
  fst (handle op w) = ServerError MultipleObjectsReturned ->
  (exists u, VerificationRequest_get (store w) u = Multiple)
  \/ (exists id_no_, OwnerProfile_get (store w) id_no_ = Multiple).
Proof.
  destruct op as [sub|sub|user sub draw new_uuid|user|user uuid_|user uuid_|user uuid_];
    cbn [handle].
  - destruct sub as [| |[[[a b] c] d]]; try discriminate.
    unfold owner_profile, bind, get_store.
    destruct (OwnerProfile_get (store w) a) eqn:Hget; try discriminate. eauto.
  - destruct sub as [| |[id_no_ otp_]]; try discriminate.
    destruct (pending_queryset (store w) id_no_ otp_) as [|[pk vr] rest] eqn:Hqs.
    + now rewrite (owner_confirm_otp_not_found w id_no_ otp_ Hqs).
    + destruct (Z.lt_ge_cases (otp_expires_at vr) (clock w (ticks w))) as [Hlt|Hle].
      * now rewrite (owner_confirm_otp_expired w id_no_ otp_ pk vr rest Hqs Hlt).
      * now rewrite (owner_confirm_otp_confirmed w id_no_ otp_ pk vr rest Hqs Hle).
  - destruct user as [|u]; [discriminate|].
    destruct sub as [| |[id_no_ business]].
    + unfold hr_verify, bind, get_store.
      destruct (negb (is_superuser u) && _); discriminate.
    + unfold hr_verify, bind, get_store.
      destruct (negb (is_superuser u) && _); discriminate.
    + unfold hr_verify, bind, get_store.
      destruct (acts_without_authority (store w) u business); [discriminate|].
      destruct (OwnerProfile_get (store w) id_no_) as [opk owner_| |] eqn:Hget;
        [|discriminate|eauto].
      unfold VerificationRequest_create, timezone_now, bind, get_store. cbn.
      destruct (existsb _ (requests (store w))); [discriminate|]. cbn.
      unfold send_otp_to_owner, send_mail, bind, ret.
      destruct (String.eqb (email owner_) ""); cbn;
        [|destruct (smtp_up w); cbn]; discriminate.
  - destruct user as [|u]; [discriminate|].
    unfold hr_request_list, bind, get_store.
    destruct (for_each expire_if_needed _ w). discriminate.
  - destruct user as [|u]; [discriminate|].
    unfold hr_request_status, bind, get_store.
    destruct (VerificationRequest_get (store w) uuid_) as [pk vr| |] eqn:Hget;
      [|discriminate|eauto].
    destruct (expire_if_needed (pk, vr) w). discriminate.
  - destruct user as [|u]; [discriminate|].
    destruct (VerificationRequest_get (store w) uuid_) as [pk vr| |] eqn:Hget;
      [| |eauto].
    + destruct (allowed (store w) u vr) eqn:Hgate.
      * destruct (hr_view_request_cases w u uuid_ pk vr Hget Hgate)
          as [(_ & _ & ->) | (_ & n & ->)]; discriminate.
      * now rewrite (hr_view_request_forbidden w u uuid_ pk vr Hget Hgate).
    + unfold hr_view_request, bind, get_store. rewrite Hget. discriminate.
  - destruct user as [|u]; [discriminate|].
    destruct (VerificationRequest_get (store w) uuid_) as [pk vr| |] eqn:Hget;
      [| |eauto].
    + destruct (requester_or_superuser u vr) eqn:Hgate.
      * destruct (hr_view_owner_cases w u uuid_ pk vr Hget Hgate)
          as [(_ & _ & ->) | (_ & n & ->)]; discriminate.
      * now rewrite (hr_view_owner_forbidden w u uuid_ pk vr Hget Hgate).
    + unfold hr_view_owner, bind, get_store. rewrite Hget. discriminate.
Qed.

(** X5: from a store whose request [uuid]s and owner [id_no]s are distinct
    (an empty store is one), every sequence of requests leads to such a
    store: the handlers never store a duplicate key, and so no lookup is
    ever ambiguous and no request is ever answered with
    [MultipleObjectsReturned]. *)
Theorem lookups_stay_unambiguous (ops : list Operation) (w : World) :
  unique_keys (store w) ->
  unique_keys (store (run ops w))
  /\ forall op, fst (handle op (run ops w)) <> ServerError MultipleObjectsReturned.
Proof.
  intros Hu.
  assert (Hrun : unique_keys (store (run ops w))).
  { revert w Hu. induction ops as [|op ops IH]; intros w Hu; [exact Hu|].
    cbn [run]. apply IH. destruct Hu as [Hr Ho].
    split; [now apply handle_uuids | now apply handle_owner_ids]. }
  split; [exact Hrun|].
  intros op Hresp. destruct (unique_keys_get _ Hrun) as [Hvr Hown].
  destruct (ambiguous_response op _ Hresp) as [(u & H) | (i & H)].
  - exact (Hvr u H).
  - exact (Hown i H).
Qed.

Lemma lookups_stay_unambiguous_witness :
  unique_keys (store (run a_day_of_requests (fresh_world 1000)))
  /\ fst (handle (Hr_request_status (LoggedIn bob) "u-9")
                 (run a_day_of_requests (fresh_world 1000)))
     <> ServerError MultipleObjectsReturned.
Proof.
  assert (Hu : unique_keys (store (fresh_world 1000)))
    by (split; constructor).
  destruct (lookups_stay_unambiguous a_day_of_requests (fresh_world 1000) Hu)
    as [Hkeys Hresp].
  split; [exact Hkeys | apply Hresp].
Defined.

(** ** Views over time *)

Lemma shown_view_found_confirmed (view : Actor -> string -> M HttpResponse) w user uuid_ :
  view = hr_view_request \/ view = hr_view_owner ->
  shows_some_certificates (fst (view user uuid_ w)) ->
  exists u pk vr,
    user = LoggedIn u
    /\ VerificationRequest_get (store w) uuid_ = Got pk vr
    /\ status vr = STATUS_CONFIRMED
    /\ clock w (ticks w) <= otp_expires_at vr
    /\ snd (view user uuid_ w)
       = viewed_world w u pk vr
           (details (List.last (audit_log (store (snd (view user uuid_ w))))
                               {| audit_user := None; action := ""; details := "";
                                  audit_created_at := 0 |})).
Proof.
  intros Hview (x & l & Hshow).
  destruct user as [|u];
    [destruct Hview as [-> | ->]; discriminate Hshow|].
  exists u.
  destruct (VerificationRequest_get (store w) uuid_) as [pk vr| |] eqn:Hget;
    try (exfalso; destruct Hview as [-> | ->];
         unfold hr_view_request, hr_view_owner, bind, get_store in Hshow;
         rewrite Hget in Hshow; discriminate Hshow).
  exists pk, vr. split; [reflexivity|]. split; [reflexivity|].
  destruct Hview as [-> | ->].
  - destruct (allowed (store w) u vr) eqn:Hgate.
    + destruct (hr_view_request_cases w u uuid_ pk vr Hget Hgate)
        as [(Hst & Hle & Heq) | (_ & n & Heq)]; rewrite Heq in *;
        [|discriminate Hshow].
      repeat split; auto. cbn. now rewrite last_last.
    + rewrite (hr_view_request_forbidden w u uuid_ pk vr Hget Hgate) in Hshow.
      discriminate Hshow.
  - destruct (requester_or_superuser u vr) eqn:Hgate.
    + destruct (hr_view_owner_cases w u uuid_ pk vr Hget Hgate)
        as [(Hst & Hle & Heq) | (_ & n & Heq)]; rewrite Heq in *;
        [|discriminate Hshow].
      repeat split; auto. cbn. now rewrite last_last.
    + rewrite (hr_view_owner_forbidden w u uuid_ pk vr Hget Hgate) in Hshow.
      discriminate Hshow.
Qed.

Lemma status_step_refl a : status_step a a.
Proof. now left. Qed.

(** X6: an expired request is never shown again: whatever requests are
    served after a request is stored as expired, no later call of a view
    handler on its [uuid], by anyone, shows certificates. *)
Theorem expired_request_is_never_shown (ops : list Operation) (w : World)
    (pk : nat) (r : VerificationRequest) (user : Actor) :
  requests (store w) !! pk = Some r ->
  status r = STATUS_EXPIRED ->
  ~ shows_some_certificates (fst (hr_view_request user (uuid r) (run ops w)))
  /\ ~ shows_some_certificates (fst (hr_view_owner user (uuid r) (run ops w))).
Proof.
  intros Hrow Hst.
  destruct (run_rows (fun _ => True)
              (fun a b => same_identity a b /\ status_step (status a) (status b))
              (fun a => conj (row_step_same_identity (Owner_profile GET) w a a
                                (step_same _ _ a))
                             (status_step_refl (status a)))
              (fun a b c Hab Hbc =>
                 conj (same_identity_trans a b c (proj1 Hab) (proj1 Hbc))
                      (status_step_trans _ _ _ (proj2 Hab) (proj2 Hbc)))
              (fun op w0 a b _ Hstep =>
                 conj (conj (row_step_same_identity op w0 a b Hstep)
                            (row_step_status op w0 a b Hstep)) Logic.I)
              ops w pk r Hrow Logic.I)
    as (r' & Hrow' & [Hid Hstep] & _).
  assert (Hst' : status r' = STATUS_EXPIRED).
  { rewrite Hst in Hstep. destruct Hstep as [<-|[Hp _]]; [reflexivity|].
    discriminate Hp. }
  destruct Hid as (Huuid & _).
  assert (Hno : forall view,
             view = hr_view_request \/ view = hr_view_owner ->
             ~ shows_some_certificates (fst (view user (uuid r) (run ops w)))).
  { intros view Hview Hshow.
    destruct (shown_view_found_confirmed view _ user (uuid r) Hview Hshow)
      as (u & pk0 & vr & _ & Hget & Hconf & _).
    destruct (VerificationRequest_get_unique _ _ _ _ _ _ Hget Hrow' Huuid)
      as [_ <-].
    rewrite Hst' in Hconf. discriminate Hconf. }
  split; apply Hno; auto.
Qed.

Lemma expired_request_is_never_shown_witness :
  ~ shows_some_certificates
      (fst (hr_view_request (LoggedIn alice) "u-1"
              (run a_day_of_requests
                   (world_at [set_status STATUS_EXPIRED pending_request] 1000)))).
Proof.
  exact (proj1 (expired_request_is_never_shown a_day_of_requests
                  (world_at [set_status STATUS_EXPIRED pending_request] 1000)
                  0%nat (set_status STATUS_EXPIRED pending_request)
                  (LoggedIn alice) eq_refl eq_refl)).
Defined.

(** X7: a call of a view handler that shows certificates appends exactly
    one audit entry, of action [hr_viewed] and attributed to the viewing
    user; a call that shows none (refused, unknown [uuid], request not
    confirmed or past its deadline, anonymous caller) leaves the whole store
    as it was. *)
Theorem view_is_audited_iff_shown (view : Actor -> string -> M HttpResponse)
    (w : World) (user : Actor) (uuid_ : string) :
  view = hr_view_request \/ view = hr_view_owner ->
  let result := view user uuid_ w in
  (shows_some_certificates (fst result) ->
   exists u entry,
     user = LoggedIn u
     /\ audit_log (store (snd result)) = (audit_log (store w) ++ [entry])%list
     /\ audit_user entry = Some (user_pk u)
     /\ action entry = "hr_viewed"
     /\ audit_created_at entry = clock w (S (S (ticks w))))
  /\ (~ shows_some_certificates (fst result) -> store (snd result) = store w).
Proof.
  intros Hview result. subst result. split.
  - intros Hshow.
    destruct (shown_view_found_confirmed view w user uuid_ Hview Hshow)
      as (u & pk & vr & -> & _ & _ & _ & Heq).
    exists u. rewrite Heq. cbn. eexists. repeat split.
  - intros Hnot.
    destruct user as [|u]; [destruct Hview as [-> | ->]; reflexivity|].
    destruct (VerificationRequest_get (store w) uuid_) as [pk vr| |] eqn:Hget;
      try (destruct Hview as [-> | ->];
           unfold hr_view_request, hr_view_owner, bind, get_store;
           rewrite Hget; reflexivity).
    destruct Hview as [-> | ->].
    + destruct (allowed (store w) u vr) eqn:Hgate.
      * destruct (hr_view_request_cases w u uuid_ pk vr Hget Hgate)
          as [(_ & _ & Heq) | (_ & n & Heq)]; rewrite Heq in *; [|reflexivity].
        destruct Hnot. do 2 eexists. reflexivity.
      * now rewrite (hr_view_request_forbidden w u uuid_ pk vr Hget Hgate).
    + destruct (requester_or_superuser u vr) eqn:Hgate.
      * destruct (hr_view_owner_cases w u uuid_ pk vr Hget Hgate)
          as [(_ & _ & Heq) | (_ & n & Heq)]; rewrite Heq in *; [|reflexivity].
        destruct Hnot. do 2 eexists. reflexivity.
      * now rewrite (hr_view_owner_forbidden w u uuid_ pk vr Hget Hgate).
Qed.

Lemma view_is_audited_iff_shown_witness :
  store (snd (hr_view_owner (LoggedIn bob) "u-1" (world_at [confirmed_request] 3000)))
  = store (world_at [confirmed_request] 3000)
  /\ exists u entry,
       LoggedIn alice = LoggedIn u
       /\ audit_log (store (snd (hr_view_request (LoggedIn alice) "u-1"
                                   (world_at [confirmed_request] 3000))))
          = (audit_log (store (world_at [confirmed_request] 3000)) ++ [entry])%list
       /\ audit_user entry = Some (user_pk u)
       /\ action entry = "hr_viewed"
       /\ audit_created_at entry = 3002.
Proof.
  split.
  - apply (proj2 (view_is_audited_iff_shown hr_view_owner
                    (world_at [confirmed_request] 3000) (LoggedIn bob) "u-1"
                    (or_intror eq_refl))).
    intros (x & l & H). discriminate H.
  - apply (proj1 (view_is_audited_iff_shown hr_view_request
                    (world_at [confirmed_request] 3000) (LoggedIn alice) "u-1"
                    (or_introl eq_refl))).
    do 2 eexists. reflexivity.
Defined.

(** ** Owner profiles *)

Lemma OwnerProfile_get_found s id_no_ pk o :
  List.NoDup (map owner_profile_id_no (owners s)) ->
  owners s !! pk = Some o -> owner_profile_id_no o = id_no_ ->
  OwnerProfile_get s id_no_ = Got pk o.
Proof.
  intros Hnd Hrow Hid.
  destruct (OwnerProfile_get s id_no_) as [pk' o'| |] eqn:Hget.
  - destruct (OwnerProfile_get_Got _ _ _ _ Hget) as [Hrow' Hid'].
    assert (pk' = pk).
    { apply NoDup_ListNoDup in Hnd.
      apply (NoDup_lookup (owner_profile_id_no <$> owners s) pk' pk id_no_ Hnd).
      - rewrite list_lookup_fmap, Hrow'. cbn. now f_equal.
      - rewrite list_lookup_fmap, Hrow. cbn. now f_equal. }
    subst pk'. congruence.
  - exfalso. apply (OwnerProfile_get_DoesNotExist _ _ Hget).
    apply in_map_iff. exists o. split; [exact Hid|].
    apply list_elem_of_In. eapply list_elem_of_lookup_2. exact Hrow.
  - exfalso. revert Hget. unfold OwnerProfile_get.
    apply (get_unambiguous owner_profile_id_no _ _ id_no_ Hnd).
    intros r H. now apply String.eqb_eq.
Qed.

Lemma OwnerProfileForm_spec s id_no_ full_name_ mobile_ email_ :
  (In id_no_ (map owner_profile_id_no (owners s)) ->
   OwnerProfileForm s (POST (id_no_, full_name_, mobile_, email_)) = POST_invalid)
  /\ (~ In id_no_ (map owner_profile_id_no (owners s)) ->
      OwnerProfileForm s (POST (id_no_, full_name_, mobile_, email_))
      = POST (id_no_, full_name_, mobile_, email_)).
Proof.
  unfold OwnerProfileForm.
  destruct (existsb _ (owners s)) eqn:E.
  - split; [reflexivity|]. intros Hnot. destruct Hnot.
    apply existsb_exists in E. destruct E as (o & Hin & Heq).
    apply String.eqb_eq in Heq. apply in_map_iff. eauto.
  - split; [|reflexivity]. intros Hin. apply in_map_iff in Hin.
    destruct Hin as (o & Heq & Hin).
    assert (Htrue : existsb (fun o => String.eqb (owner_profile_id_no o) id_no_)
                            (owners s) = true).
    { apply existsb_exists. exists o. split; [exact Hin|]. now apply String.eqb_eq. }
    congruence.
Qed.

(** X8: through its form, [owner_profile] only creates. A submission for
    an [id_no] that is stored is rejected by the form ([id_no] is [unique]
    and the form has no instance): the page is shown again and nothing is
    written, so the update of [update_or_create] is never run and no
    request changes a stored profile. A submission for a new [id_no]
    appends one profile with the submitted name, mobile and email, created
    at the clock reading of the call, and that profile is the one found
    under its [id_no] afterwards. *)
Theorem owner_profile_only_creates (w : World)
    (id_no_ full_name_ mobile_ email_ : string) :
  let s := store w in
  let result := owner_profile
                  (OwnerProfileForm s (POST (id_no_, full_name_, mobile_, email_)))
                  w in
  let s' := store (snd result) in
  let profile := {| owner_profile_id_no := id_no_; full_name := full_name_;
                    mobile := mobile_; email := email_;
                    owner_profile_created_at := clock w (ticks w) |} in
  (In id_no_ (map owner_profile_id_no (owners s)) ->
   result = (render "core/owner_profile.html" [] form_context, w))
  /\ (~ In id_no_ (map owner_profile_id_no (owners s)) ->
      fst result
      = redirect "core:owner_profile" None
          [(SUCCESS, "Profile saved. If this is your mobile/email, you will receive OTPs when verification is requested.")]
      /\ owners s' = (owners s ++ [profile])%list
      /\ requests s' = requests s /\ audit_log s' = audit_log s
      /\ (List.NoDup (map owner_profile_id_no (owners s)) ->
          OwnerProfile_get s' id_no_ = Got (length (owners s)) profile))
  /\ (forall pk o, owners s !! pk = Some o -> owners s' !! pk = Some o)
  /\ (List.NoDup (map owner_profile_id_no (owners s)) ->
      List.NoDup (map owner_profile_id_no (owners s'))).
Proof.
  intros s result s' profile.
  destruct (OwnerProfileForm_spec s id_no_ full_name_ mobile_ email_)
    as [Hstored Hnew].
  assert (Hsame : In id_no_ (map owner_profile_id_no (owners s)) ->
                  result = (render "core/owner_profile.html" [] form_context, w)).
  { intros Hin. subst result. now rewrite (Hstored Hin). }
  assert (Hcreated : ~ In id_no_ (map owner_profile_id_no (owners s)) ->
                     result
                     = (redirect "core:owner_profile" None
                          [(SUCCESS, "Profile saved. If this is your mobile/email, you will receive OTPs when verification is requested.")],
                        with_store (with_owners (owners s ++ [profile]) s) (tick 1 w))).
  { intros Hnot. subst result. rewrite (Hnew Hnot).
    unfold owner_profile, bind, get_store.
    rewrite OwnerProfile_get_missing; [reflexivity|].
    intros o Hin Ho. apply Hnot. apply in_map_iff. eauto. }
  assert (Hnd' : ~ In id_no_ (map owner_profile_id_no (owners s)) ->
                 List.NoDup (map owner_profile_id_no (owners s)) ->
                 List.NoDup (map owner_profile_id_no (owners s ++ [profile]))).
  { intros Hnot Hnd. rewrite map_app. cbn.
    apply NoDup_ListNoDup, NoDup_app. repeat split.
    - now apply NoDup_ListNoDup.
    - intros x Hx Hx'. apply list_elem_of_singleton in Hx'. subst x.
      apply Hnot. now apply list_elem_of_In.
    - apply NoDup_singleton. }
  assert (Hdec : In id_no_ (map owner_profile_id_no (owners s))
                 \/ ~ In id_no_ (map owner_profile_id_no (owners s))).
  { destruct (in_dec String.string_dec id_no_ (map owner_profile_id_no (owners s)));
      auto. }
  split; [exact Hsame|]. split; [|split].
  - intros Hnot. subst s'. rewrite (Hcreated Hnot). cbn.
    repeat split. intros Hnd.
    apply OwnerProfile_get_found; cbn.
    + now apply Hnd'.
    + rewrite lookup_app_r by lia. now rewrite Nat.sub_diag.
    + reflexivity.
  - intros pk o Hrow. subst s'. destruct Hdec as [Hin|Hnot].
    + now rewrite (Hsame Hin).
    + rewrite (Hcreated Hnot). cbn. now apply lookup_app_l_Some.
  - intros Hnd. subst s'. destruct Hdec as [Hin|Hnot].
    + now rewrite (Hsame Hin).
    + rewrite (Hcreated Hnot). cbn. now apply Hnd'.
Qed.

Lemma owner_profile_only_creates_witness :
  owner_profile (OwnerProfileForm (store (world_at [] 50))
                   (POST ("A123", "Ann B", "0711", "")))
                (world_at [] 50)
  = (render "core/owner_profile.html" [] form_context, world_at [] 50)
  /\ owners (store (snd (owner_profile
                           (OwnerProfileForm (store (world_at [] 50))
                              (POST ("B999", "Ben", "0722", "")))
                           (world_at [] 50))))
     = [ann; {| owner_profile_id_no := "B999"; full_name := "Ben";
                mobile := "0722"; email := "";
                owner_profile_created_at := 50 |}].
Proof.
  split.
  - apply (proj1 (owner_profile_only_creates (world_at [] 50)
                    "A123" "Ann B" "0711" "")).
    now left.
  - destruct (proj1 (proj2 (owner_profile_only_creates (world_at [] 50)
                              "B999" "Ben" "0722" "")))
      as (_ & Howners & _).
    + intros [H|[]]. discriminate H.
    + exact Howners.
Defined.

(** ** From the request to the view *)

Lemma singleton_by_membership {A} (l : list (nat * A)) (a : nat * A) :
  List.NoDup (map fst l) -> (forall x, In x l <-> x = a) -> l = [a].
Proof.
  intros Hnd Hin. destruct l as [|x [|y l]].
  - exfalso. now apply (proj2 (Hin a) eq_refl).
  - f_equal. apply Hin. now left.
  - exfalso. assert (x = a) by (apply Hin; now left).
    assert (y = a) by (apply Hin; right; now left). subst x y.
    cbn in Hnd. inversion Hnd as [|? ? Hnot _]. apply Hnot. now left.
Qed.

Lemma hr_verify_created w u id_no_ business draw new_uuid opk owner_ :
  acts_without_authority (store w) u business = false ->
  OwnerProfile_get (store w) id_no_ = Got opk owner_ ->
  (forall r, In r (requests (store w)) -> uuid r <> new_uuid) ->
  let w1 := snd (hr_verify (LoggedIn u) (POST (id_no_, business)) draw new_uuid w) in
  requests (store w1) =
    (requests (store w) ++ [new_request w u id_no_ business draw new_uuid])%list
  /\ owners (store w1) = owners (store w)
  /\ businesses (store w1) = businesses (store w)
  /\ certificates (store w1) = certificates (store w)
  /\ clock w1 = clock w /\ ticks w1 = (3 + ticks w)%nat.
Proof.
  intros Hgate Hget Hfresh. apply uuid_unused in Hfresh.
  unfold hr_verify, bind, get_store. rewrite Hgate, Hget.
  unfold VerificationRequest_create, timezone_now, bind, get_store. cbn.
  rewrite Hfresh. cbn.
  unfold send_otp_to_owner, send_mail, bind, ret.
  destruct (String.eqb (email owner_) ""); cbn;
    [|destruct (smtp_up w); cbn]; repeat split.
Qed.

(** X9: the request runs its course. When [hr_verify] passes its
    preconditions, and no other pending request of that owner carries the
    generated [otp], an [owner_confirm_otp] with that [otp] served before
    the deadline is accepted; and a view of the new [uuid] by the user who
    made the request, served before the deadline on either view handler,
    then shows exactly the certificates whose [owner_id_no] is the
    requested [id_no]. *)
Theorem request_confirm_view (w : World) (u : User) (id_no_ : string)
    (business : option (nat * Business)) (draw : Z) (new_uuid : string)
    (opk : nat) (owner_ : OwnerProfile) :
  acts_without_authority (store w) u business = false ->
  OwnerProfile_get (store w) id_no_ = Got opk owner_ ->
  (forall r, In r (requests (store w)) -> uuid r <> new_uuid) ->
  let otp_ := str_int (randint 100000 999999 draw) in
  (forall r, In r (requests (store w)) ->
             ~ (id_no r = id_no_ /\ otp r = otp_ /\ status r = STATUS_PENDING)) ->
  let w1 := snd (hr_verify (LoggedIn u) (POST (id_no_, business)) draw new_uuid w) in
  let expires := clock w (ticks w) + timedelta_minutes 10 in
  clock w1 (ticks w1) <= expires ->
  let w2 := snd (owner_confirm_otp (POST (id_no_, otp_)) w1) in
  fst (owner_confirm_otp (POST (id_no_, otp_)) w1)
  = redirect "core:owner_confirm_otp" None [(SUCCESS, msg_otp_accepted)]
  /\ (clock w2 (ticks w2) <= expires ->
      forall view, view = hr_view_request \/ view = hr_view_owner ->
      exists shown_vr,
        fst (view (LoggedIn u) new_uuid w2)
        = render "institution/hr_view_owner.html" []
            (view_context shown_vr true
               (List.filter (fun c => String.eqb (owner_id_no c) id_no_)
                            (certificates (store w))))).
Proof.
  intros Hgate Hget Hfresh otp_ Hother w1 expires Hnow1 w2.
  destruct (hr_verify_created w u id_no_ business draw new_uuid opk owner_
              Hgate Hget Hfresh) as (Hreq & _ & _ & Hcerts & Hclock & Hticks).
  fold w1 in Hreq, Hcerts, Hclock, Hticks.
  set (vr := new_request w u id_no_ business draw new_uuid) in *.
  set (rs := requests (store w)) in *.
  assert (Hqs : pending_queryset (store w1) id_no_ otp_ = [(length rs, vr)]).
  { apply singleton_by_membership.
    - unfold pending_queryset.
      apply order_by_keys_NoDup, filter_keys_NoDup, rows_NoDup.
    - intros [pk r]. rewrite pending_queryset_In, Hreq. split.
      + intros [Hrow Hm]. apply lookup_app_Some in Hrow.
        destruct Hrow as [Hrow | [Hlen Hrow]].
        * exfalso. apply (Hother r).
          -- apply list_elem_of_In. eapply list_elem_of_lookup_2. exact Hrow.
          -- now apply matches_pending_spec.
        * destruct (pk - length rs)%nat as [|n] eqn:E; [|destruct n; discriminate Hrow].
          inversion Hrow. f_equal. lia.
      + intros Heq. inversion Heq; subst pk r. split.
        * rewrite lookup_app_r by lia. now rewrite Nat.sub_diag.
        * apply matches_pending_spec. now repeat split. }
  assert (Hle : clock w1 (ticks w1) <= otp_expires_at vr) by exact Hnow1.
  pose proof (owner_confirm_otp_confirmed w1 id_no_ otp_ (length rs) vr [] Hqs Hle)
    as Hconfirm. cbv zeta in Hconfirm.
  subst w2. rewrite Hconfirm. split; [reflexivity|].
  cbn [snd]. intros Hnow2 view Hview.
  set (vr' := set_confirmed_at (Some (clock w1 (S (ticks w1))))
                               (set_status STATUS_CONFIRMED vr)) in *.
  match goal with
  | |- context [view _ _ ?W] => set (w2 := W) in *
  end.
  assert (Hreq2 : requests (store w2) = <[length rs := vr']> (rs ++ [vr])%list).
  { subst w2. cbn. now rewrite Hreq. }
  assert (Hget2 : VerificationRequest_get (store w2) new_uuid = Got (length rs) vr').
  { unfold VerificationRequest_get.
    rewrite (singleton_by_membership _ (length rs, vr')); [reflexivity | |].
    - apply filter_keys_NoDup, rows_NoDup.
    - intros [pk r]. rewrite filter_In, rows_In, Hreq2. cbn [snd]. split.
      + intros [Hrow Hu]. apply String.eqb_eq in Hu.
        apply list_lookup_insert_Some in Hrow.
        destruct Hrow as [(<- & <- & _) | (Hne & Hrow)]; [reflexivity|].
        exfalso. apply lookup_app_Some in Hrow.
        destruct Hrow as [Hrow | [Hlen Hrow]].
        * apply (Hfresh r); [|exact Hu].
          apply list_elem_of_In. eapply list_elem_of_lookup_2. exact Hrow.
        * destruct (pk - length rs)%nat as [|n] eqn:E;
            [lia | destruct n; discriminate Hrow].
      + intros Heq. inversion Heq; subst pk r. split.
        * apply list_lookup_insert_eq. rewrite length_app. cbn. lia.
        * now apply String.eqb_eq. }
  assert (Hst : status vr' = STATUS_CONFIRMED) by reflexivity.
  assert (Hle2 : clock w2 (ticks w2) <= otp_expires_at vr') by exact Hnow2.
  assert (Hcerts2 : certificates_of (store w2) vr'
                    = List.filter (fun c => String.eqb (owner_id_no c) id_no_)
                                  (certificates (store w))).
  { subst w2. unfold certificates_of. cbn. now rewrite Hcerts. }
  destruct Hview as [-> | ->].
  - rewrite (hr_view_request_shown w2 u new_uuid (length rs) vr' Hget2);
      [| |exact Hst|exact Hle2].
    + cbn [fst]. rewrite Hcerts2. eexists. reflexivity.
    + apply allowed_spec. right. now left.
  - rewrite (hr_view_owner_shown w2 u new_uuid (length rs) vr' Hget2);
      [| |exact Hst|exact Hle2].
    + cbn [fst]. rewrite Hcerts2. eexists. reflexivity.
    + apply requester_or_superuser_spec. now right.
Qed.

Lemma request_confirm_view_witness :
  let w1 := snd (hr_verify (LoggedIn alice) (POST ("A123", None)) 42 "u-9"
                           (world_at [] 1000)) in
  let w2 := snd (owner_confirm_otp (POST ("A123", "100042")) w1) in
  exists shown_vr,
    fst (hr_view_request (LoggedIn alice) "u-9" w2)
    = render "institution/hr_view_owner.html" []
             (view_context shown_vr true [diploma]).
Proof.
  destruct (request_confirm_view (world_at [] 1000) alice "A123" None 42 "u-9"
              0%nat ann eq_refl eq_refl) as [_ Hview].
  - intros r [].
  - intros r [].
  - discriminate.
  - apply Hview; [discriminate | now left].
Defined.

(** ** The one-time password *)

Lemma of_lu_cons_digit a rest :
  0 <= a <= 9 ->
  DecimalPos.Unsigned.of_lu (cons_digit a rest)
  = (Z.to_N a + 10 * DecimalPos.Unsigned.of_lu rest)%N.
Proof. intros H. digit_cases a; try lia; reflexivity. Qed.

Lemma revapp_cons_digit a rest acc :
  Decimal.revapp (cons_digit a rest) acc = Decimal.revapp rest (cons_digit a acc).
Proof.
  unfold cons_digit.
  destruct a as [|p|p]; try reflexivity.
  do 4 (destruct p as [p|p|]; try reflexivity).
Qed.

Lemma unorm_cons_digit a rest :
  1 <= a <= 9 -> Decimal.unorm (cons_digit a rest) = cons_digit a rest.
Proof. intros H. digit_cases a; try lia; reflexivity. Qed.

Lemma string_of_uint_cons_digit a rest :
  0 <= a <= 9 ->
  NilEmpty.string_of_uint (cons_digit a rest)
  = String (digit_char a) (NilEmpty.string_of_uint rest).
Proof. intros H. digit_cases a; try lia; reflexivity. Qed.

Lemma cons_digit_nonnil a rest : cons_digit a rest <> Decimal.Nil.
Proof.
  unfold cons_digit. destruct a as [|p|p]; try discriminate.
  do 4 (destruct p as [p|p|]; try discriminate).
Qed.

Lemma str_int_six_digits n :
  100000 <= n <= 999999 -> str_int n = six_digits n.
Proof.
  intros Hn.
  set (a0 := decimal_digit n 0). set (a1 := decimal_digit n 1).
  set (a2 := decimal_digit n 2). set (a3 := decimal_digit n 3).
  set (a4 := decimal_digit n 4). set (a5 := decimal_digit n 5).
  assert (Hd : 0 <= a0 <= 9 /\ 0 <= a1 <= 9 /\ 0 <= a2 <= 9 /\ 0 <= a3 <= 9
               /\ 0 <= a4 <= 9 /\ 1 <= a5 <= 9
               /\ n = a0 + 10 * (a1 + 10 * (a2 + 10 * (a3 + 10 * (a4 + 10 * a5))))).
  { subst a0 a1 a2 a3 a4 a5. unfold decimal_digit.
    change (10 ^ 0) with 1. change (10 ^ 1) with 10. change (10 ^ 2) with 100.
    change (10 ^ 3) with 1000. change (10 ^ 4) with 10000.
    change (10 ^ 5) with 100000.
    Z.to_euclidean_division_equations. lia. }
  destruct Hd as (H0 & H1 & H2 & H3 & H4 & H5 & Hsum).
  set (D := cons_digit a5 (cons_digit a4 (cons_digit a3 (cons_digit a2
              (cons_digit a1 (cons_digit a0 Decimal.Nil)))))).
  assert (Hof : Pos.of_uint D = Z.to_N n).
  { rewrite DecimalPos.Unsigned.of_uint_alt. unfold D, Decimal.rev.
    rewrite !revapp_cons_digit. cbn [Decimal.revapp].
    rewrite !of_lu_cons_digit by lia. cbn [DecimalPos.Unsigned.of_lu]. lia. }
  destruct n as [|p|p]; try lia.
  assert (Hto : Pos.to_uint p = D).
  { change (Pos.to_uint p) with (N.to_uint (Npos p)).
    change (Z.to_N (Z.pos p)) with (Npos p) in Hof. rewrite <- Hof.
    rewrite DecimalPos.Unsigned.to_of. apply unorm_cons_digit. lia. }
  unfold str_int. cbn [Z.to_int NilZero.string_of_int]. rewrite Hto.
  unfold NilZero.string_of_uint.
  destruct D eqn:E; try (now destruct (cons_digit_nonnil _ _ E));
    rewrite <- E; unfold D;
    rewrite !string_of_uint_cons_digit by lia; reflexivity.
Qed.

(** X10: whatever the random generator draws, the one-time password
    [hr_verify] makes is the decimal writing of a number from 100000 to
    999999: exactly six characters, each a decimal digit, the first not a
    zero. *)
Theorem otp_is_six_digits (draw : Z) :
  let n := randint 100000 999999 draw in
  let otp_ := str_int n in
  100000 <= n <= 999999
  /\ otp_ = six_digits n
  /\ String.length otp_ = 6%nat
  /\ (forall k, 0 <= k <= 5 -> 0 <= decimal_digit n k <= 9)
  /\ 1 <= decimal_digit n 5.
Proof.
  intros n otp_.
  assert (Hn : 100000 <= n <= 999999).
  { subst n. unfold randint.
    pose proof (Z.mod_pos_bound draw (999999 - 100000 + 1)). lia. }
  split; [exact Hn|]. subst otp_. rewrite (str_int_six_digits n Hn).
  split; [reflexivity|]. split; [reflexivity|]. split.
  - intros k Hk. unfold decimal_digit.
    pose proof (Z.mod_pos_bound (n / 10 ^ k) 10). lia.
  - unfold decimal_digit. change (10 ^ 5) with 100000.
    Z.to_euclidean_division_equations. lia.
Qed.

Lemma otp_is_six_digits_witness :
  str_int (randint 100000 999999 (-1)) = "999999"
  /\ 0 <= decimal_digit (randint 100000 999999 (-1)) 3 <= 9.
Proof.
  destruct (otp_is_six_digits (-1)) as (_ & Heq & _ & Hdigits & _).
  split; [exact Heq | apply Hdigits; lia].
Defined.

(** ** Listing and reading requests *)

Lemma expire_if_needed_result pk v w :
  exists v',
    fst (expire_if_needed (pk, v) w) = (pk, v')
    /\ (status v' = STATUS_PENDING -> clock w (ticks w) <= otp_expires_at v')
    /\ (status v = STATUS_PENDING -> otp_expires_at v < clock w (ticks w) ->
        v' = set_status STATUS_EXPIRED v)
    /\ (status v' <> status v -> otp_expires_at v < clock w (ticks w)).
Proof.
  unfold expire_if_needed.
  destruct (String.eqb_spec (status v) STATUS_PENDING) as [Hst|Hst].
  - unfold bind. rewrite is_expired_eq.
    destruct (Z.ltb_spec (otp_expires_at v) (clock w (ticks w))) as [Hlt|Hge]; cbn.
    + exists (set_status STATUS_EXPIRED v).
      split; [reflexivity|]. split; [discriminate|]. split; [reflexivity|].
      intros _. exact Hlt.
    + exists v. split; [reflexivity|]. split; [intros _; exact Hge|].
      split; [lia|]. intros H. now destruct H.
  - cbn. exists v. split; [reflexivity|]. split; [contradiction|].
    split; [contradiction|]. intros H. now destruct H.
Qed.

(** The loop of [hr_request_list]: what it lists is what it leaves in the
    table, row by row. *)
Lemma for_each_expire_listed qs : forall w,
  List.NoDup (map fst qs) ->
  (forall pk v, In (pk, v) qs -> requests (store w) !! pk = Some v) ->
  let listed := fst (for_each expire_if_needed qs w) in
  let w' := snd (for_each expire_if_needed qs w) in
  Forall2 (fun q l => fst l = fst q /\ expiry_only (snd q) (snd l)
                      /\ (status (snd l) = STATUS_PENDING ->
                          exists n, (ticks w <= n)%nat
                                    /\ clock w n <= otp_expires_at (snd l)))
          qs listed
  /\ (forall pk v', In (pk, v') listed -> requests (store w') !! pk = Some v')
  /\ (forall pk, ~ In pk (map fst qs) ->
                 requests (store w') !! pk = requests (store w) !! pk).
Proof.
  induction qs as [|[pk0 v0] qs IH]; intros w Hnd Hsync.
  - cbn. split; [constructor|]. split; [intros pk v' []|reflexivity].
  - assert (Hrow : requests (store w) !! pk0 = Some v0) by (apply Hsync; now left).
    destruct (expire_if_needed_spec pk0 v0 w Hrow) as (v' & Hres & Hstep & Hreq).
    destruct (expire_if_needed_result pk0 v0 w) as (v'' & Hres' & Hpending & _).
    assert (v'' = v') by congruence. subst v''.
    pose proof (expire_if_needed_frame (pk0, v0) w) as Hframe.
    cbn [for_each]. unfold bind.
    destruct (expire_if_needed (pk0, v0) w) as [y w1]. cbn [fst snd] in *.
    subst y. destruct Hframe as (_ & _ & _ & _ & _ & _ & Hclock & Hticks).
    inversion Hnd as [|? ? Hfresh Hnd']; subst.
    assert (Hsync1 : forall pk v, In (pk, v) qs ->
                                  requests (store w1) !! pk = Some v).
    { intros pk v Hin. rewrite Hreq. rewrite list_lookup_insert_ne.
      - apply Hsync. now right.
      - intros <-. apply Hfresh. apply in_map_iff. now exists (pk0, v). }
    specialize (IH w1 Hnd' Hsync1). cbv zeta in IH.
    destruct (for_each expire_if_needed qs w1) as [ys w2]. cbn [fst snd ret] in *.
    destruct IH as (Hall & Hstored & Hrest).
    split; [|split].
    + constructor.
      * cbn. split; [reflexivity|]. split; [exact Hstep|].
        intros Hp. exists (ticks w). split; [lia | now apply Hpending].
      * eapply Forall2_impl; [exact Hall|]. cbn.
        intros q l (Hk & He & Hp). split; [exact Hk|]. split; [exact He|].
        intros Hst. destruct (Hp Hst) as (n & Hn & Hle).
        exists n. split; [lia|]. now rewrite <- Hclock.
    + intros pk v Hin. destruct Hin as [Heq|Hin]; [|now apply Hstored].
      inversion Heq; subst pk v. rewrite Hrest by exact Hfresh.
      rewrite Hreq. apply list_lookup_insert_eq. now apply lookup_lt_Some in Hrow.
    + intros pk Hnot. rewrite Hrest by (intros H; apply Hnot; now right).
      rewrite Hreq. apply list_lookup_insert_ne. intros <-. apply Hnot. now left.
Qed.

Lemma insert_desc_sorted x l :
  Sorted.Sorted newer_first l -> Sorted.Sorted newer_first (insert_desc x l).
Proof.
  induction l as [|y l IH]; intros Hs; cbn.
  - repeat constructor.
  - destruct (Z.ltb_spec (created_at (snd y)) (created_at (snd x))) as [Hlt|Hge].
    + constructor; [exact Hs|]. constructor. unfold newer_first. lia.
    + inversion Hs as [|? ? Hl Hhd]; subst. constructor; [now apply IH|].
      destruct l as [|z l]; cbn.
      * constructor. exact Hge.
      * destruct (created_at (snd z) <? created_at (snd x)).
        -- constructor. exact Hge.
        -- constructor. now inversion Hhd.
Qed.

Lemma order_by_sorted l :
  Sorted.StronglySorted newer_first (order_by_created_at_desc l).
Proof.
  apply Sorted.Sorted_StronglySorted.
  - intros a b c Hab Hbc. unfold newer_first in *. lia.
  - induction l as [|x l IH]; cbn; [constructor | now apply insert_desc_sorted].
Qed.

Lemma businesses_of_In s u b :
  In b (businesses_of s u) <->
  exists biz, businesses s !! b = Some biz /\ In (user_pk u) (staff biz).
Proof.
  unfold businesses_of. rewrite in_map_iff. split.
  - intros ([i biz] & <- & Hin). apply filter_In in Hin. destruct Hin as [Hrow Hst].
    apply rows_In in Hrow. apply existsb_exists in Hst.
    destruct Hst as (x & Hx & Heq). apply Nat.eqb_eq in Heq. subst x.
    exists biz. auto.
  - intros (biz & Hrow & Hst). exists (b, biz). split; [reflexivity|].
    apply filter_In. split; [now apply rows_In|].
    apply existsb_exists. exists (user_pk u). split; [exact Hst|].
    apply Nat.eqb_refl.
Qed.

Lemma user_queryset_In s u pk r :
  In (pk, r) (user_queryset s u) <-> requests s !! pk = Some r /\ visible_to s u r.
Proof.
  unfold user_queryset, visible_to. destruct (is_superuser u) eqn:Hsu.
  - rewrite order_by_In, rows_In. tauto.
  - rewrite order_by_In, filter_In, rows_In. cbn [snd].
    rewrite orb_true_iff.
    assert (Hu : match hr_user r with
                 | Some p => Nat.eqb p (user_pk u)
                 | None => false
                 end = true <-> hr_user r = Some (user_pk u)).
    { destruct (hr_user r) as [p|]; [|split; discriminate].
      rewrite Nat.eqb_eq. split; congruence. }
    assert (Hb : match hr_business r with
                 | Some b => existsb (Nat.eqb b) (businesses_of s u)
                 | None => false
                 end = true <->
                 exists b biz, hr_business r = Some b
                               /\ businesses s !! b = Some biz
                               /\ In (user_pk u) (staff biz)).
    { destruct (hr_business r) as [b|].
      - rewrite existsb_exists. split.
        + intros (x & Hx & Heq). apply Nat.eqb_eq in Heq. subst x.
          apply businesses_of_In in Hx. destruct Hx as (biz & H1 & H2).
          exists b, biz. auto.
        + intros (b' & biz & Heq & H1 & H2). inversion Heq; subst b'.
          exists b. split; [|apply Nat.eqb_refl].
          apply businesses_of_In. eauto.
      - split; [discriminate|]. intros (b & biz & H & _). discriminate H. }
    rewrite Hu, Hb. split.
    + intros [Hrow [H|H]]; auto.
    + intros [Hrow [H|[H|H]]]; auto. discriminate H.
Qed.

Lemma user_queryset_NoDup s u : List.NoDup (map fst (user_queryset s u)).
Proof.
  unfold user_queryset. destruct (is_superuser u).
  - apply order_by_keys_NoDup, rows_NoDup.
  - apply order_by_keys_NoDup, filter_keys_NoDup, rows_NoDup.
Qed.

Lemma hr_request_list_eq u w :
  hr_request_list (LoggedIn u) w =
  (render "core/hr_request_list.html" []
     (requests_context
        (fst (for_each expire_if_needed (user_queryset (store w) u) w))
        (clock w (ticks (snd (for_each expire_if_needed
                                (user_queryset (store w) u) w))))),
   tick 1 (snd (for_each expire_if_needed (user_queryset (store w) u) w))).
Proof.
  unfold hr_request_list, bind, get_store. fold (user_queryset (store w) u).
  pose proof (for_each_expire_frame (user_queryset (store w) u) w) as H.
  destruct (for_each expire_if_needed (user_queryset (store w) u) w) as [l w1].
  cbn in *. destruct H as (_ & _ & _ & _ & _ & _ & Hclock & _).
  unfold ret, tick. cbn. rewrite Hclock. reflexivity.
Qed.

Lemma listed_keys qs listed
    (R : nat * VerificationRequest -> nat * VerificationRequest -> Prop) :
  (forall q l, R q l -> fst l = fst q) ->
  Forall2 R qs listed -> map fst listed = map fst qs.
Proof.
  intros HR H. induction H as [|q l qs ls Hql _ IH]; [reflexivity|].
  cbn. f_equal; [now apply HR | exact IH].
Qed.

(** X11: [hr_request_list] shows a logged-in user each request once, and
    exactly the requests that user made or that belong to a business the
    user is staff of; a superuser is shown every request. *)
Theorem hr_request_list_shows_own_requests (w : World) (u : User) :
  let listed := listed_requests (fst (hr_request_list (LoggedIn u) w)) in
  List.NoDup (map fst listed)
  /\ forall pk,
       In pk (map fst listed) <->
       exists r, requests (store w) !! pk = Some r /\ visible_to (store w) u r.
Proof.
  rewrite hr_request_list_eq. cbn [fst listed_requests].
  set (qs := user_queryset (store w) u).
  assert (Hnd : List.NoDup (map fst qs)) by apply user_queryset_NoDup.
  assert (Hsync : forall pk v, In (pk, v) qs -> requests (store w) !! pk = Some v).
  { intros pk v Hin. now apply user_queryset_In in Hin. }
  destruct (for_each_expire_listed qs w Hnd Hsync) as (Hall & _ & _).
  assert (Hkeys : map fst (fst (for_each expire_if_needed qs w)) = map fst qs).
  { eapply listed_keys; [|exact Hall]. cbn. tauto. }
  rewrite Hkeys. split; [exact Hnd|].
  intros pk. rewrite in_map_iff. split.
  - intros ([pk' r] & <- & Hin). exists r. now apply user_queryset_In.
  - intros (r & Hrow & Hvis). exists (pk, r). split; [reflexivity|].
    now apply user_queryset_In.
Qed.

Lemma hr_request_list_shows_own_requests_witness :
  In 0%nat (map fst (listed_requests
                       (fst (hr_request_list (LoggedIn bob)
                               (world_at [pending_request] 2000)))))
  /\ ~ In 0%nat (map fst (listed_requests
                            (fst (hr_request_list (LoggedIn carol)
                                    (world_at [pending_request] 2000))))).
Proof.
  split.
  - apply (proj2 (hr_request_list_shows_own_requests
                    (world_at [pending_request] 2000) bob)).
    exists pending_request. split; [reflexivity|].
    right. right. exists 0%nat, acme. repeat split. now left.
  - intros Hin.
    apply (proj2 (hr_request_list_shows_own_requests
                    (world_at [pending_request] 2000) carol)) in Hin.
    destruct Hin as (r & Hrow & Hvis). inversion Hrow; subst r.
    destruct Hvis as [H|[H|(b & biz & Hb & Hbiz & Hst)]]; try discriminate.
    inversion Hb; subst b. inversion Hbiz; subst biz.
    destruct Hst as [H|[]]. discriminate H.
Defined.

Lemma sorted_through (qs ls : list (nat * VerificationRequest)) :
  Forall2 (fun q l => created_at (snd l) = created_at (snd q)) qs ls ->
  Sorted.StronglySorted newer_first qs -> Sorted.StronglySorted newer_first ls.
Proof.
  intros H. induction H as [|q l qs ls Hql Hrest IH]; intros Hs; [constructor|].
  inversion Hs as [|? ? Hs' Hall]; subst. constructor; [now apply IH|].
  clear IH Hs Hs'. induction Hrest as [|q' l' qs ls Hql' _ IH]; [constructor|].
  inversion Hall as [|? ? Hq Hall']; subst.
  constructor; [|now apply IH]. unfold newer_first in *. lia.
Qed.

(** X12: the page of [hr_request_list] agrees with the store it leaves:
    each listed request is the stored row of its primary key as it is after
    the call, the requests that are not listed are stored as before, and
    the list runs from the newest [created_at] to the oldest. *)
Theorem hr_request_list_shows_what_it_stores (w : World) (u : User) :
  let result := hr_request_list (LoggedIn u) w in
  let listed := listed_requests (fst result) in
  (forall pk v, In (pk, v) listed -> requests (store (snd result)) !! pk = Some v)
  /\ (forall pk, ~ In pk (map fst listed) ->
                 requests (store (snd result)) !! pk = requests (store w) !! pk)
  /\ Sorted.StronglySorted newer_first listed.
Proof.
  rewrite hr_request_list_eq. cbn [fst snd listed_requests].
  set (qs := user_queryset (store w) u).
  assert (Hnd : List.NoDup (map fst qs)) by apply user_queryset_NoDup.
  assert (Hsync : forall pk v, In (pk, v) qs -> requests (store w) !! pk = Some v).
  { intros pk v Hin. now apply user_queryset_In in Hin. }
  destruct (for_each_expire_listed qs w Hnd Hsync) as (Hall & Hstored & Hrest).
  assert (Hkeys : map fst (fst (for_each expire_if_needed qs w)) = map fst qs).
  { eapply listed_keys; [|exact Hall]. cbn. tauto. }
  split; [exact Hstored|]. split.
  - intros pk Hnot. rewrite Hkeys in Hnot. now apply Hrest.
  - apply (sorted_through qs).
    + eapply Forall2_impl; [exact Hall|]. cbn. intros q l (_ & He & _).
      destruct He as [->|[_ ->]]; reflexivity.
    + subst qs. unfold user_queryset.
      destruct (is_superuser u); apply order_by_sorted.
Qed.

Lemma hr_request_list_shows_what_it_stores_witness :
  requests (store (snd (hr_request_list (LoggedIn alice)
                          (world_at [pending_request] 6000)))) !! 0%nat
  = Some (set_status STATUS_EXPIRED pending_request).
Proof.
  apply (proj1 (hr_request_list_shows_what_it_stores
                  (world_at [pending_request] 6000) alice)).
  now left.
Defined.

(** X13: the lazy expiry of [hr_request_list]. Under a clock that never
    runs backwards, a request the page lists as pending had not passed its
    deadline when the listing began: every listed request that was pending
    and past its deadline is stored, and listed, as expired. *)
Theorem hr_request_list_expires_lapsed (w : World) (u : User) :
  monotone_clock w ->
  let listed := listed_requests (fst (hr_request_list (LoggedIn u) w)) in
  forall pk v,
    In (pk, v) listed ->
    status v = STATUS_PENDING -> clock w (ticks w) <= otp_expires_at v.
Proof.
  intros Hmono. rewrite hr_request_list_eq. cbn [fst listed_requests].
  set (qs := user_queryset (store w) u).
  assert (Hnd : List.NoDup (map fst qs)) by apply user_queryset_NoDup.
  assert (Hsync : forall pk v, In (pk, v) qs -> requests (store w) !! pk = Some v).
  { intros pk v Hin. now apply user_queryset_In in Hin. }
  destruct (for_each_expire_listed qs w Hnd Hsync) as (Hall & _ & _).
  intros pk v Hin Hst.
  apply list_elem_of_In, list_elem_of_lookup in Hin. destruct Hin as (i & Hi).
  destruct (Forall2_lookup_r _ _ _ _ _ Hall Hi) as (q & _ & _ & _ & Hp).
  destruct (Hp Hst) as (n & Hn & Hle).
  specialize (Hmono (ticks w) n Hn). cbn in Hle. lia.
Qed.

Lemma hr_request_list_expires_lapsed_witness :
  clock (world_at [pending_request] 2000) (ticks (world_at [pending_request] 2000))
  <= otp_expires_at pending_request.
Proof.
  apply (hr_request_list_expires_lapsed (world_at [pending_request] 2000) alice)
    with (pk := 0%nat).
  - intros m n Hmn. cbn. lia.
  - now left.
  - reflexivity.
Defined.

(** X14: [hr_request_status] asks nothing of the logged-in user: whoever
    asks, a known [uuid] gets the status page of that request, shown as it
    is stored after the call: stored and shown as expired when it was
    pending and the clock is past its deadline, untouched otherwise, every
    other request being left alone; an unknown [uuid] gets a 404 and
    changes nothing. *)
Theorem hr_request_status_reads_any_request (w : World) (u : User) (uuid_ : string) :
  let result := hr_request_status (LoggedIn u) uuid_ w in
  (forall pk vr,
     VerificationRequest_get (store w) uuid_ = Got pk vr ->
     exists v',
       fst result = render "core/hr_request_status.html" [] (vr_context (pk, v'))
       /\ requests (store (snd result)) !! pk = Some v'
       /\ (status vr = STATUS_PENDING /\ otp_expires_at vr < clock w (ticks w) ->
           v' = set_status STATUS_EXPIRED vr)
       /\ (~ (status vr = STATUS_PENDING /\ otp_expires_at vr < clock w (ticks w)) ->
           v' = vr)
       /\ forall pk', pk' <> pk ->
                      requests (store (snd result)) !! pk'
                      = requests (store w) !! pk')
  /\ (VerificationRequest_get (store w) uuid_ = DoesNotExist ->
      result = (Http404, w)).
Proof.
  intros result. subst result. split.
  - intros pk vr Hget. unfold hr_request_status, bind, get_store. rewrite Hget.
    destruct (VerificationRequest_get_Got _ _ _ _ Hget) as [Hrow _].
    destruct (expire_if_needed_spec pk vr w Hrow) as (v' & Hres & Hstep & Hreq).
    destruct (expire_if_needed_result pk vr w)
      as (v'' & Hres' & Hpending & Hlapsed & Hchanged).
    assert (v'' = v') by congruence. subst v''.
    destruct (expire_if_needed (pk, vr) w) as [y w1]. cbn [fst snd ret] in *.
    subst y. exists v'. split; [reflexivity|]. rewrite Hreq.
    split; [apply list_lookup_insert_eq; now apply lookup_lt_Some in Hrow|].
    split; [intros [Hst Hlt]; now apply Hlapsed|]. split.
    + intros Hnot. destruct Hstep as [->|[Hst ->]]; [reflexivity|].
      exfalso. apply Hnot. split; [exact Hst|].
      apply Hchanged. cbn. rewrite Hst. discriminate.
    + intros pk' Hne. now apply list_lookup_insert_ne.
  - intros Hget. unfold hr_request_status, bind, get_store. now rewrite Hget.
Qed.

Lemma hr_request_status_reads_any_request_witness :
  exists v',
    fst (hr_request_status (LoggedIn carol) "u-1" (world_at [pending_request] 6000))
    = render "core/hr_request_status.html" [] (vr_context (0%nat, v'))
    /\ v' = set_status STATUS_EXPIRED pending_request.
Proof.
  destruct (proj1 (hr_request_status_reads_any_request
                     (world_at [pending_request] 6000) carol "u-1")
                  0%nat pending_request eq_refl)
    as (v' & Hpage & _ & Hlapsed & _).
  exists v'. split; [exact Hpage|]. apply Hlapsed. split; reflexivity.
Defined.

(** ** One confirmation at a time *)

(** X15: [owner_confirm_otp] writes one request at most: when two pending
    requests carry the submitted [id_no] and [otp], at least one of them is
    stored afterwards exactly as it was, and every request but the one the
    handler picked is left alone. *)
Theorem confirm_writes_one_request (w : World) (sub : Submission (string * string)) :
  let s' := store (snd (owner_confirm_otp sub w)) in
  (exists pk, forall pk', pk' <> pk ->
                          requests s' !! pk' = requests (store w) !! pk')
  /\ forall id_no_ otp_ pk1 pk2 r1 r2,
       sub = POST (id_no_, otp_) ->
       pk1 <> pk2 ->
       requests (store w) !! pk1 = Some r1 ->
       requests (store w) !! pk2 = Some r2 ->
       matches_pending id_no_ otp_ r1 = true ->
       matches_pending id_no_ otp_ r2 = true ->
       requests s' !! pk1 = Some r1 \/ requests s' !! pk2 = Some r2.
Proof.
  intros s'.
  assert (Hone : exists pk, forall pk', pk' <> pk ->
                   requests s' !! pk' = requests (store w) !! pk').
  { subst s'. destruct sub as [| |[id_no_ otp_]]; try (exists 0%nat; reflexivity).
    destruct (pending_queryset (store w) id_no_ otp_) as [|[pk vr] rest] eqn:Hqs.
    - rewrite (owner_confirm_otp_not_found w id_no_ otp_ Hqs).
      exists 0%nat. reflexivity.
    - exists pk. intros pk' Hne.
      destruct (Z.lt_ge_cases (otp_expires_at vr) (clock w (ticks w))) as [Hlt|Hle].
      + rewrite (owner_confirm_otp_expired w id_no_ otp_ pk vr rest Hqs Hlt). cbn.
        apply list_lookup_insert_ne. congruence.
      + rewrite (owner_confirm_otp_confirmed w id_no_ otp_ pk vr rest Hqs Hle). cbn.
        apply list_lookup_insert_ne. congruence. }
  split; [exact Hone|].
  intros id_no_ otp_ pk1 pk2 r1 r2 _ Hne H1 H2 _ _.
  destruct Hone as (pk & Hkeep).
  destruct (Nat.eq_dec pk1 pk) as [->|Hne1].
  - right. rewrite Hkeep by congruence. exact H2.
  - left. rewrite Hkeep by exact Hne1. exact H1.
Qed.

Lemma confirm_writes_one_request_witness :
  let w := world_at [pending_request; pending_request] 2000 in
  let s' := store (snd (owner_confirm_otp (POST ("A123", "123456")) w)) in
  requests s' !! 0%nat = Some pending_request
  \/ requests s' !! 1%nat = Some pending_request.
Proof.
  apply (proj2 (confirm_writes_one_request
                  (world_at [pending_request; pending_request] 2000)
                  (POST ("A123", "123456")))
               "A123" "123456" 0%nat 1%nat pending_request pending_request);
    try reflexivity.
  discriminate.
Defined.

(** ** Delivery *)

(** X16: [send_otp_to_owner] never touches the store or the clock. It
    raises exactly when the owner has an email and [send_mail] fails, and
    then nothing is sent or printed; otherwise it prints one line, greeting
    the owner by full name or, when the name is empty, by [id_no], and
    sends one mail, to the owner's email with the OTP and the expiry,
    exactly when the owner has an email. *)
Theorem send_otp_to_owner_delivery (owner_ : OwnerProfile) (otp_ : string)
    (request_obj : VerificationRequest) (w : World) :
  let result := send_otp_to_owner owner_ otp_ request_obj w in
  let w' := snd result in
  let greeting := if String.eqb (full_name owner_) "" then owner_profile_id_no owner_
                  else full_name owner_ in
  store w' = store w /\ ticks w' = ticks w /\ clock w' = clock w
  /\ (fst result = None <-> email owner_ <> "" /\ smtp_up w = false)
  /\ (fst result = None -> w' = w)
  /\ (fst result = Some tt ->
      console w' = (console w
                    ++ [DEBUG_OTP_SEND greeting otp_ (otp_expires_at request_obj)])%list
      /\ (email owner_ = "" -> outbox w' = outbox w)
      /\ (email owner_ <> "" ->
          outbox w' = (outbox w
                       ++ [{| recipient := email owner_; mail_otp := otp_;
                              mail_expires := otp_expires_at request_obj |}])%list)).
Proof.
  unfold send_otp_to_owner, send_mail, bind, ret, print.
  destruct (String.eqb_spec (email owner_) "") as [Hnone|Hmail]; cbn.
  - repeat split; try discriminate; try tauto;
      try (intros [H1 H2]; congruence).
  - destruct (smtp_up w) eqn:Hsmtp; cbn;
      repeat split; try discriminate; try tauto;
      try (intros [H1 H2]; congruence).
Qed.

Lemma send_otp_to_owner_delivery_witness :
  fst (send_otp_to_owner ann "123456" pending_request (world_at [] 2000)) = None
  /\ snd (send_otp_to_owner ann "123456" pending_request (world_at [] 2000))
     = world_at [] 2000.
Proof.
  destruct (send_otp_to_owner_delivery ann "123456" pending_request (world_at [] 2000))
    as (_ & _ & _ & Hraises & Hnothing & _).
  assert (Hnone : fst (send_otp_to_owner ann "123456" pending_request
                         (world_at [] 2000)) = None).
  { apply Hraises. split; [discriminate | reflexivity]. }
  split; [exact Hnone | exact (Hnothing Hnone)].
Defined.

(** * Roles, institutions and certificates *)

(** ** Roles *)

Lemma in_group_spec st u name_ :
  in_group name_ (group_names st u) = true <-> member_of st u name_.
Proof.
  unfold in_group, group_names, member_of. rewrite existsb_exists. split.
  - intros (x & Hin & Heq). apply String.eqb_eq in Heq. subst x.
    apply in_map_iff in Hin. destruct Hin as ([p g] & Hg & Hin).
    apply filter_In in Hin. destruct Hin as [Hin Hp].
    cbn in *. apply Nat.eqb_eq in Hp. now subst.
  - intros Hin. exists name_. split; [|apply String.eqb_refl].
    apply in_map_iff. exists (user_pk u, name_). split; [reflexivity|].
    apply filter_In. split; [exact Hin | apply Nat.eqb_refl].
Qed.

Lemma is_government_user_spec st u :
  is_government_user st (LoggedIn u) = true <->
  is_superuser u = true \/ member_of st u "government".
Proof.
  unfold is_government_user, member_of.
  destruct (is_superuser u); [split; auto|].
  rewrite existsb_exists. split.
  - intros ([p g] & Hin & Heq). apply andb_true_iff in Heq. cbn in Heq.
    destruct Heq as [Hp Hg]. apply Nat.eqb_eq in Hp. apply String.eqb_eq in Hg.
    subst. now right.
  - intros [H|Hin]; [discriminate|].
    exists (user_pk u, "government"). split; [exact Hin|].
    cbn. now rewrite Nat.eqb_refl.
Qed.

(** X17: the role flags of [_user_roles]. An anonymous user holds none and
    a superuser holds all five; any other user holds [is_government],
    [is_institution_staff], [is_business_hr], [is_owner] exactly when a
    member of the group of that name, and never [is_admin]. The
    [is_government] flag is, for every user, the test [is_government_user]
    that guards the government handlers. *)
Theorem user_roles_follow_groups (st : Site) (user : Actor) :
  is_government (_user_roles st user) = is_government_user st user
  /\ match user with
     | AnonymousUser =>
         _user_roles st user
         = {| is_government := false; is_institution_staff := false;
              is_business_hr := false; is_owner := false; is_admin := false |}
     | LoggedIn u =>
         (is_superuser u = true ->
          _user_roles st user
          = {| is_government := true; is_institution_staff := true;
               is_business_hr := true; is_owner := true; is_admin := true |})
         /\ (is_superuser u = false ->
             (is_government (_user_roles st user) = true
              <-> member_of st u "government")
             /\ (is_institution_staff (_user_roles st user) = true
                 <-> member_of st u "institution_staff")
             /\ (is_business_hr (_user_roles st user) = true
                 <-> member_of st u "business_hr")
             /\ (is_owner (_user_roles st user) = true <-> member_of st u "owner")
             /\ is_admin (_user_roles st user) = false)
     end.
Proof.
  split.
  - destruct user as [|u]; [reflexivity|].
    apply eq_true_iff_eq. rewrite is_government_user_spec. cbn.
    rewrite orb_true_iff, in_group_spec. reflexivity.
  - destruct user as [|u]; [reflexivity|]. split.
    + intros Hsu. cbn. now rewrite Hsu.
    + intros Hsu. cbn. rewrite Hsu. cbn. rewrite !in_group_spec. tauto.
Qed.

Lemma user_roles_follow_groups_witness :
  is_institution_staff (_user_roles (campus [] 0) (LoggedIn bob)) = true
  /\ is_admin (_user_roles (campus [] 0) (LoggedIn bob)) = false.
Proof.
  destruct (user_roles_follow_groups (campus [] 0) (LoggedIn bob))
    as (_ & _ & Hgroups).
  destruct (Hgroups eq_refl) as (_ & Hstaff & _ & _ & Hadmin).
  split; [|exact Hadmin]. apply Hstaff. right. now left.
Defined.

(** ** Certificate management *)

Lemma staff_check_spec u inst :
  _user_is_institution_staff u inst = true <->
  is_superuser u = true \/ In (user_pk u) (institution_staff inst).
Proof.
  unfold _user_is_institution_staff. destruct (is_superuser u); [split; auto|].
  rewrite existsb_exists. split.
  - intros (x & Hin & Heq). apply Nat.eqb_eq in Heq. subst x. now right.
  - intros [H|H]; [discriminate|]. exists (user_pk u). split; [exact H|].
    apply Nat.eqb_refl.
Qed.

Lemma managing_spec st user inst_id :
  match managing st user inst_id with
  | inr (u, inst) =>
      user = LoggedIn u /\ institutions st !! inst_id = Some inst
      /\ (is_superuser u = true \/ In (user_pk u) (institution_staff inst))
  | inl resp =>
      ~ may_manage st user inst_id
      /\ (user = AnonymousUser -> resp = site_redirect_to_login)
      /\ (forall u, user = LoggedIn u ->
            (institutions st !! inst_id = None -> resp = site_not_found)
            /\ (institutions st !! inst_id <> None ->
                resp = site_forbidden msg_not_institution_staff))
  end.
Proof.
  unfold managing, may_manage. destruct user as [|u].
  - split; [intros (u & i & H & _); discriminate H|].
    split; [reflexivity | discriminate].
  - destruct (institutions st !! inst_id) as [inst|] eqn:Hinst.
    + destruct (_user_is_institution_staff u inst) eqn:Hstaff; cbn.
      * split; [reflexivity|]. split; [reflexivity|]. now apply staff_check_spec.
      * split.
        -- intros (u' & i & Hu & Hi & Hs). inversion Hu; subst u'.
           assert (i = inst) by congruence. subst i.
           apply staff_check_spec in Hs. congruence.
        -- split; [discriminate|]. intros u' _. split; [discriminate | reflexivity].
    + split.
      * intros (u' & i & _ & Hi & _). discriminate Hi.
      * split; [discriminate|]. intros u' _.
        split; [reflexivity | intros H; now destruct H].
Qed.

(** X18: the four certificate handlers let in only logged-in superusers
    and staff of the institution. Anyone else changes nothing and is
    answered by the login redirect (anonymous), a 404 (no such institution)
    or a 403 (not staff), whatever the method and the form. *)
Theorem certificate_handlers_are_guarded (st : Site) (app : App) (user : Actor)
    (inst_id pk : nat) (sub : Submission CertificateForm) (is_post : bool) :
  ~ may_manage st user inst_id ->
  exists resp,
    institution_cert_list user inst_id st = (resp, st)
    /\ institution_cert_create app user inst_id sub st = (resp, st)
    /\ institution_cert_edit app user inst_id pk sub st = (resp, st)
    /\ institution_cert_delete app user inst_id pk is_post st = (resp, st)
    /\ (user = AnonymousUser -> resp = site_redirect_to_login)
    /\ (forall u, user = LoggedIn u ->
          (institutions st !! inst_id = None -> resp = site_not_found)
          /\ (institutions st !! inst_id <> None ->
              resp = site_forbidden msg_not_institution_staff)).
Proof.
  intros Hnot. pose proof (managing_spec st user inst_id) as Hm.
  unfold institution_cert_list, institution_cert_create, institution_cert_edit,
    institution_cert_delete.
  destruct (managing st user inst_id) as [resp|[u inst]].
  - exists resp. destruct Hm as (_ & Hanon & Hlogged). repeat split; auto;
      intros; now apply (Hlogged u).
  - exfalso. apply Hnot. exists u, inst. exact Hm.
Qed.

Lemma certificate_handlers_are_guarded_witness :
  institution_cert_delete core_app (LoggedIn alice) 0 7 true (campus [] 1000)
  = (site_forbidden msg_not_institution_staff, campus [] 1000).
Proof.
  destruct (certificate_handlers_are_guarded (campus [] 1000) core_app
              (LoggedIn alice) 0 7 GET true)
    as (resp & _ & _ & _ & Hdelete & _ & Hlogged).
  - intros (u & inst & Hu & Hinst & Hs). inversion Hu; subst u.
    inversion Hinst; subst inst. destruct Hs as [H|[H|[]]]; discriminate H.
  - rewrite Hdelete. f_equal. apply (Hlogged alice eq_refl). discriminate.
Defined.

Lemma managing_inr st user inst_id :
  may_manage st user inst_id ->
  exists u inst,
    managing st user inst_id = inr (u, inst)
    /\ user = LoggedIn u /\ institutions st !! inst_id = Some inst.
Proof.
  intros Hmay. pose proof (managing_spec st user inst_id) as Hm.
  destruct (managing st user inst_id) as [resp|[u inst]].
  - now destruct Hm as [Hnot _].
  - exists u, inst. destruct Hm as (Hu & Hi & _). auto.
Qed.

Lemma resolve_owner_spec s id_no_ owner_ :
  resolve_owner s id_no_ = Some owner_ ->
  match owner_ with
  | Some opk => exists o, owners s !! opk = Some o /\ owner_profile_id_no o = id_no_
  | None => forall o, In o (owners s) -> owner_profile_id_no o <> id_no_
  end.
Proof.
  unfold resolve_owner.
  destruct (OwnerProfile_get s id_no_) as [opk o| |] eqn:Hget; intros H;
    inversion H; subst owner_.
  - exists o. now apply OwnerProfile_get_Got.
  - intros o Hin Hid. apply (OwnerProfile_get_DoesNotExist _ _ Hget).
    apply in_map_iff. eauto.
Qed.

Lemma coherent_append st row w :
  coherent st ->
  certificate_pk row = next_certificate_pk st ->
  coherent (with_certificate_table (certificate_table st ++ [row])
                                   (S (next_certificate_pk st)) w st).
Proof.
  intros (Hc & Hnd & Hlt) Hpk. split; [reflexivity|]. cbn. split.
  - rewrite map_app. cbn. apply NoDup_ListNoDup, NoDup_app. repeat split.
    + now apply NoDup_ListNoDup.
    + intros x Hx Hx'. apply list_elem_of_singleton in Hx'. subst x.
      apply list_elem_of_In, in_map_iff in Hx. destruct Hx as (r & Hr & Hin).
      rewrite Forall_forall in Hlt. apply list_elem_of_In in Hin.
      specialize (Hlt r Hin). lia.
    + apply NoDup_singleton.
  - apply Forall_app. split.
    + eapply Forall_impl; [exact Hlt|]. cbn. intros r Hr. lia.
    + constructor; [lia | constructor].
Qed.

Lemma coherent_with_world st w :
  coherent st -> certificates (store w) = certificates (store (world st)) ->
  coherent (with_world w st).
Proof. intros (Hc & Hnd & Hlt) Hw. split; [cbn; congruence|]. now split. Qed.


(** X19: [institution_cert_create], for a user who may manage the
    institution, appends one certificate: under the next primary key, which
    no stored certificate has; of the institution of the URL, whatever
    institution the form names; linked to the owner profile of the
    submitted [owner_id_no] when there is one and unlinked otherwise;
    created at the clock reading of the call. It leaves the institutions,
    the requests and the owner profiles as they were, appends one audit
    entry, and keeps the certificate table and the store in agreement. *)
Theorem certificate_create_appends (st : Site) (app : App) (user : Actor)
    (inst_id : nat) (form : CertificateForm) (owner_ : option nat) :
  coherent st ->
  may_manage st user inst_id ->
  resolve_owner (store (world st)) (form_owner_id_no form) = Some owner_ ->
  let result := institution_cert_create app user inst_id (POST form) st in
  let st' := snd result in
  exists row entry,
    fst result = site_redirect (cert_list_url app) (Some inst_id)
                               [(SUCCESS, "Certificate added.")]
    /\ certificate_table st' = (certificate_table st ++ [row])%list
    /\ certificate_pk row = next_certificate_pk st
    /\ ~ In (certificate_pk row) (map certificate_pk (certificate_table st))
    /\ next_certificate_pk st' = S (next_certificate_pk st)
    /\ certificate row
       = {| institution := inst_id; owner := owner_;
            owner_id_no := form_owner_id_no form;
            owner_name := form_owner_name form;
            degree_name := form_degree_name form;
            program := form_program form;
            certificate_reference := form_certificate_reference form |}
    /\ conferral_date row = form_conferral_date form
    /\ certificate_created_at row = clock (world st) (ticks (world st))
    /\ match owner_ with
       | Some opk => exists o, owners (store (world st)) !! opk = Some o
                               /\ owner_profile_id_no o = form_owner_id_no form
       | None => forall o, In o (owners (store (world st))) ->
                           owner_profile_id_no o <> form_owner_id_no form
       end
    /\ coherent st'
    /\ institutions st' = institutions st
    /\ requests (store (world st')) = requests (store (world st))
    /\ owners (store (world st')) = owners (store (world st))
    /\ businesses (store (world st')) = businesses (store (world st))
    /\ audit_log (store (world st'))
       = (audit_log (store (world st)) ++ [entry])%list
    /\ action entry = "certificate_added"
    /\ forall u, user = LoggedIn u -> audit_user entry = Some (user_pk u).
Proof.
  intros Hco Hmay Hres result st'. subst st' result.
  destruct (managing_inr st user inst_id Hmay) as (u & inst & Hm & -> & Hinst).
  unfold institution_cert_create. rewrite Hm, Hres.
  unfold timezone_now, AuditLog_create, bind, get_store, put_store. cbn.
  eexists _, _. split; [reflexivity|]. split; [reflexivity|].
  split; [reflexivity|]. split.
  { cbn. destruct Hco as (_ & _ & Hlt). intros Hin.
    apply in_map_iff in Hin. destruct Hin as (r & Hr & Hin).
    rewrite Forall_forall in Hlt. apply list_elem_of_In in Hin.
    specialize (Hlt r Hin). lia. }
  split; [reflexivity|]. split; [reflexivity|]. split; [reflexivity|].
  split; [reflexivity|]. split; [now apply resolve_owner_spec|]. split.
  { pose (row := {| certificate_pk := next_certificate_pk st;
                    certificate :=
                      {| institution := inst_id; owner := owner_;
                         owner_id_no := form_owner_id_no form;
                         owner_name := form_owner_name form;
                         degree_name := form_degree_name form;
                         program := form_program form;
                         certificate_reference := form_certificate_reference form |};
                    conferral_date := form_conferral_date form;
                    certificate_created_at := clock (world st) (ticks (world st)) |}).
    destruct (coherent_append st row (world st) Hco eq_refl) as (_ & Hnd' & Hlt').
    split; [reflexivity|]. split; [exact Hnd' | exact Hlt']. }
  repeat split. intros u' Hu. inversion Hu; subst u'. reflexivity.
Qed.

Lemma certificate_create_appends_witness :
  exists row,
    certificate_table
      (snd (institution_cert_create institution_app (LoggedIn bob) 0 (POST bsc_form)
              (campus [] 1000)))
    = [diploma_row; row]
    /\ certificate_pk row = 8%nat
    /\ institution (certificate row) = 0%nat
    /\ owner (certificate row) = Some 0%nat.
Proof.
  destruct (certificate_create_appends (campus [] 1000) institution_app
              (LoggedIn bob) 0 bsc_form (Some 0%nat))
    as (row & entry & _ & Htable & Hpk & _ & _ & Hcert & _).
  - split; [reflexivity|]. split; [repeat constructor; intros []|].
    repeat constructor.
  - exists bob, academy. repeat split. right. now left.
  - reflexivity.
  - exists row. rewrite Hcert. repeat split; assumption.
Defined.




Lemma Certificate_get_Some st pk inst_id i cert :
  Certificate_get st pk inst_id = Some (i, cert) ->
  certificate_table st !! i = Some cert
  /\ certificate_pk cert = pk /\ institution (certificate cert) = inst_id.
Proof.
  unfold Certificate_get. intros H. apply find_some in H. destruct H as [Hin Hp].
  apply rows_In in Hin. apply andb_true_iff in Hp. cbn in Hp.
  destruct Hp as [H1 H2]. apply Nat.eqb_eq in H1, H2. auto.
Qed.

Lemma Certificate_get_None st pk inst_id :
  Certificate_get st pk inst_id = None ->
  forall r, In r (certificate_table st) ->
            ~ (certificate_pk r = pk /\ institution (certificate r) = inst_id).
Proof.
  unfold Certificate_get. intros H r Hin [Hpk Hinst].
  apply list_elem_of_In, list_elem_of_lookup in Hin. destruct Hin as (i & Hi).
  assert (Hrow : In (i, r) (rows (certificate_table st))) by now apply rows_In.
  pose proof (find_none _ _ H _ Hrow) as Hp. cbn in Hp.
  rewrite Hpk, Hinst, !Nat.eqb_refl in Hp. discriminate Hp.
Qed.

Lemma coherent_insert st i cert cert' w :
  coherent st ->
  certificate_table st !! i = Some cert ->
  certificate_pk cert' = certificate_pk cert ->
  coherent (with_certificate_table (<[i := cert']> (certificate_table st))
                                   (next_certificate_pk st) w st).
Proof.
  intros (Hc & Hnd & Hlt) Hrow Hpk. split; [reflexivity|]. cbn. split.
  - change (map certificate_pk ?l) with (certificate_pk <$> l).
    rewrite list_fmap_insert, Hpk, list_insert_id; [exact Hnd|].
    now rewrite list_lookup_fmap, Hrow.
  - apply Forall_insert; [exact Hlt|]. rewrite Hpk.
    rewrite Forall_lookup in Hlt. now apply (Hlt i).
Qed.

(** X21: [institution_cert_edit] rewrites one certificate in place. For a
    user who may manage the institution of the URL and a certificate of
    that institution, the stored certificate keeps its primary key and
    creation time and takes every field of the form, the [institution] the
    form names included, so an edit can hand the certificate to another
    institution; its owner link is resolved again; every other certificate
    is left alone. A primary key that is unknown, or that belongs to another
    institution, gets a 404 and changes nothing. *)
Theorem certificate_edit_rewrites_row (st : Site) (app : App) (user : Actor)
    (inst_id pk : nat) (form : CertificateForm) :
  coherent st ->
  may_manage st user inst_id ->
  let result := institution_cert_edit app user inst_id pk (POST form) st in
  let st' := snd result in
  (forall i cert owner_,
     Certificate_get st pk inst_id = Some (i, cert) ->
     resolve_owner (store (world st)) (form_owner_id_no form) = Some owner_ ->
     fst result = site_redirect (cert_list_url app) (Some inst_id)
                                [(SUCCESS, "Certificate updated.")]
     /\ certificate_table st'
        = <[i := {| certificate_pk := pk;
                    certificate :=
                      {| institution := form_institution form; owner := owner_;
                         owner_id_no := form_owner_id_no form;
                         owner_name := form_owner_name form;
                         degree_name := form_degree_name form;
                         program := form_program form;
                         certificate_reference := form_certificate_reference form |};
                    conferral_date := form_conferral_date form;
                    certificate_created_at := certificate_created_at cert |}]>
            (certificate_table st)
     /\ certificate_table st !! i = Some cert
     /\ (forall j, j <> i -> certificate_table st' !! j = certificate_table st !! j)
     /\ next_certificate_pk st' = next_certificate_pk st
     /\ coherent st')
  /\ (Certificate_get st pk inst_id = None ->
      result = (site_not_found, st)
      /\ forall r, In r (certificate_table st) -> certificate_pk r = pk ->
                   institution (certificate r) <> inst_id).
Proof.
  intros Hco Hmay result st'. subst st' result.
  destruct (managing_inr st user inst_id Hmay) as (u & inst & Hm & -> & Hinst).
  unfold institution_cert_edit. rewrite Hm. split.
  - intros i cert owner_ Hget Hres. rewrite Hget, Hres.
    destruct (Certificate_get_Some _ _ _ _ _ Hget) as (Hrow & Hpk & Hci).
    unfold AuditLog_create, timezone_now, bind, get_store, put_store. cbn.
    rewrite Hpk. split; [reflexivity|]. split; [reflexivity|].
    split; [exact Hrow|]. split.
    + intros j Hne. apply list_lookup_insert_ne. congruence.
    + split; [reflexivity|].
      destruct (coherent_insert st i cert
                  {| certificate_pk := pk;
                     certificate :=
                       {| institution := form_institution form; owner := owner_;
                          owner_id_no := form_owner_id_no form;
                          owner_name := form_owner_name form;
                          degree_name := form_degree_name form;
                          program := form_program form;
                          certificate_reference := form_certificate_reference form |};
                     conferral_date := form_conferral_date form;
                     certificate_created_at := certificate_created_at cert |}
                  (world st) Hco Hrow (eq_sym Hpk)) as (_ & Hnd' & Hlt').
      split; [reflexivity|]. split; [exact Hnd' | exact Hlt'].
  - intros Hget. rewrite Hget. split; [reflexivity|].
    intros r Hin Hpk Hci. exact (Certificate_get_None _ _ _ Hget r Hin (conj Hpk Hci)).
Qed.

Lemma certificate_edit_rewrites_row_witness :
  certificate_table
    (snd (institution_cert_edit core_app (LoggedIn bob) 0 7 (POST bsc_form)
            (campus [] 1000))) !! 0%nat
  = Some {| certificate_pk := 7;
            certificate :=
              {| institution := 5; owner := Some 0%nat; owner_id_no := "A123";
                 owner_name := "Ann"; degree_name := "MSc"; program := "Maths";
                 certificate_reference := "C-78" |};
            conferral_date := Some 20240101;
            certificate_created_at := 500 |}.
Proof.
  destruct (certificate_edit_rewrites_row (campus [] 1000) core_app (LoggedIn bob)
              0 7 bsc_form) as [Hedit _].
  - split; [reflexivity|]. split; [repeat constructor; intros []|].
    repeat constructor.
  - exists bob, academy. repeat split. right. now left.
  - destruct (Hedit 0%nat diploma_row (Some 0%nat) eq_refl eq_refl)
      as (_ & Htable & _).
    rewrite Htable. reflexivity.
Defined.

Lemma delete_In {A} (l : list A) i x :
  l !! i = Some x ->
  forall y, In y (delete i l) -> In y l.
Proof.
  intros Hi y Hin. rewrite <- (take_drop_middle l i x Hi).
  rewrite delete_take_drop in Hin. apply in_app_iff in Hin. apply in_app_iff.
  destruct Hin as [H|H]; [now left | right; now right].
Qed.

Lemma coherent_delete st i cert w :
  coherent st ->
  certificate_table st !! i = Some cert ->
  coherent (with_certificate_table (delete i (certificate_table st))
                                   (next_certificate_pk st) w st)
  /\ ~ In (certificate_pk cert)
          (map certificate_pk (delete i (certificate_table st)))
  /\ forall r, In r (certificate_table st) ->
               certificate_pk r <> certificate_pk cert ->
               In r (delete i (certificate_table st)).
Proof.
  intros (Hc & Hnd & Hlt) Hrow.
  pose proof (take_drop_middle _ _ _ Hrow) as Hsplit.
  rewrite delete_take_drop.
  set (before := take i (certificate_table st)) in *.
  set (after := drop (S i) (certificate_table st)) in *.
  rewrite <- Hsplit in Hnd, Hlt.
  rewrite map_app in Hnd. cbn [map] in Hnd.
  apply NoDup_ListNoDup, NoDup_app in Hnd. destruct Hnd as (Hb & Hsep & Ha).
  apply NoDup_cons in Ha. destruct Ha as [Hnot Ha].
  apply Forall_app in Hlt. destruct Hlt as [Hlb Hla].
  inversion Hla as [|? ? _ Hla']; subst.
  split; [|split].
  - split; [reflexivity|]. cbn. split.
    + rewrite map_app. apply NoDup_ListNoDup, NoDup_app. repeat split; auto.
      intros x Hx Hx'. apply (Hsep x Hx). now right.
    + apply Forall_app. now split.
  - rewrite map_app, in_app_iff. intros [H|H].
    + apply (Hsep (certificate_pk cert)); [now apply list_elem_of_In | now left].
    + apply Hnot. now apply list_elem_of_In.
  - intros r Hin Hne. rewrite <- Hsplit in Hin. apply in_app_iff in Hin.
    apply in_app_iff. destruct Hin as [H|[H|H]]; auto. now subst r.
Qed.

(** X22: [institution_cert_delete] deletes on a POST only. For a user who
    may manage the institution and a certificate of that institution, a
    POST removes exactly that certificate, from the table and from what
    views read, keeps every other one, and does not hand its primary key
    out again; any other method shows the confirmation page and changes
    nothing. A primary key that is unknown, or that belongs to another
    institution, gets a 404 and changes nothing. *)
Theorem certificate_delete_removes_row (st : Site) (app : App) (user : Actor)
    (inst_id pk : nat) (is_post : bool) :
  coherent st ->
  may_manage st user inst_id ->
  let result := institution_cert_delete app user inst_id pk is_post st in
  let st' := snd result in
  (forall i cert,
     Certificate_get st pk inst_id = Some (i, cert) ->
     (is_post = true ->
      fst result = site_redirect (cert_list_url app) (Some inst_id)
                                 [(SUCCESS, "Certificate deleted.")]
      /\ (forall r, In r (certificate_table st') <->
                    In r (certificate_table st) /\ certificate_pk r <> pk)
      /\ certificates (store (world st')) = map certificate (certificate_table st')
      /\ next_certificate_pk st' = next_certificate_pk st
      /\ (pk < next_certificate_pk st')%nat
      /\ coherent st')
     /\ (is_post = false ->
         result = (site_render "institution/institution_cert_confirm_delete.html" []
                               (certificate_delete_page inst_id cert), st)))
  /\ (Certificate_get st pk inst_id = None -> result = (site_not_found, st)).
Proof.
  intros Hco Hmay result st'. subst st' result.
  destruct (managing_inr st user inst_id Hmay) as (u & inst & Hm & -> & Hinst).
  unfold institution_cert_delete. rewrite Hm. split.
  - intros i cert Hget. rewrite Hget.
    destruct (Certificate_get_Some _ _ _ _ _ Hget) as (Hrow & Hpk & Hci).
    split; intros ->; [|reflexivity].
    unfold AuditLog_create, timezone_now, bind, get_store, put_store. cbn.
    destruct (coherent_delete st i cert (world st) Hco Hrow)
      as ((_ & Hnd' & Hlt') & Hgone & Hkept).
    rewrite Hpk in Hgone, Hkept.
    split; [reflexivity|]. split; [|split; [reflexivity|]].
    + intros r. split.
      * intros Hin. split; [now apply (delete_In _ i cert Hrow)|].
        intros Heq. apply Hgone. apply in_map_iff. now exists r.
      * intros [Hin Hne]. now apply Hkept.
    + split; [reflexivity|]. split.
      * destruct Hco as (_ & _ & Hlt). rewrite Forall_lookup in Hlt.
        rewrite <- Hpk. now apply (Hlt i).
      * split; [reflexivity|]. split; [exact Hnd' | exact Hlt'].
  - intros Hget. now rewrite Hget.
Qed.

Lemma certificate_delete_removes_row_witness :
  certificate_table
    (snd (institution_cert_delete core_app (LoggedIn bob) 0 7 true (campus [] 1000)))
  = []
  /\ snd (institution_cert_delete core_app (LoggedIn bob) 0 7 false (campus [] 1000))
     = campus [] 1000.
Proof.
  destruct (certificate_delete_removes_row (campus [] 1000) core_app (LoggedIn bob)
              0 7 true) as [Hpost _].
  { split; [reflexivity|]. split; [repeat constructor; intros []|].
    repeat constructor. }
  { exists bob, academy. repeat split. right. now left. }
  destruct (certificate_delete_removes_row (campus [] 1000) core_app (LoggedIn bob)
              0 7 false) as [Hget _].
  { split; [reflexivity|]. split; [repeat constructor; intros []|].
    repeat constructor. }
  { exists bob, academy. repeat split. right. now left. }
  split.
  - destruct (Hpost 0%nat diploma_row eq_refl) as [Hdel _].
    destruct (Hdel eq_refl) as (_ & Hin & _).
    destruct (certificate_table _) as [|r l]; [reflexivity|].
    exfalso. destruct (proj1 (Hin r) (or_introl eq_refl)) as [Hr Hne].
    destruct Hr as [<-|[]]. now apply Hne.
  - destruct (Hget 0%nat diploma_row eq_refl) as [_ Hpage].
    now rewrite (Hpage eq_refl).
Defined.

Lemma insert_cert_desc_perm x l : Permutation (insert_cert_desc x l) (x :: l).
Proof.
  induction l as [|y l IH]; cbn; [reflexivity|].
  destruct (certificate_created_at y <? certificate_created_at x); [reflexivity|].
  rewrite IH. apply perm_swap.
Qed.

Lemma order_certs_desc_perm l : Permutation (order_certs_desc l) l.
Proof.
  induction l as [|x l IH]; cbn; [reflexivity|].
  rewrite insert_cert_desc_perm. now constructor.
Qed.

Lemma insert_cert_desc_sorted x l :
  Sorted.Sorted newer_cert_first l ->
  Sorted.Sorted newer_cert_first (insert_cert_desc x l).
Proof.
  induction l as [|y l IH]; intros Hs; cbn.
  - repeat constructor.
  - destruct (Z.ltb_spec (certificate_created_at y) (certificate_created_at x))
      as [Hlt|Hge].
    + constructor; [exact Hs|]. constructor. unfold newer_cert_first. lia.
    + inversion Hs as [|? ? Hl Hhd]; subst. constructor; [now apply IH|].
      destruct l as [|z l]; cbn.
      * constructor. exact Hge.
      * destruct (certificate_created_at z <? certificate_created_at x).
        -- constructor. exact Hge.
        -- constructor. now inversion Hhd.
Qed.

Lemma order_certs_desc_sorted l :
  Sorted.StronglySorted newer_cert_first (order_certs_desc l).
Proof.
  apply Sorted.Sorted_StronglySorted.
  - intros a b c Hab Hbc. unfold newer_cert_first in *. lia.
  - induction l as [|x l IH]; cbn; [constructor | now apply insert_cert_desc_sorted].
Qed.

(** X23: [institution_cert_list], for a user who may manage the
    institution, shows exactly the certificates of that institution, each
    as often as the table holds it, the newest [created_at] first, and
    changes nothing. *)
Theorem certificate_list_shows_institution (st : Site) (user : Actor) (inst_id : nat) :
  may_manage st user inst_id ->
  exists inst shown,
    institution_cert_list user inst_id st
    = (site_render "institution/institution_cert_list.html" []
                   (certificates_page inst_id inst shown), st)
    /\ institutions st !! inst_id = Some inst
    /\ Permutation shown
         (List.filter (fun r => Nat.eqb (institution (certificate r)) inst_id)
                      (certificate_table st))
    /\ (forall r, In r shown <->
                  In r (certificate_table st)
                  /\ institution (certificate r) = inst_id)
    /\ Sorted.StronglySorted newer_cert_first shown.
Proof.
  intros Hmay.
  destruct (managing_inr st user inst_id Hmay) as (u & inst & Hm & -> & Hinst).
  unfold institution_cert_list. rewrite Hm. eexists inst, _.
  split; [reflexivity|]. split; [exact Hinst|]. split; [|split].
  - apply order_certs_desc_perm.
  - intros r. split.
    + intros Hin. apply (Permutation_in _ (order_certs_desc_perm _)) in Hin.
      apply filter_In in Hin. now rewrite Nat.eqb_eq in Hin.
    + intros [Hin Hi].
      apply (Permutation_in _ (Permutation_sym (order_certs_desc_perm _))).
      apply filter_In. split; [exact Hin | now apply Nat.eqb_eq].
  - apply order_certs_desc_sorted.
Qed.

Lemma certificate_list_shows_institution_witness :
  exists inst shown,
    institution_cert_list (LoggedIn bob) 0 (campus [] 1000)
    = (site_render "institution/institution_cert_list.html" []
                   (certificates_page 0 inst shown), campus [] 1000)
    /\ In diploma_row shown.
Proof.
  destruct (certificate_list_shows_institution (campus [] 1000) (LoggedIn bob) 0)
    as (inst & shown & Hpage & _ & _ & Hin & _).
  - exists bob, academy. repeat split. right. now left.
  - exists inst, shown. split; [exact Hpage|]. apply Hin. split; [now left|].
    reflexivity.
Defined.

(** ** Institutions ([government/views.py]) *)

Lemma governing_spec st user :
  match governing st user with
  | Some u => user = LoggedIn u
              /\ (is_superuser u = true \/ member_of st u "government")
  | None => forall u, user = LoggedIn u ->
                      is_superuser u = false /\ ~ member_of st u "government"
  end.
Proof.
  unfold governing. destruct user as [|u]; [discriminate|].
  destruct (is_government_user st (LoggedIn u)) eqn:Hgov.
  - split; [reflexivity|]. now apply is_government_user_spec.
  - intros u' Hu. inversion Hu; subst u'.
    assert (Hnot : ~ (is_superuser u = true \/ member_of st u "government")).
    { intros H. apply is_government_user_spec in H. congruence. }
    split; [|tauto]. destruct (is_superuser u); [|reflexivity]. tauto.
Qed.

(** X24: [institution_create] lets in only superusers and members of the
    [government] group; anyone else is sent to the login page and changes
    nothing. For them, a valid form with an unused [code] appends one
    institution, which starts unverified and without staff, leaves the
    institutions already there as they were, keeps the codes distinct, and
    appends one audit entry; with a [code] already in use nothing is
    stored. *)
Theorem institution_create_appends_unverified (st : Site) (user : Actor)
    (name_ code_ : string) (contact_email_ : option string) :
  let result := institution_create user (POST (name_, code_, contact_email_)) st in
  let st' := snd result in
  (governing st user = None -> result = (site_redirect_to_login, st))
  /\ (forall u, governing st user = Some u ->
        (In code_ (map code (institutions st)) -> snd result = st)
        /\ (~ In code_ (map code (institutions st)) ->
            fst result
            = site_redirect "government:institution_list" None
                [(SUCCESS, "Institution created and pending verification.")]
            /\ institutions st'
               = (institutions st
                  ++ [{| institution_name := name_; code := code_;
                         institution_contact_email := contact_email_;
                         institution_staff := []; verified := false |}])%list
            /\ (unique_codes st -> unique_codes st')
            /\ certificate_table st' = certificate_table st
            /\ requests (store (world st')) = requests (store (world st))
            /\ certificates (store (world st')) = certificates (store (world st))
            /\ exists entry,
                 audit_log (store (world st'))
                 = (audit_log (store (world st)) ++ [entry])%list
                 /\ audit_user entry = Some (user_pk u)
                 /\ action entry = "institution_added")).
Proof.
  intros result st'. subst st' result. unfold institution_create. split.
  - intros ->. reflexivity.
  - intros u ->.
    assert (Hused : existsb (fun i => String.eqb (code i) code_) (institutions st)
                    = true <-> In code_ (map code (institutions st))).
    { rewrite existsb_exists, in_map_iff. split.
      - intros (i & Hin & Heq). apply String.eqb_eq in Heq. eauto.
      - intros (i & Heq & Hin). exists i. split; [exact Hin|].
        now apply String.eqb_eq. }
    split.
    + intros Hin. apply Hused in Hin. now rewrite Hin.
    + intros Hnot.
      destruct (existsb _ (institutions st)) eqn:E;
        [now destruct Hnot; apply Hused|].
      unfold AuditLog_create, timezone_now, bind, get_store, put_store. cbn.
      repeat split.
      * unfold unique_codes. cbn. intros Hnd. rewrite map_app. cbn.
        apply NoDup_ListNoDup, NoDup_app. repeat split.
        -- now apply NoDup_ListNoDup.
        -- intros x Hx Hx'. apply list_elem_of_singleton in Hx'. subst x.
           apply Hnot. now apply list_elem_of_In.
        -- apply NoDup_singleton.
      * eexists. repeat split.
Qed.

Lemma institution_create_appends_unverified_witness :
  institutions (snd (institution_create (LoggedIn carol) (POST ("College", "CO", None))
                       (campus [] 1000)))
  = [academy;
     {| institution_name := "College"; code := "CO";
        institution_contact_email := None; institution_staff := [];
        verified := false |}]
  /\ institution_create (LoggedIn bob) (POST ("College", "CO", None)) (campus [] 1000)
     = (site_redirect_to_login, campus [] 1000).
Proof.
  split.
  - destruct (institution_create_appends_unverified (campus [] 1000) (LoggedIn carol)
                "College" "CO" None) as [_ Hgov].
    destruct (Hgov carol eq_refl) as [_ Hnew].
    destruct Hnew as (_ & Hinst & _); [|exact Hinst].
    intros [H|[]]. discriminate H.
  - apply (proj1 (institution_create_appends_unverified (campus [] 1000)
                    (LoggedIn bob) "College" "CO" None)).
    reflexivity.
Defined.

(** X25: [institution_verify] lets in only superusers and members of the
    [government] group. For them, on an institution that exists, a POST
    with action [verify] sets its [verified] flag and one with [unverify]
    clears it, whatever the flag was, changing nothing else of that
    institution and nothing of the others, and appending one audit entry;
    a POST with any other action, or with none, and a request that is no
    POST change nothing. An unknown primary key gets a 404. *)
Theorem institution_verify_sets_flag (st : Site) (user : Actor) (pk : nat)
    (post : option (option string)) :
  let result := institution_verify user pk post st in
  let st' := snd result in
  (governing st user = None -> result = (site_redirect_to_login, st))
  /\ (forall u, governing st user = Some u ->
        (institutions st !! pk = None -> result = (site_not_found, st))
        /\ forall inst, institutions st !! pk = Some inst ->
             (forall b, post = Some (Some (if b : bool then "verify" else "unverify")) ->
                institutions st' = <[pk := set_verified b inst]> (institutions st)
                /\ institutions st' !! pk
                   = Some {| institution_name := institution_name inst;
                             code := code inst;
                             institution_contact_email :=
                               institution_contact_email inst;
                             institution_staff := institution_staff inst;
                             verified := b |}
                /\ (forall k, k <> pk ->
                              institutions st' !! k = institutions st !! k)
                /\ certificate_table st' = certificate_table st
                /\ requests (store (world st')) = requests (store (world st))
                /\ exists entry,
                     audit_log (store (world st'))
                     = (audit_log (store (world st)) ++ [entry])%list
                     /\ audit_user entry = Some (user_pk u)
                     /\ action entry = (if b then "institution_verified"
                                        else "institution_unverified"))
             /\ (post = None ->
                 result = (site_render "government/institution_verify.html" []
                                       (institution_verify_page pk inst), st))
             /\ (forall action_,
                   post = Some action_ ->
                   action_ <> Some "verify" -> action_ <> Some "unverify" ->
                   result = (site_redirect "government:institution_list" None [],
                             st))).
Proof.
  intros result st'. subst st' result. unfold institution_verify. split.
  - intros ->. reflexivity.
  - intros u ->. split; [intros ->; reflexivity|].
    intros inst Hinst. rewrite Hinst.
    assert (Hlt : (pk < length (institutions st))%nat)
      by (now apply lookup_lt_Some in Hinst).
    split; [|split].
    + intros b ->.
      destruct b; cbn;
        unfold AuditLog_create, timezone_now, bind, get_store, put_store; cbn;
        (split; [reflexivity|]);
        (split; [now apply list_lookup_insert_eq|]);
        (split; [intros k Hne; apply list_lookup_insert_ne; congruence|]);
        repeat split; eexists; repeat split.
    + intros ->. reflexivity.
    + intros action_ -> Hv Hu.
      destruct action_ as [a|]; [|reflexivity].
      destruct (String.eqb_spec a "verify") as [->|_]; [now destruct Hv|].
      destruct (String.eqb_spec a "unverify") as [->|_]; [now destruct Hu|].
      reflexivity.
Qed.

Lemma institution_verify_sets_flag_witness :
  institutions (snd (institution_verify (LoggedIn carol) 0 (Some (Some "verify"))
                       (campus [] 1000)))
  = [set_verified true academy]
  /\ institution_verify (LoggedIn carol) 0 (Some (Some "approve")) (campus [] 1000)
     = (site_redirect "government:institution_list" None [], campus [] 1000).
Proof.
  destruct (institution_verify_sets_flag (campus [] 1000) (LoggedIn carol) 0
              (Some (Some "verify"))) as [_ Hgov].
  destruct (proj2 (Hgov carol eq_refl) academy eq_refl) as (Hset & _).
  destruct (institution_verify_sets_flag (campus [] 1000) (LoggedIn carol) 0
              (Some (Some "approve"))) as [_ Hgov'].
  destruct (proj2 (Hgov' carol eq_refl) academy eq_refl) as (_ & _ & Hother).
  split.
  - now destruct (Hset true eq_refl) as [-> _].
  - apply (Hother (Some "approve") eq_refl); discriminate.
Defined.

(** ** The [verified] flag and the site as a whole *)

Lemma managing_reverified f st user inst_id :
  managing (reverified f st) user inst_id
  = match managing st user inst_id with
    | inl resp => inl resp
    | inr (u, inst) => inr (u, set_verified (f inst_id) inst)
    end.
Proof.
  unfold managing. destruct user as [|u]; [reflexivity|].
  cbn [institutions reverified]. rewrite list_lookup_imap.
  destruct (institutions st !! inst_id) as [inst|]; [|reflexivity]. cbn.
  unfold _user_is_institution_staff. cbn.
  destruct (is_superuser u); [reflexivity|].
  destruct (existsb _ (institution_staff inst)); reflexivity.
Qed.

(** X26: no certificate handler consults the [verified] flag of an
    institution. Whatever the flags are set to, creating, editing and
    deleting a certificate answer the same and write the same: staff of an
    institution that the government has not verified, or has set back to
    not verified, manage its certificates like those of a verified one. *)
Theorem certificate_handlers_ignore_verified (f : nat -> bool) (st : Site)
    (app : App) (user : Actor) (inst_id pk : nat)
    (sub : Submission CertificateForm) (is_post : bool) :
  (let r := institution_cert_create app user inst_id sub st in
   institution_cert_create app user inst_id sub (reverified f st)
   = (fst r, reverified f (snd r)))
  /\ (let r := institution_cert_edit app user inst_id pk sub st in
      institution_cert_edit app user inst_id pk sub (reverified f st)
      = (fst r, reverified f (snd r)))
  /\ (let r := institution_cert_delete app user inst_id pk is_post st in
      institution_cert_delete app user inst_id pk is_post (reverified f st)
      = (fst r, reverified f (snd r))).
Proof.
  repeat split.
  - unfold institution_cert_create. rewrite managing_reverified.
    destruct (managing st user inst_id) as [resp|[u inst]]; [reflexivity|].
    destruct sub as [| |form]; try reflexivity.
    cbn [world reverified].
    destruct (resolve_owner _ _); reflexivity.
  - unfold institution_cert_edit. rewrite managing_reverified.
    destruct (managing st user inst_id) as [resp|[u inst]]; [reflexivity|].
    change (Certificate_get (reverified f st) pk inst_id)
      with (Certificate_get st pk inst_id).
    destruct (Certificate_get st pk inst_id) as [[i cert]|]; [|reflexivity].
    destruct sub as [| |form]; try reflexivity.
    cbn [world reverified].
    destruct (resolve_owner _ _); reflexivity.
  - unfold institution_cert_delete. rewrite managing_reverified.
    destruct (managing st user inst_id) as [resp|[u inst]]; [reflexivity|].
    change (Certificate_get (reverified f st) pk inst_id)
      with (Certificate_get st pk inst_id).
    destruct (Certificate_get st pk inst_id) as [[i cert]|]; [|reflexivity].
    destruct is_post; reflexivity.
Qed.

Lemma set_verified_id inst : set_verified (verified inst) inst = inst.
Proof. now destruct inst. Qed.

Lemma unique_codes_append l inst :
  List.NoDup (map code l) -> ~ In (code inst) (map code l) ->
  List.NoDup (map code (l ++ [inst])).
Proof.
  intros Hnd Hnot. rewrite map_app. cbn.
  apply NoDup_ListNoDup, NoDup_app. repeat split.
  - now apply NoDup_ListNoDup.
  - intros x Hx Hx'. apply list_elem_of_singleton in Hx'. subst x.
    apply Hnot. now apply list_elem_of_In.
  - apply NoDup_singleton.
Qed.

Lemma code_used_spec l code_ :
  existsb (fun i => String.eqb (code i) code_) l = true <-> In code_ (map code l).
Proof.
  rewrite existsb_exists, in_map_iff. split.
  - intros (i & Hin & Heq). apply String.eqb_eq in Heq. eauto.
  - intros (i & Heq & Hin). exists i. split; [exact Hin|]. now apply String.eqb_eq.
Qed.

Lemma map_code_set_verified l pk inst b :
  l !! pk = Some inst ->
  map code (<[pk := set_verified b inst]> l) = map code l.
Proof.
  intros Hrow. change (map code ?x) with (code <$> x).
  rewrite list_fmap_insert. cbn. apply list_insert_id.
  now rewrite list_lookup_fmap, Hrow.
Qed.

Lemma site_step_refl st : site_step st st.
Proof.
  repeat split; [lia|]. intros pk inst H. exists (verified inst).
  now rewrite set_verified_id.
Qed.

Lemma site_step_trans a b c : site_step a b -> site_step b c -> site_step a c.
Proof.
  intros (Hg & Hn & Hi) (Hg' & Hn' & Hi'). repeat split; [congruence | lia |].
  intros pk inst H. destruct (Hi _ _ H) as [b1 H1].
  destruct (Hi' _ _ H1) as [b2 H2]. exists b2. exact H2.
Qed.

Lemma site_step_same_institutions st st' :
  auth_user_groups st' = auth_user_groups st ->
  (next_certificate_pk st <= next_certificate_pk st')%nat ->
  institutions st' = institutions st ->
  site_step st st'.
Proof.
  intros Hg Hn Hi. repeat split; [exact Hg | exact Hn |].
  intros pk inst H. exists (verified inst). now rewrite Hi, set_verified_id.
Qed.

Lemma site_handle_keeps op st :
  coherent st -> unique_codes st ->
  coherent (site_handle op st) /\ unique_codes (site_handle op st)
  /\ site_step st (site_handle op st).
Proof.
  intros Hco Huc.
  assert (Hsame : coherent st /\ unique_codes st /\ site_step st st)
    by (repeat split; try apply Hco; try exact Huc; apply site_step_refl).
  destruct op as [op|user inst_id|app user inst_id sub|app user inst_id pk sub
                  |app user inst_id pk is_post|user|user sub|user pk post];
    cbn [site_handle].
  - destruct (handle_frame op (world st)) as (_ & Hcert & _).
    split; [now apply coherent_with_world|].
    split; [exact Huc|]. apply site_step_same_institutions; cbn; auto.
  - unfold institution_cert_list.
    destruct (managing st user inst_id) as [resp|[u inst]]; exact Hsame.
  - unfold institution_cert_create.
    destruct (managing st user inst_id) as [resp|[u inst]]; [exact Hsame|].
    destruct sub as [| |form]; try exact Hsame.
    destruct (resolve_owner _ _) as [owner_|]; [|exact Hsame].
    unfold AuditLog_create, timezone_now, bind, get_store, put_store. cbn.
    pose (row := {| certificate_pk := next_certificate_pk st;
                    certificate :=
                      {| institution := inst_id; owner := owner_;
                         owner_id_no := form_owner_id_no form;
                         owner_name := form_owner_name form;
                         degree_name := form_degree_name form;
                         program := form_program form;
                         certificate_reference := form_certificate_reference form |};
                    conferral_date := form_conferral_date form;
                    certificate_created_at := clock (world st) (ticks (world st)) |}).
    destruct (coherent_append st row (world st) Hco eq_refl) as (_ & Hnd' & Hlt').
    split; [split; [reflexivity|]; split; [exact Hnd' | exact Hlt']|].
    split; [exact Huc|]. apply site_step_same_institutions; cbn; auto.
  - unfold institution_cert_edit.
    destruct (managing st user inst_id) as [resp|[u inst]]; [exact Hsame|].
    destruct (Certificate_get st pk inst_id) as [[i cert]|] eqn:Hget;
      [|exact Hsame].
    destruct sub as [| |form]; try exact Hsame.
    destruct (resolve_owner _ _) as [owner_|]; [|exact Hsame].
    unfold AuditLog_create, timezone_now, bind, get_store, put_store. cbn.
    destruct (Certificate_get_Some _ _ _ _ _ Hget) as (Hrow & _).
    pose (row := {| certificate_pk := certificate_pk cert;
                    certificate :=
                      {| institution := form_institution form; owner := owner_;
                         owner_id_no := form_owner_id_no form;
                         owner_name := form_owner_name form;
                         degree_name := form_degree_name form;
                         program := form_program form;
                         certificate_reference := form_certificate_reference form |};
                    conferral_date := form_conferral_date form;
                    certificate_created_at := certificate_created_at cert |}).
    destruct (coherent_insert st i cert row (world st) Hco Hrow eq_refl)
      as (_ & Hnd' & Hlt').
    split; [split; [reflexivity|]; split; [exact Hnd' | exact Hlt']|].
    split; [exact Huc|]. apply site_step_same_institutions; cbn; auto.
  - unfold institution_cert_delete.
    destruct (managing st user inst_id) as [resp|[u inst]]; [exact Hsame|].
    destruct (Certificate_get st pk inst_id) as [[i cert]|] eqn:Hget;
      [|exact Hsame].
    destruct is_post; [|exact Hsame].
    unfold AuditLog_create, timezone_now, bind, get_store, put_store. cbn.
    destruct (Certificate_get_Some _ _ _ _ _ Hget) as (Hrow & _).
    destruct (coherent_delete st i cert (world st) Hco Hrow)
      as ((_ & Hnd' & Hlt') & _).
    split; [split; [reflexivity|]; split; [exact Hnd' | exact Hlt']|].
    split; [exact Huc|]. apply site_step_same_institutions; cbn; auto.
  - unfold institution_list. destruct (governing st user); exact Hsame.
  - unfold institution_create.
    destruct (governing st user) as [u|]; [|exact Hsame].
    destruct sub as [| |[[name_ code_] contact_email_]]; try exact Hsame.
    destruct (existsb _ (institutions st)) eqn:Hused; [exact Hsame|].
    unfold AuditLog_create, timezone_now, bind, get_store, put_store. cbn.
    split; [exact Hco|]. split.
    + unfold unique_codes. cbn. apply unique_codes_append; [exact Huc|].
      cbn. intros Hin. apply code_used_spec in Hin. congruence.
    + repeat split; cbn; [lia|]. intros k inst Hk. exists (verified inst).
      rewrite set_verified_id. now apply lookup_app_l_Some.
  - unfold institution_verify.
    destruct (governing st user) as [u|]; [|exact Hsame].
    destruct (institutions st !! pk) as [inst|] eqn:Hinst; [|exact Hsame].
    assert (Hflag : forall b w,
              let st' := with_institutions
                           (<[pk := set_verified b inst]> (institutions st)) w st in
              certificates (store w) = certificates (store (world st)) ->
              coherent st' /\ unique_codes st' /\ site_step st st').
    { intros b w st' Hw. split.
      - destruct Hco as (Hc & Hnd & Hlt). split; [cbn; congruence|]. now split.
      - split.
        + unfold unique_codes. cbn. now rewrite map_code_set_verified.
        + repeat split; cbn; [lia|]. intros k inst' Hk.
          destruct (Nat.eq_dec k pk) as [->|Hne].
          * exists b. rewrite list_lookup_insert_eq; [congruence|].
            now apply lookup_lt_Some in Hinst.
          * exists (verified inst'). rewrite set_verified_id.
            rewrite list_lookup_insert_ne; [exact Hk | congruence]. }
    destruct post as [action_|]; [|exact Hsame].
    destruct (match action_ with Some a => String.eqb a "verify" | None => false end).
    + unfold AuditLog_create, timezone_now, bind, get_store, put_store. cbn.
      apply Hflag. reflexivity.
    + destruct (match action_ with Some a => String.eqb a "unverify"
                                 | None => false end); [|exact Hsame].
      unfold AuditLog_create, timezone_now, bind, get_store, put_store. cbn.
      apply Hflag. reflexivity.
Qed.

(** X27: whatever requests the site serves, in whatever order, the
    certificates that the HR views read stay the columns of the certificate
    table, certificate primary keys stay distinct and below the next one to
    hand out (which never goes down: the key of a deleted certificate is not
    given out again), institution codes stay distinct, group membership is
    not touched, and an institution is never removed nor changed in anything
    but its [verified] flag. *)
Theorem site_stays_coherent (ops : list SiteOperation) (st : Site) :
  coherent st -> unique_codes st ->
  let st' := site_run ops st in
  coherent st' /\ unique_codes st'
  /\ auth_user_groups st' = auth_user_groups st
  /\ (next_certificate_pk st <= next_certificate_pk st')%nat
  /\ forall pk inst, institutions st !! pk = Some inst ->
       exists b, institutions st' !! pk = Some (set_verified b inst).
Proof.
  intros Hco Huc st'. subst st'.
  enough (H : coherent (site_run ops st) /\ unique_codes (site_run ops st)
              /\ site_step st (site_run ops st)) by exact H.
  revert st Hco Huc. induction ops as [|op ops IH]; intros st Hco Huc; cbn.
  - repeat split; try apply Hco; try exact Huc; apply site_step_refl.
  - destruct (site_handle_keeps op st Hco Huc) as (Hco' & Huc' & Hstep).
    destruct (IH _ Hco' Huc') as (Hco'' & Huc'' & Hstep'').
    split; [exact Hco''|]. split; [exact Huc''|].
    eapply site_step_trans; eassumption.
Qed.

Lemma site_stays_coherent_witness :
  let st' := site_run [Gov_institution_verify (LoggedIn carol) 0 (Some (Some "verify"));
                       Cert_create core_app (LoggedIn bob) 0 (POST bsc_form);
                       Cert_delete institution_app (LoggedIn bob) 0 7 true;
                       On_requests (Hr_request_list (LoggedIn bob))]
                      (campus [] 1000) in
  coherent st' /\ unique_codes st'
  /\ auth_user_groups st' = auth_user_groups (campus [] 1000)
  /\ (8 <= next_certificate_pk st')%nat
  /\ forall pk inst, institutions (campus [] 1000) !! pk = Some inst ->
       exists b, institutions st' !! pk = Some (set_verified b inst).
Proof.
  apply (site_stays_coherent _ (campus [] 1000)).
  - split; [reflexivity|]. split.
    + cbn. constructor; [intros []|constructor].
    + repeat constructor.
  - unfold unique_codes. cbn. constructor; [intros []|constructor].
Defined.
